(** * Snowflake SQL REST API client: a shallow embedding of
      [snowflake_sql_api.py] and the properties of its token cache,
      statement executor and result normaliser. *)

From Stdlib Require Import ZArith QArith Lqa Lia String List.
From stdpp Require Import base option gmap strings list fin_maps.

Local Open Scope Z_scope.

Set Warnings "-register-all".

(** ** JSON values, as [json.loads] hands them to Python. *)

(** [None], [bool], [int], [float], [str], [list] and [dict].  Floats are
    idealised as exact rationals. *)
Inductive json : Type :=
| JNull
| JBool (b : bool)
| JInt (n : Z)
| JFloat (q : Q)
| JStr (s : string)
| JList (l : list json)
| JObject (m : gmap string json).

(** ** Exceptions and results. *)

(** One constructor per [raise] of the module and per built-in error its
    subscript, attribute and arithmetic operations can throw.
    [FuelExhausted] is not a Python exception: it marks a loop model that
    ran out of unrollings, and is shown never to surface. *)
Inductive exn : Type :=
| RefreshFailed (status : Z) (text : string)
| ExecutionFailed (status : Z) (text : string)
| StatusFailed (status : Z) (text : string)
| AsyncSubmissionFailed (status : Z) (text : string)
| TimedOut (timeout : Z)
| KeyError (key : string)
| TypeError
| AttributeError
| JSONDecodeError
| OverflowError
| FuelExhausted.

Inductive Result (A : Type) : Type :=
| Ok (a : A)
| Raise (e : exn).
Arguments Ok {A} a.
Arguments Raise {A} e.

(** Sequencing of computations that may raise, the computation before
    its continuation, as the statements of the source read. *)
Definition bind {A B : Type} (r : Result A) (f : A -> Result B) : Result B :=
  match r with
  | Ok a => f a
  | Raise e => Raise e
  end.

Notation "'let!' x ':=' m 'in' k" := (bind m (fun x => k))
  (at level 10, x name, m at level 100, k at level 200).

Definition returns {A} (r : Result A) : bool :=
  match r with Ok _ => true | Raise _ => false end.

(** ** Python's operations on JSON values. *)

Module Py.

(** [bool(x)]: truthiness. *)
Definition truthy (j : json) : bool :=
  match j with
  | JNull => false
  | JBool b => b
  | JInt n => negb (n =? 0)
  | JFloat q => negb (Qeq_bool q 0)
  | JStr s => negb (String.eqb s "")
  | JList l => match l with [] => false | _ => true end
  | JObject m => match map_to_list m with [] => false | _ => true end
  end.

(** [a or b]. *)
Definition or (a b : json) : json := if truthy a then a else b.

(** [d.get(k, default)]; only dicts have the attribute. *)
Definition get (d : json) (k : string) (default : json) : Result json :=
  match d with
  | JObject m => Ok (from_option id default (m !! k))
  | _ => Raise AttributeError
  end.

(** [d[k]] with a string key. *)
Definition subscript (d : json) (k : string) : Result json :=
  match d with
  | JObject m =>
      match m !! k with
      | Some v => Ok v
      | None => Raise (KeyError k)
      end
  | _ => Raise TypeError
  end.

Definition is_str (k : string) (j : json) : bool :=
  match j with JStr s => String.eqb s k | _ => false end.

Fixpoint substring_of (k s : string) : bool :=
  String.prefix k s ||
  match s with
  | EmptyString => false
  | String _ s' => substring_of k s'
  end.

(** [k in c] with a string [k]: key membership for a dict, element
    membership for a list, substring test for a str. *)
Definition contains (k : string) (c : json) : Result bool :=
  match c with
  | JObject m => Ok (bool_decide (is_Some (m !! k)))
  | JList l => Ok (existsb (is_str k) l)
  | JStr s => Ok (substring_of k s)
  | _ => Raise TypeError
  end.

Fixpoint chars (s : string) : list json :=
  match s with
  | EmptyString => []
  | String c s' => JStr (String c EmptyString) :: chars s'
  end.

(** [for x in c]: the elements of a list, the keys of a dict, the
    characters of a str. *)
Definition iter (c : json) : Result (list json) :=
  match c with
  | JList l => Ok l
  | JObject m => Ok (JStr <$> (map_to_list m).*1)
  | JStr s => Ok (chars s)
  | _ => Raise TypeError
  end.

(** The first integer, in absolute value, that does not convert to a
    float: it rounds to 2^1024, one past the largest double. *)
Definition float_limit : Z := 2 ^ 1024 - 2 ^ 970.
Arguments float_limit : simpl never.

(** [x * 0.9] and the like: the numeric value of an operand of a float
    product; [bool] is a subclass of [int], and an [int] too large for a
    float raises [OverflowError]. *)
Definition as_number (j : json) : Result Q :=
  match j with
  | JBool b => Ok (if b then 1%Q else 0%Q)
  | JInt n =>
      if Z.abs n <? float_limit then Ok (inject_Z n) else Raise OverflowError
  | JFloat q => Ok q
  | _ => Raise TypeError
  end.

(** [[f(x) for x in xs]], stopping at the first exception. *)
Fixpoint comprehension {A B} (f : A -> Result B) (xs : list A) : Result (list B) :=
  match xs with
  | [] => Ok []
  | x :: xs' => let! y := f x in let! ys := comprehension f xs' in Ok (y :: ys)
  end.

End Py.

(** ** [SnowflakeAPI._format_result] *)

(** The body of the list comprehension over [metadata['rowType']]. *)
Definition column (col : json) : Result json :=
  let! name := Py.subscript col "name" in
  let! type := Py.subscript col "type" in
  let! nullable := Py.get col "nullable" (JBool true) in
  Ok (JObject (<["name" := name]> (<["type" := type]> {["nullable" := nullable]}))).

Definition _format_result (result : json) : Result (gmap string json) :=
  let! statement_handle := Py.get result "statementHandle" JNull in
  let! success := Py.contains "resultSetMetaData" result in
  let formatted : gmap string json :=
    <["statement_handle" := statement_handle]>
    (<["success" := JBool success]>
    (<["row_count" := JInt 0]>
    (<["columns" := JList []]>
    {["data" := JList []]}))) in
  let! has_metadata := Py.contains "resultSetMetaData" result in
  let! formatted :=
    (if has_metadata then
       let! metadata := Py.subscript result "resultSetMetaData" in
       let! row_count := Py.get metadata "numRows" (JInt 0) in
       let formatted := <["row_count" := row_count]> formatted in
       let! has_row_type := Py.contains "rowType" metadata in
       let! formatted :=
         (if has_row_type then
            let! row_type := Py.subscript metadata "rowType" in
            let! cols := Py.iter row_type in
            let! columns := Py.comprehension column cols in
            Ok (<["columns" := JList columns]> formatted)
          else Ok formatted) in
       let! has_data := Py.contains "data" result in
       if has_data then
         let! data := Py.subscript result "data" in
         Ok (<["data" := data]> formatted)
       else Ok formatted
     else Ok formatted) in
  let! has_message := Py.contains "message" result in
  let! formatted :=
    (if has_message then
       let! message := Py.subscript result "message" in
       Ok (<["message" := message]> formatted)
     else Ok formatted) in
  let! has_code := Py.contains "code" result in
  if has_code then
    let! code := Py.subscript result "code" in
    Ok (<["code" := code]> formatted)
  else Ok formatted.

(** ** The world the client runs in. *)

(** Time is the reading of [time.time()], in seconds, idealised as an exact
    rational.  Local computation takes no time; only the network and
    [time.sleep] advance the clock, by a non-negative amount. *)
Record delay : Type := { d_num : N; d_den : positive }.

Definition seconds (d : delay) : Q := Z.of_N (d_num d) # d_den d.

Definition Qlt_bool (x y : Q) : bool := negb (Qle_bool y x).

Inductive Method : Type := GET | POST.

(** The endpoints the f-strings of the source build from [base_url]; the
    statement handle stays the value that was interpolated. *)
Inductive Url : Type :=
| token_url
| sql_url
| status_url (statement_handle : json)
| cancel_url (statement_handle : json).

(** A call of [requests.post] or [requests.get]: [bearer] is the token
    interpolated into the [Authorization] header, [headers] the constant
    headers, [data] the form fields, [payload] the [json=] body. *)
Record Request : Type := {
  method : Method;
  url : Url;
  bearer : option json;
  headers : gmap string string;
  data : gmap string string;
  payload : option (gmap string json);
  issued_at : Q
}.

(** [json_body] is what [response.json()] parses, [None] when the body is
    not JSON; [elapsed] is the round trip. *)
Record Response : Type := {
  status_code : Z;
  text : string;
  json_body : option json;
  elapsed : delay
}.

(** The service answers a request knowing everything sent so far (newest
    first); [oversleep] is how much longer than asked a sleep lasts. *)
Record Env : Type := {
  server : list Request -> Request -> Response;
  oversleep : Q -> delay
}.

(** [token_lookups] counts the calls of [_get_access_token]; it is ghost
    state, read by no code. *)
Record World : Type := {
  clock : Q;
  log : list Request;
  token_lookups : nat
}.

(** The attributes of a [SnowflakeAPI] instance that its methods read or
    write. *)
Record SnowflakeAPI : Type := {
  oauth_client_id : string;
  oauth_client_secret : string;
  refresh_token : string;
  database : string;
  schema : string;
  _access_token : json;
  _token_expires_at : Q
}.

Record St : Type := { self : SnowflakeAPI; world : World }.

(** A method body: it reads and writes the instance and the world, and
    returns or raises; the state survives an exception. *)
Definition Exec (A : Type) : Type := St -> Result A * St.

Definition ret {A} (a : A) : Exec A := fun st => (Ok a, st).
Definition raise {A} (e : exn) : Exec A := fun st => (Raise e, st).
Definition lift {A} (r : Result A) : Exec A := fun st => (r, st).

Definition bindE {A B} (m : Exec A) (k : A -> Exec B) : Exec B := fun st =>
  match m st with
  | (Ok a, st') => k a st'
  | (Raise e, st') => (Raise e, st')
  end.

Notation "'let*' x ':=' m 'in' k" := (bindE m (fun x => k))
  (at level 10, x name, m at level 100, k at level 200).

Definition get_self : Exec SnowflakeAPI := fun st => (Ok (self st), st).

Definition set_access_token (v : json) : Exec unit := fun st =>
  let s := self st in
  (Ok tt,
   {| self := {| oauth_client_id := oauth_client_id s;
                 oauth_client_secret := oauth_client_secret s;
                 refresh_token := refresh_token s;
                 database := database s;
                 schema := schema s;
                 _access_token := v;
                 _token_expires_at := _token_expires_at s |};
      world := world st |}).

Definition set_token_expires_at (t : Q) : Exec unit := fun st =>
  let s := self st in
  (Ok tt,
   {| self := {| oauth_client_id := oauth_client_id s;
                 oauth_client_secret := oauth_client_secret s;
                 refresh_token := refresh_token s;
                 database := database s;
                 schema := schema s;
                 _access_token := _access_token s;
                 _token_expires_at := t |};
      world := world st |}).

Definition count_lookup : Exec unit := fun st =>
  let w := world st in
  (Ok tt,
   {| self := self st;
      world := {| clock := clock w; log := log w;
                  token_lookups := S (token_lookups w) |} |}).

(** [time.time()] *)
Definition time_time : Exec Q := fun st => (Ok (clock (world st)), st).

(** [response.json()] *)
Definition response_json (r : Response) : Result json :=
  match json_body r with
  | Some j => Ok j
  | None => Raise JSONDecodeError
  end.

Section Client.

Variable env : Env.

(** [time.sleep(secs)] *)
Definition time_sleep (secs : Q) : Exec unit := fun st =>
  let w := world st in
  (Ok tt,
   {| self := self st;
      world := {| clock := clock w + secs + seconds (oversleep env (clock w));
                  log := log w;
                  token_lookups := token_lookups w |} |}).

(** One HTTP round trip: the request is issued at the current clock,
    recorded, and answered after the response's round-trip time. *)
Definition requests (m : Method) (u : Url) (b : option json)
    (h d : gmap string string) (p : option (gmap string json)) : Exec Response :=
  fun st =>
    let w := world st in
    let req := {| method := m; url := u; bearer := b; headers := h;
                  data := d; payload := p; issued_at := clock w |} in
    let resp := server env (log w) req in
    (Ok resp,
     {| self := self st;
        world := {| clock := clock w + seconds (elapsed resp);
                    log := req :: log w;
                    token_lookups := token_lookups w |} |}).

Definition requests_post := requests POST.
Definition requests_get (u : Url) (b : option json) (h : gmap string string) :=
  requests GET u b h ∅ None.

(** *** [_get_access_token] *)

Definition refresh_form (s : SnowflakeAPI) : gmap string string :=
  <["grant_type" := "refresh_token"]>
  (<["refresh_token" := refresh_token s]>
  (<["client_id" := oauth_client_id s]>
  {["client_secret" := oauth_client_secret s]})).

Definition _get_access_token : Exec json :=
  let* _ := count_lookup in
  let* s := get_self in
  let* cached :=
    (if Py.truthy (_access_token s) then
       let* now := time_time in
       ret (Qlt_bool now (_token_expires_at s))
     else ret false) in
  if cached then ret (_access_token s)
  else
    let* response :=
      requests_post token_url None
        {["Content-Type" := "application/x-www-form-urlencoded"]}
        (refresh_form s) None in
    if negb (status_code response =? 200) then
      raise (RefreshFailed (status_code response) (text response))
    else
      let* token_data := lift (response_json response) in
      let* access_token := lift (Py.subscript token_data "access_token") in
      let* _ := set_access_token access_token in
      let* expires_in := lift (Py.get token_data "expires_in" (JInt 600)) in
      let* now := time_time in
      let* n := lift (Py.as_number expires_in) in
      let* _ := set_token_expires_at (now + n * (9 # 10)) in
      let* s := get_self in
      ret (_access_token s).

(** *** [_poll_statement] *)

Definition poll_headers : gmap string string := {["Accept" := "application/json"]}.

(** The terminal test of the loop: [or] looks at its right operand only
    when the left one is false. *)
Definition is_complete (result : json) : Result bool :=
  let! has_metadata := Py.contains "resultSetMetaData" result in
  if has_metadata then Ok true else Py.contains "message" result.

(** The [while] loop, unrolled at most [fuel] times; the condition is
    tested before an unrolling is spent. *)
Fixpoint poll_loop (fuel : nat) (statement_handle access_token : json)
    (timeout : Z) (start_time : Q) : Exec json :=
  let* now := time_time in
  if Qlt_bool (now - start_time) (inject_Z timeout) then
    match fuel with
    | O => raise FuelExhausted
    | S fuel' =>
        let* response :=
          requests_get (status_url statement_handle) (Some access_token)
            poll_headers in
        if negb (status_code response =? 200) then
          raise (StatusFailed (status_code response) (text response))
        else
          let* result := lift (response_json response) in
          let* _status := lift (Py.get result "statementStatusUrl" JNull) in
          let* complete := lift (is_complete result) in
          if complete then ret result
          else
            let* _ := time_sleep 1 in
            poll_loop fuel' statement_handle access_token timeout start_time
    end
  else raise (TimedOut timeout).

(** Every pass sleeps a second or more, so [timeout] unrollings are
    enough (see [poll_loop_fuel]). *)
Definition _poll_statement (statement_handle : json) (timeout : Z) : Exec json :=
  let* access_token := _get_access_token in
  let* start_time := time_time in
  poll_loop (Z.to_nat timeout) statement_handle access_token timeout start_time.

(** *** [execute] *)

(** The arguments after [sql] and [timeout]; [JNull] is [None]. *)
Record Overrides : Type := {
  o_database : json;
  o_schema : json;
  o_warehouse : json;
  o_role : json;
  o_bindings : json
}.

Definition set_if (c : bool) (k : string) (v : json) (p : gmap string json)
    : gmap string json :=
  if c then <[k := v]> p else p.

Definition execute_payload (s : SnowflakeAPI) (sql : string) (timeout : Z)
    (o : Overrides) : gmap string json :=
  let payload : gmap string json :=
    <["statement" := JStr sql]> {["timeout" := JInt timeout]} in
  let db := Py.or (o_database o) (JStr (database s)) in
  let payload := set_if (Py.truthy db) "database" db payload in
  let sc := Py.or (o_schema o) (JStr (schema s)) in
  let payload := set_if (Py.truthy sc) "schema" sc payload in
  let payload := set_if (Py.truthy (o_warehouse o)) "warehouse" (o_warehouse o) payload in
  let payload := set_if (Py.truthy (o_role o)) "role" (o_role o) payload in
  set_if (Py.truthy (o_bindings o)) "bindings" (o_bindings o) payload.

Definition execute_headers : gmap string string :=
  <["Content-Type" := "application/json"]>
  (<["Accept" := "application/json"]>
  (<["User-Agent" := "SnowflakeAPI/1.0"]>
  {["X-Snowflake-Authorization-Token-Type" := "OAUTH"]})).

Definition execute (sql : string) (timeout : Z) (o : Overrides)
    : Exec (gmap string json) :=
  let* access_token := _get_access_token in
  let* s := get_self in
  let payload := execute_payload s sql timeout o in
  let* response :=
    requests_post sql_url (Some access_token) execute_headers ∅ (Some payload) in
  if negb ((status_code response =? 200) || (status_code response =? 202)) then
    raise (ExecutionFailed (status_code response) (text response))
  else
    let* result := lift (response_json response) in
    let* result :=
      (if status_code response =? 202 then
         let* statement_handle := lift (Py.subscript result "statementHandle") in
         _poll_statement statement_handle timeout
       else ret result) in
    lift (_format_result result).

(** *** [execute_async] *)

(** [kwargs.get(k)] *)
Definition kwargs_get (kwargs : gmap string json) (k : string) : json :=
  from_option id JNull (kwargs !! k).

Definition execute_async_payload (s : SnowflakeAPI) (sql : string)
    (kwargs : gmap string json) : Result (gmap string json) :=
  let kwargs := <["timeout" := JInt 0]> kwargs in
  let payload : gmap string json :=
    <["statement" := JStr sql]>
    (<["timeout" := JInt 0]> {["async" := JBool true]}) in
  let db := Py.or (kwargs_get kwargs "database") (JStr (database s)) in
  let payload := set_if (Py.truthy db) "database" db payload in
  let sc := Py.or (kwargs_get kwargs "schema") (JStr (schema s)) in
  let payload := set_if (Py.truthy sc) "schema" sc payload in
  let! payload :=
    (if Py.truthy (kwargs_get kwargs "warehouse") then
       let! warehouse := Py.subscript (JObject kwargs) "warehouse" in
       Ok (<["warehouse" := warehouse]> payload)
     else Ok payload) in
  if Py.truthy (kwargs_get kwargs "role") then
    let! role := Py.subscript (JObject kwargs) "role" in
    Ok (<["role" := role]> payload)
  else Ok payload.

Definition async_headers : gmap string string :=
  <["Content-Type" := "application/json"]> {["Accept" := "application/json"]}.

Definition execute_async (sql : string) (kwargs : gmap string json) : Exec json :=
  let* access_token := _get_access_token in
  let* s := get_self in
  let* payload := lift (execute_async_payload s sql kwargs) in
  let* response :=
    requests_post sql_url (Some access_token) async_headers ∅ (Some payload) in
  if negb ((status_code response =? 200) || (status_code response =? 202)) then
    raise (AsyncSubmissionFailed (status_code response) (text response))
  else
    let* result := lift (response_json response) in
    lift (Py.get result "statementHandle" JNull).

(** *** [get_statement_status] and [cancel_statement] *)

Definition get_statement_status (statement_handle : json)
    : Exec (gmap string json) :=
  let* access_token := _get_access_token in
  let* response :=
    requests_get (status_url statement_handle) (Some access_token)
      poll_headers in
  if negb (status_code response =? 200) then
    raise (StatusFailed (status_code response) (text response))
  else
    let* result := lift (response_json response) in
    lift (_format_result result).

Definition cancel_statement (statement_handle : json) : Exec bool :=
  let* access_token := _get_access_token in
  let* response :=
    requests_post (cancel_url statement_handle) (Some access_token)
      poll_headers ∅ None in
  ret (status_code response =? 200).

End Client.

(** * Inputs and predicates the properties are stated with *)

Definition envelope7 : json :=
  JObject
    (<["resultSetMetaData" :=
         JObject
           (<["rowType" :=
                JList [JObject (<["name" := JStr "A"]> {["type" := JStr "TEXT"]})]]>
            {["numRows" := JInt 2]})]>
     {["data" := JList [JList [JStr "x"]; JList [JNull]]]}).

Definition formatted7 : gmap string json :=
  <["statement_handle" := JNull]>
  (<["success" := JBool true]>
  (<["row_count" := JInt 2]>
  (<["columns" :=
       JList [JObject (<["name" := JStr "A"]>
                       (<["type" := JStr "TEXT"]>
                        {["nullable" := JBool true]}))]]>
  {["data" := JList [JList [JStr "x"]; JList [JNull]]]}))).

(** A descriptor of [rowType] that [column] can read. *)
Definition is_column_descriptor (c : json) : bool :=
  match c with
  | JObject m => bool_decide (is_Some (m !! "name")) && bool_decide (is_Some (m !! "type"))
  | _ => false
  end.

Definition well_formed_metadata (metadata : json) : bool :=
  match metadata with
  | JObject m =>
      match m !! "rowType" with
      | None => true
      | Some (JList cols) => forallb is_column_descriptor cols
      | Some _ => false
      end
  | _ => false
  end.

Definition well_formed_envelope (result : json) : bool :=
  match result with
  | JObject m =>
      match m !! "resultSetMetaData" with
      | None => true
      | Some metadata => well_formed_metadata metadata
      end
  | _ => false
  end.

(** An envelope whose only column descriptor has no name. *)
Definition nameless_column_envelope : json :=
  JObject
    {["resultSetMetaData" :=
        JObject {["rowType" := JList [JObject {["type" := JStr "TEXT"]}]]}]}.

Definition builtin_error (e : exn) : Prop :=
  match e with
  | KeyError _ | TypeError | AttributeError | JSONDecodeError | OverflowError => True
  | _ => False
  end.

(** The errors the token getter can raise. *)
Definition token_error (e : exn) : Prop :=
  match e with
  | RefreshFailed _ _ | KeyError _ | TypeError | AttributeError | JSONDecodeError
  | OverflowError => True
  | _ => False
  end.

(** The request [_get_access_token] sends when it refreshes. *)
Definition refresh_request (st : St) : Request :=
  {| method := POST; url := token_url; bearer := None;
     headers := {["Content-Type" := "application/x-www-form-urlencoded"]};
     data := refresh_form (self st);
     payload := None;
     issued_at := clock (world st) |}.

Definition token_is_cached (st : St) : bool :=
  Py.truthy (_access_token (self st)) &&
  Qlt_bool (clock (world st)) (_token_expires_at (self st)).

(** The errors the polling loop can raise. *)
Definition poll_error (e : exn) : Prop :=
  match e with
  | StatusFailed _ _ | TimedOut _ | FuelExhausted
  | KeyError _ | TypeError | AttributeError | JSONDecodeError | OverflowError => True
  | _ => False
  end.

(** The state after [req] was sent and answered. *)
Definition sent (env : Env) (st : St) (req : Request) : St :=
  {| self := self st;
     world := {| clock := clock (world st)
                          + seconds (elapsed (server env (log (world st)) req));
                 log := req :: log (world st);
                 token_lookups := token_lookups (world st) |} |}.

(** The state after [time.sleep(1)]. *)
Definition slept (env : Env) (st : St) : St :=
  {| self := self st;
     world := {| clock := clock (world st) + 1
                          + seconds (oversleep env (clock (world st)));
                 log := log (world st);
                 token_lookups := token_lookups (world st) |} |}.

(** The status fetch of the polling loop, issued at time [t]. *)
Definition poll_request (statement_handle access_token : json) (t : Q) : Request :=
  {| method := GET; url := status_url statement_handle;
     bearer := Some access_token; headers := poll_headers;
     data := ∅; payload := None; issued_at := t |}.

(** The submission of [execute], issued at time [t]. *)
Definition submit_request (access_token : json) (p : gmap string json) (t : Q)
    : Request :=
  {| method := POST; url := sql_url; bearer := Some access_token;
     headers := execute_headers; data := ∅; payload := Some p;
     issued_at := t |}.

(** The submission of [execute_async], issued at time [t]. *)
Definition async_request (access_token : json) (p : gmap string json) (t : Q)
    : Request :=
  {| method := POST; url := sql_url; bearer := Some access_token;
     headers := async_headers; data := ∅; payload := Some p;
     issued_at := t |}.

(** A status response that keeps the loop going: HTTP 200 with an object
    that has neither terminal marker. *)
Definition pending (r : Response) : bool :=
  (status_code r =? 200) &&
  match json_body r with
  | Some (JObject m) =>
      negb (bool_decide (is_Some (m !! "resultSetMetaData"))) &&
      negb (bool_decide (is_Some (m !! "message")))
  | _ => false
  end.

(** A token response the getter accepts. *)
Definition grants (r : Response) : bool :=
  (status_code r =? 200) &&
  match json_body r with
  | Some (JObject m) =>
      bool_decide (is_Some (m !! "access_token")) &&
      returns (Py.as_number (from_option id (JInt 600) (m !! "expires_in")))
  | _ => false
  end.

(** A submission response that starts polling on [statement_handle]. *)
Definition accepts (statement_handle : json) (r : Response) : Prop :=
  status_code r = 202 /\
  exists m, json_body r = Some (JObject m) /\
            m !! "statementHandle" = Some statement_handle.

(** ** Concrete services and clients *)

Definition instant : delay := {| d_num := 0; d_den := 1 |}.
Definition after (n : N) : delay := {| d_num := n; d_den := 1 |}.

Definition respond (code : Z) (body : json) (d : delay) : Response :=
  {| status_code := code; text := ""; json_body := Some body; elapsed := d |}.

(** A service with a fixed token answer, a fixed submission answer and a
    status answer that may depend on the request; sleeps last one second. *)
Definition service (token submit : Response) (status : Request -> Response) : Env :=
  {| server := fun _ req =>
       match url req with
       | token_url => token
       | sql_url => submit
       | status_url _ => status req
       | cancel_url _ => respond 200 (JObject ∅) instant
       end;
     oversleep := fun _ => instant |}.

Definition grant (expires_in : Z) : Response :=
  respond 200
    (JObject (<["access_token" := JStr "T1"]> {["expires_in" := JInt expires_in]}))
    instant.

Definition accepted (d : delay) : Response :=
  respond 202 (JObject {["statementHandle" := JStr "h"]}) d.

Definition still_running : Response := respond 200 (JObject ∅) instant.

Definition finished : Response :=
  respond 200 (JObject {["resultSetMetaData" := JObject ∅]}) instant.

(** A client holding [tok] until [expires_at], at time [t], nothing sent. *)
Definition client (tok : json) (expires_at t : Q) : St :=
  {| self := {| oauth_client_id := "id"; oauth_client_secret := "secret";
                refresh_token := "refresh"; database := "DB"; schema := "";
                _access_token := tok; _token_expires_at := expires_at |};
     world := {| clock := t; log := []; token_lookups := 0 |} |}.

Definition no_overrides : Overrides :=
  {| o_database := JNull; o_schema := JNull; o_warehouse := JNull;
     o_role := JNull; o_bindings := JNull |}.

(** The service of the deadline example: the submission takes five
    seconds and the statement never finishes. *)
Definition slow_submit_env : Env :=
  service (grant 600) (accepted (after 5)) (fun _ => still_running).

(** The service of the mid-poll expiry example: tokens last one second
    (0.9 with the slack), the statement finishes at the second fetch. *)
Definition short_token_env : Env :=
  service (grant 1) (accepted instant)
    (fun req => if Qlt_bool (issued_at req) 1 then still_running else finished).

Definition completed_env : Env :=
  service (grant 600) (respond 200 envelope7 instant) (fun _ => still_running).

Definition failing_env : Env :=
  service (grant 600) (respond 500 JNull instant) (fun _ => still_running).

Definition some_bindings : json :=
  JObject {["1" := JObject (<["type" := JStr "FIXED"]> {["value" := JStr "123"]})]}.

Definition bound_overrides : Overrides :=
  {| o_database := JNull; o_schema := JNull; o_warehouse := JNull;
     o_role := JNull; o_bindings := some_bindings |}.

Definition bound_kwargs : gmap string json :=
  <["bindings" := some_bindings]> {["warehouse" := JStr "WH"]}.

(** * Further predicates and inputs *)

(** The instance with its cached token replaced. *)
Definition with_token (s : SnowflakeAPI) (tok : json) : SnowflakeAPI :=
  {| oauth_client_id := oauth_client_id s;
     oauth_client_secret := oauth_client_secret s;
     refresh_token := refresh_token s;
     database := database s;
     schema := schema s;
     _access_token := tok;
     _token_expires_at := _token_expires_at s |}.

(** A body that ends the polling loop. *)
Definition terminal (result : json) : Prop :=
  exists m, result = JObject m /\
            (is_Some (m !! "resultSetMetaData") \/ is_Some (m !! "message")).

(** Services whose token endpoint misbehaves. *)
Definition rejecting_env : Env :=
  service (respond 401 JNull instant) (accepted instant) (fun _ => still_running).

Definition tokenless_env : Env :=
  service (respond 200 (JObject {["expires_in" := JInt 600]}) instant)
    (accepted instant) (fun _ => still_running).

Definition bad_expiry_env : Env :=
  service
    (respond 200
       (JObject (<["access_token" := JStr "T1"]> {["expires_in" := JStr "soon"]}))
       instant)
    (accepted instant) (fun _ => still_running).

(** A statement that finishes at the second fetch. *)
Definition two_poll_env : Env :=
  service (grant 600) (accepted instant)
    (fun req => if Qlt_bool (issued_at req) 1 then still_running else finished).

(** A status endpoint that is down. *)
Definition status_down_env : Env :=
  service (grant 600) (accepted instant) (fun _ => respond 503 JNull instant).

(** Fetches, newest first, each at least a second after the one before. *)
Fixpoint spaced (polls : list Request) : Prop :=
  match polls with
  | later :: (earlier :: _) as rest =>
      (issued_at earlier + 1 <= issued_at later)%Q /\ spaced rest
  | _ => True
  end.

(** The keys a normalised result can have. *)
Definition result_keys : list string :=
  ["statement_handle"; "success"; "row_count"; "columns"; "data";
   "message"; "code"].

(** What the normaliser keeps of a column descriptor. *)
Definition described (col : json) : json :=
  match col with
  | JObject c =>
      JObject (<["name" := from_option id JNull (c !! "name")]>
               (<["type" := from_option id JNull (c !! "type")]>
                {["nullable" := from_option id (JBool true) (c !! "nullable")]}))
  | _ => JNull
  end.

(** The error the normaliser raises on a descriptor it cannot read. *)
Definition descriptor_error (col : json) : exn :=
  match col with
  | JObject c =>
      if bool_decide (is_Some (c !! "name")) then KeyError "type" else KeyError "name"
  | _ => TypeError
  end.

(** The value an override ends up with: the call's own value when Python
    takes it for true, else the instance default when it is not empty. *)
Definition merged (explicit : json) (default : string) : option json :=
  if Py.truthy explicit then Some explicit
  else if String.eqb default "" then None
  else Some (JStr default).

(** An override without an instance default. *)
Definition given (explicit : json) : option json :=
  if Py.truthy explicit then Some explicit else None.

(** The overrides [execute] would get from keyword arguments. *)
Definition overrides_of (kwargs : gmap string json) : Overrides :=
  {| o_database := kwargs_get kwargs "database";
     o_schema := kwargs_get kwargs "schema";
     o_warehouse := kwargs_get kwargs "warehouse";
     o_role := kwargs_get kwargs "role";
     o_bindings := kwargs_get kwargs "bindings" |}.

(** The cancellation request, issued at time [t]. *)
Definition cancel_request (statement_handle access_token : json) (t : Q) : Request :=
  {| method := POST; url := cancel_url statement_handle;
     bearer := Some access_token; headers := poll_headers;
     data := ∅; payload := None; issued_at := t |}.

(** A service that accepts the statement without naming it. *)
Definition nameless_accept_env : Env :=
  service (grant 600) (respond 202 (JObject ∅) instant) (fun _ => still_running).

(** A service that answers the submission 200 with a result and no handle,
    and refuses cancellation. *)
Definition refusing_cancel_env : Env :=
  {| server := fun _ req =>
       match url req with
       | token_url => grant 600
       | sql_url => respond 200 envelope7 instant
       | status_url _ => still_running
       | cancel_url _ =>
           {| status_code := 422; text := "not running"; json_body := None;
              elapsed := instant |}
       end;
     oversleep := fun _ => instant |}.

(** * The rest of the module: [format_table] and [SnowflakeAPI.__init__] *)

(** The exceptions of these two functions: those of the client, the
    [IndexError] of a list subscript and the [ValueError] of the
    constructor. *)
Inductive py_exn : Type :=
| Builtin (e : exn)
| IndexError
| ValueError.

Inductive Outcome (A : Type) : Type :=
| Done (a : A)
| Failed (e : py_exn).
Arguments Done {A} a.
Arguments Failed {A} e.

Definition bindO {A B : Type} (r : Outcome A) (f : A -> Outcome B) : Outcome B :=
  match r with
  | Done a => f a
  | Failed e => Failed e
  end.

Notation "'let+' x ':=' m 'in' k" := (bindO m (fun x => k))
  (at level 10, x name, m at level 100, k at level 200).

Definition of_result {A} (r : Result A) : Outcome A :=
  match r with
  | Ok a => Done a
  | Raise e => Failed (Builtin e)
  end.

(** [len(x)] *)
Definition py_len (j : json) : Result nat :=
  match j with
  | JStr s => Ok (String.length s)
  | JList l => Ok (length l)
  | JObject m => Ok (length (map_to_list m))
  | _ => Raise TypeError
  end.

Fixpoint spaces (n : nat) : string :=
  match n with
  | O => EmptyString
  | S n' => String (Ascii.ascii_of_nat 32) (spaces n')
  end.

Fixpoint dashes (n : nat) : string :=
  match n with
  | O => EmptyString
  | S n' => String (Ascii.ascii_of_nat 45) (dashes n')
  end.

(** [s.ljust(w)] *)
Definition ljust (s : string) (w : nat) : string :=
  String.append s (spaces (w - String.length s)).

(** [x.ljust]: only a str has the method. *)
Definition as_str (j : json) : Result string :=
  match j with
  | JStr s => Ok s
  | _ => Raise AttributeError
  end.

(** [widths[i]] *)
Definition width_at (widths : list nat) (i : nat) : Outcome nat :=
  match widths !! i with
  | Some w => Done w
  | None => Failed IndexError
  end.

Definition newline : string := String (Ascii.ascii_of_nat 10) EmptyString.

Section Table.

(** Python's [str] on a JSON value and [json.dumps(result, indent=2)];
    both are built in and total on values that came from JSON. *)
Variable py_str : json -> string.
Variable json_dumps : gmap string json -> string.

(** [str(val) if val is not None else 'NULL'] *)
Definition cell_text (val : json) : string :=
  match val with
  | JNull => "NULL"
  | _ => py_str val
  end.

(** The inner loop of the width pass, from index [i] on. *)
Fixpoint widen_row (i : nat) (cells : list json) (widths : list nat)
    : Outcome (list nat) :=
  match cells with
  | [] => Done widths
  | val :: cells' =>
      let val_str := cell_text val in
      let+ w := width_at widths i in
      widen_row (S i) cells' (<[i := Nat.max w (String.length val_str)]> widths)
  end.

(** The width pass over the rows. *)
Fixpoint widen (rows : list json) (widths : list nat) : Outcome (list nat) :=
  match rows with
  | [] => Done widths
  | row :: rows' =>
      let+ cells := of_result (Py.iter row) in
      let+ widths := widen_row 0 cells widths in
      widen rows' widths
  end.

(** [name.ljust(widths[i]) for i, name in enumerate(col_names)] *)
Fixpoint header_cells (i : nat) (names : list json) (widths : list nat)
    : Outcome (list string) :=
  match names with
  | [] => Done []
  | name :: names' =>
      let+ s := of_result (as_str name) in
      let+ w := width_at widths i in
      let+ rest := header_cells (S i) names' widths in
      Done (ljust s w :: rest)
  end.

(** The padded cells of one row. *)
Fixpoint row_cells (i : nat) (cells : list json) (widths : list nat)
    : Outcome (list string) :=
  match cells with
  | [] => Done []
  | val :: cells' =>
      let+ w := width_at widths i in
      let+ rest := row_cells (S i) cells' widths in
      Done (ljust (cell_text val) w :: rest)
  end.

(** The second loop over the rows. *)
Fixpoint body_lines (rows : list json) (widths : list nat)
    : Outcome (list string) :=
  match rows with
  | [] => Done []
  | row :: rows' =>
      let+ cells := of_result (Py.iter row) in
      let+ strs := row_cells 0 cells widths in
      let+ rest := body_lines rows' widths in
      Done (String.concat " | " strs :: rest)
  end.

(** The lines of the table, for a result that passed the guard. *)
Definition table_lines (result : gmap string json) : Outcome (list string) :=
  let+ columns := of_result (Py.subscript (JObject result) "columns") in
  let+ cols := of_result (Py.iter columns) in
  let+ col_names :=
    of_result (Py.comprehension (fun col => Py.subscript col "name") cols) in
  let+ widths := of_result (Py.comprehension py_len col_names) in
  let+ data := of_result (Py.subscript (JObject result) "data") in
  let+ rows := of_result (Py.iter data) in
  let+ widths := widen rows widths in
  let+ names := header_cells 0 col_names widths in
  let header := String.concat " | " names in
  let+ data := of_result (Py.subscript (JObject result) "data") in
  let+ rows := of_result (Py.iter data) in
  let+ body := body_lines rows widths in
  let+ row_count := of_result (Py.subscript (JObject result) "row_count") in
  Done (header :: dashes (String.length header) :: body
        ++ [EmptyString;
            String.append "(" (String.append (py_str row_count) " rows)")]).

Definition format_table (result : gmap string json) : Outcome string :=
  let+ success := of_result (Py.subscript (JObject result) "success") in
  let+ dump :=
    (if Py.truthy success then
       let+ data := of_result (Py.subscript (JObject result) "data") in
       Done (negb (Py.truthy data))
     else Done true) in
  if dump then Done (json_dumps result)
  else
    let+ lines := table_lines result in
    Done (String.concat newline lines).

End Table.

(** ** [SnowflakeAPI.__init__] *)

(** [os.getenv(k)] as Python takes it for true: set and not empty. *)
Definition configured (environ : gmap string string) (k : string) : bool :=
  match environ !! k with
  | Some v => negb (String.eqb v "")
  | None => false
  end.

(** The constructor, given the process environment as it is once
    [load_dotenv] has run.  The account identifier goes into the URLs only. *)
Definition __init__ (environ : gmap string string) : Outcome SnowflakeAPI :=
  let client_id := environ !! "OAUTH_CLIENT_ID" in
  let client_secret := environ !! "OAUTH_CLIENT_SECRET" in
  let refresh := environ !! "OAUTH_REFRESH_TOKEN" in
  let db := from_option id EmptyString (environ !! "MCP_DATABASE") in
  let sc := from_option id EmptyString (environ !! "MCP_SCHEMA") in
  if negb (configured environ "SNOWFLAKE_ACCOUNT_IDENTIFIER" &&
           configured environ "OAUTH_CLIENT_ID" &&
           configured environ "OAUTH_CLIENT_SECRET" &&
           configured environ "OAUTH_REFRESH_TOKEN") then
    Failed ValueError
  else
    Done {| oauth_client_id := from_option id EmptyString client_id;
            oauth_client_secret := from_option id EmptyString client_secret;
            refresh_token := from_option id EmptyString refresh;
            database := db;
            schema := sc;
            _access_token := JNull;
            _token_expires_at := 0 |}.

(** A column of a result whose name is a str. *)
Definition named_column (col : json) : bool :=
  match col with
  | JObject c =>
      match c !! "name" with
      | Some (JStr _) => true
      | _ => false
      end
  | _ => false
  end.

(** A data row that is a list of at most [n] cells. *)
Definition is_row (n : nat) (row : json) : bool :=
  match row with
  | JList cells => Nat.leb (length cells) n
  | _ => false
  end.

(** The length of [' | '.join] over strings of the given lengths. *)
Fixpoint joined (widths : list nat) : nat :=
  match widths with
  | [] => 0%nat
  | w :: rest =>
      match rest with
      | [] => w
      | _ => (w + 3 + joined rest)%nat
      end
  end.

(** A stand-in for [str] on the values of the examples. *)
Definition show (j : json) : string :=
  match j with
  | JStr s => s
  | JInt 2 => "2"
  | _ => "?"
  end.

Definition ragged_result : gmap string json :=
  <["data" := JList [JList [JStr "x"]; JList [JStr "y"; JStr "z"]]]> formatted7.

(** The four variables the constructor insists on. *)
Definition fully_configured (environ : gmap string string) : bool :=
  configured environ "SNOWFLAKE_ACCOUNT_IDENTIFIER" &&
  configured environ "OAUTH_CLIENT_ID" &&
  configured environ "OAUTH_CLIENT_SECRET" &&
  configured environ "OAUTH_REFRESH_TOKEN".

Definition full_environ : gmap string string :=
  <["SNOWFLAKE_ACCOUNT_IDENTIFIER" := "acme"]>
  (<["OAUTH_CLIENT_ID" := "id"]>
  (<["OAUTH_CLIENT_SECRET" := "secret"]>
  (<["OAUTH_REFRESH_TOKEN" := "refresh"]>
  {["MCP_DATABASE" := "DB"]}))).

Definition empty_secret_environ : gmap string string :=
  <["OAUTH_CLIENT_SECRET" := ""]> full_environ.

(** A descriptor with a type and a name that is a str. *)
Definition str_named_descriptor (col : json) : bool :=
  is_column_descriptor col && named_column col.

(** A token endpoint that grants tokens without a lifetime. *)
Definition expired_grant_env : Env :=
  service (grant 0) (accepted instant) (fun _ => still_running).

(** The configuration of an instance: everything but the token cache. *)
Definition configuration (s : SnowflakeAPI) : string * string * string * string * string :=
  (oauth_client_id s, oauth_client_secret s, refresh_token s, database s, schema s).
(** * Properties *)

(** ** The result normaliser *)

Lemma column_returns (c : json) :
  is_column_descriptor c = true -> exists d, column c = Ok (JObject d).
Proof.
  destruct c as [| | | | | |m]; simpl; try discriminate.
  intros [Hn Ht]%andb_prop.
  apply bool_decide_eq_true in Hn as [name Hn].
  apply bool_decide_eq_true in Ht as [type Ht].
  unfold column; simpl. rewrite Hn; simpl. rewrite Ht; simpl. eauto.
Qed.

Lemma comprehension_returns (cols : list json) :
  forallb is_column_descriptor cols = true ->
  exists ds, Py.comprehension column cols = Ok ds /\ length ds = length cols.
Proof.
  induction cols as [|c cols IH]; simpl.
  - exists []. auto.
  - intros [Hc Hcols]%andb_prop.
    destruct (column_returns c Hc) as [d ->].
    destruct (IH Hcols) as (ds & -> & Hlen). simpl.
    exists (JObject d :: ds). simpl. auto.
Qed.

(** C7: the envelope with one column "A" of type TEXT, numRows 2 and data
    [["x"],[null]] is normalised to success true, one column named "A" of
    type TEXT with nullable defaulted to true, row_count 2, and the rows as
    they came, null included. *)
Theorem format_result_round_trip :
  _format_result envelope7 = Ok formatted7 /\
  formatted7 !! "success" = Some (JBool true) /\
  formatted7 !! "columns" =
    Some (JList [JObject (<["name" := JStr "A"]>
                          (<["type" := JStr "TEXT"]>
                           {["nullable" := JBool true]}))]) /\
  formatted7 !! "row_count" = Some (JInt 2) /\
  formatted7 !! "data" = Some (JList [JList [JStr "x"]; JList [JNull]]).
Proof. repeat split; vm_compute; reflexivity. Qed.

(** C8: an envelope with only a message and a code is normalised to success
    false, with both values copied through as they are. *)
Theorem format_result_error_pass_through (message code : json) :
  exists formatted,
    _format_result (JObject (<["message" := message]> {["code" := code]}))
      = Ok formatted /\
    formatted !! "success" = Some (JBool false) /\
    formatted !! "message" = Some message /\
    formatted !! "code" = Some code /\
    formatted !! "row_count" = Some (JInt 0) /\
    formatted !! "columns" = Some (JList []) /\
    formatted !! "data" = Some (JList []).
Proof.
  eexists. split; [reflexivity|]. repeat split; reflexivity.
Qed.

(** C1, as stated, fails: a column descriptor without a name makes the
    normaliser raise [KeyError]. *)
Lemma format_result_raises_on_nameless_column :
  _format_result nameless_column_envelope = Raise (KeyError "name") /\
  ~ (forall result, returns (_format_result result) = true).
Proof.
  assert (H : _format_result nameless_column_envelope = Raise (KeyError "name"))
    by (vm_compute; reflexivity).
  split; [exact H|].
  intros Hall. specialize (Hall nameless_column_envelope).
  rewrite H in Hall. discriminate.
Qed.

(** ** Clock arithmetic *)

Lemma Qlt_bool_iff (x y : Q) : Qlt_bool x y = true <-> (x < y)%Q.
Proof.
  unfold Qlt_bool. rewrite negb_true_iff.
  split.
  - intros H. apply Qnot_le_lt. intros Hle.
    apply Qle_bool_iff in Hle. congruence.
  - intros H. destruct (Qle_bool y x) eqn:E; [|reflexivity].
    apply Qle_bool_iff in E. exfalso. exact (Qlt_not_le _ _ H E).
Qed.

Lemma Qlt_bool_false_iff (x y : Q) : Qlt_bool x y = false <-> (y <= x)%Q.
Proof.
  unfold Qlt_bool. rewrite negb_false_iff. apply Qle_bool_iff.
Qed.

Lemma seconds_nonneg (d : delay) : (0 <= seconds d)%Q.
Proof. unfold seconds, Qle. simpl. lia. Qed.

(** ** Errors of the built-in operations *)

Lemma response_json_error (r : Response) (e : exn) :
  response_json r = Raise e -> builtin_error e.
Proof. unfold response_json. destruct (json_body r); intros [= <-]. exact I. Qed.

Lemma subscript_error (d : json) (k : string) (e : exn) :
  Py.subscript d k = Raise e -> builtin_error e.
Proof.
  destruct d as [| | | | | |m]; simpl; try (intros [= <-]; exact I).
  destruct (m !! k); intros [= <-]. exact I.
Qed.

Lemma get_error (d : json) (k : string) (v : json) (e : exn) :
  Py.get d k v = Raise e -> builtin_error e.
Proof. destruct d; simpl; intros [= <-]; exact I. Qed.

Lemma contains_error (k : string) (c : json) (e : exn) :
  Py.contains k c = Raise e -> builtin_error e.
Proof. destruct c; simpl; intros [= <-]; exact I. Qed.

Lemma iter_error (c : json) (e : exn) :
  Py.iter c = Raise e -> builtin_error e.
Proof. destruct c; simpl; intros [= <-]; exact I. Qed.

Lemma as_number_error (j : json) (e : exn) :
  Py.as_number j = Raise e -> builtin_error e.
Proof.
  destruct j as [| |n| | | |]; simpl; try (intros [= <-]; exact I).
  destruct (Z.abs n <? Py.float_limit); intros [= <-]. exact I.
Qed.

Lemma get_returns_dict (d : json) (k : string) (v r : json) :
  Py.get d k v = Ok r -> exists m, d = JObject m.
Proof. destruct d; simpl; try discriminate. eauto. Qed.

Create HintDb py_errors.

#[local] Hint Resolve response_json_error subscript_error get_error
  contains_error iter_error as_number_error : py_errors.

(** ** The token manager *)

Lemma get_access_token_cached (env : Env) (st : St) :
  token_is_cached st = true ->
  _get_access_token env st =
    (Ok (_access_token (self st)), (count_lookup st).2).
Proof.
  unfold token_is_cached. intros [Ht Hc]%andb_prop.
  unfold _get_access_token, bindE. simpl. rewrite Ht. simpl. rewrite Hc.
  reflexivity.
Qed.

Ltac break_match :=
  match goal with
  | |- context [match ?x with _ => _ end] => destruct x eqn:?; simpl in *
  end.

Ltac run_exec :=
  unfold bindE, ret, raise, lift, get_self, time_time, count_lookup,
    set_access_token, set_token_expires_at, requests_post, requests_get,
    requests, time_sleep; simpl.

Lemma get_access_token_refreshes (env : Env) (st : St) :
  token_is_cached st = false ->
  exists r st',
    _get_access_token env st = (r, st') /\
    log (world st') = refresh_request st :: log (world st).
Proof.
  unfold token_is_cached. intros Hc.
  unfold _get_access_token. run_exec.
  destruct (Py.truthy (_access_token (self st))); simpl in *;
    [rewrite Hc|]; simpl;
    repeat break_match; eexists _, _; (split; [reflexivity|]); simpl; reflexivity.
Qed.

(** What a call of the token getter leaves alone: it counts one lookup,
    keeps the configuration, never turns the clock back, sends nothing or
    the one refresh request, and raises nothing but a token error. *)
Lemma builtin_is_token_error (e : exn) : builtin_error e -> token_error e.
Proof. destruct e; simpl; auto. Qed.

Lemma get_access_token_frame (env : Env) (st : St) (r : Result json) (st' : St) :
  _get_access_token env st = (r, st') ->
  token_lookups (world st') = S (token_lookups (world st)) /\
  database (self st') = database (self st) /\
  schema (self st') = schema (self st) /\
  (clock (world st) <= clock (world st'))%Q /\
  (log (world st') = log (world st) \/
   log (world st') = refresh_request st :: log (world st)) /\
  (forall e, r = Raise e -> token_error e).
Proof.
  unfold _get_access_token. run_exec.
  pose proof (seconds_nonneg
    (elapsed (server env (log (world st)) (refresh_request st)))) as Hd.
  unfold refresh_request in Hd.
  destruct (Py.truthy (_access_token (self st))); simpl;
    repeat break_match; intros [= <- <-]; simpl;
    (repeat split; auto; try lra; try discriminate);
    intros e' [= <-];
    first [exact I | apply builtin_is_token_error; eauto with py_errors].
Qed.

(** C4: with a cached token (one that Python takes for true), a call before
    [expires_at] returns the cached token and sends nothing; a call at or
    after [expires_at] sends exactly one refresh-token request. *)
Theorem token_reuse_and_expiry (env : Env) (st : St) :
  Py.truthy (_access_token (self st)) = true ->
  ((clock (world st) < _token_expires_at (self st))%Q ->
   exists st',
     _get_access_token env st = (Ok (_access_token (self st)), st') /\
     log (world st') = log (world st) /\
     self st' = self st /\
     clock (world st') = clock (world st)) /\
  ((_token_expires_at (self st) <= clock (world st))%Q ->
   exists r st',
     _get_access_token env st = (r, st') /\
     log (world st') = refresh_request st :: log (world st) /\
     method (refresh_request st) = POST /\
     url (refresh_request st) = token_url /\
     data (refresh_request st) !! "grant_type" = Some "refresh_token").
Proof.
  intros Ht. split.
  - intros Hlt%Qlt_bool_iff.
    rewrite get_access_token_cached
      by (unfold token_is_cached; rewrite Ht, Hlt; reflexivity).
    eexists. split; [reflexivity|]. auto.
  - intros Hle%Qlt_bool_false_iff.
    destruct (get_access_token_refreshes env st) as (r & st' & Hrun & Hlog).
    { unfold token_is_cached. rewrite Hle. apply andb_false_r. }
    exists r, st'. repeat split; auto.
Qed.

Lemma token_reuse_and_expiry_witness :
  (exists st',
     _get_access_token completed_env (client (JStr "T0") 100 50)
       = (Ok (JStr "T0"), st') /\
     log (world st') = []) /\
  (exists r st',
     _get_access_token completed_env (client (JStr "T0") 10 50) = (r, st') /\
     log (world st') = [refresh_request (client (JStr "T0") 10 50)]).
Proof.
  split.
  - destruct (token_reuse_and_expiry completed_env (client (JStr "T0") 100 50))
      as [H _]; [reflexivity|].
    destruct H as (st' & Hrun & Hlog & _); [reflexivity|].
    exists st'. split; [exact Hrun | exact Hlog].
  - destruct (token_reuse_and_expiry completed_env (client (JStr "T0") 10 50))
      as [_ H]; [reflexivity|].
    destruct H as (r & st' & Hrun & Hlog & _); [unfold Qle; simpl; lia|].
    exists r, st'. split; [exact Hrun | exact Hlog].
Defined.

(** C5: a refresh that succeeds leaves [expires_at] at the time the
    response was read plus nine tenths of the reported [expires_in], which
    is 600 when the response has none: 540 seconds ahead in both cases. *)
Theorem refresh_sets_expiry_with_slack (env : Env) (st : St) (tok : json) (st' : St) :
  token_is_cached st = false ->
  _get_access_token env st = (Ok tok, st') ->
  let response := server env (log (world st)) (refresh_request st) in
  exists token_data n,
    json_body response = Some (JObject token_data) /\
    token_data !! "access_token" = Some tok /\
    _access_token (self st') = tok /\
    Py.as_number (from_option id (JInt 600) (token_data !! "expires_in")) = Ok n /\
    clock (world st') = (clock (world st) + seconds (elapsed response))%Q /\
    (_token_expires_at (self st') == clock (world st') + (9 # 10) * n)%Q /\
    (token_data !! "expires_in" = None \/
     token_data !! "expires_in" = Some (JInt 600) ->
     (_token_expires_at (self st') == clock (world st') + 540)%Q).
Proof.
  unfold token_is_cached. intros Hc. simpl.
  unfold _get_access_token. run_exec. unfold refresh_request.
  assert (Hnc :
    (if Py.truthy (_access_token (self st))
     then Qlt_bool (clock (world st)) (_token_expires_at (self st))
     else false) = false).
  { destruct (Py.truthy _); simpl in *; auto. }
  destruct (Py.truthy (_access_token (self st))); simpl; rewrite ?Hnc; simpl;
    (destruct (negb _); simpl; [discriminate|]);
    unfold response_json;
    (destruct (json_body _) as [[| | | | | |token_data]|] eqn:Hbody; simpl;
       try discriminate);
    (destruct (token_data !! "access_token") as [access_token|] eqn:Hat; simpl;
       try discriminate);
    (destruct (Py.as_number _) as [n|] eqn:Hn; simpl; try discriminate);
    intros [= <- <-]; simpl;
    exists token_data, n; (repeat split; auto; try ring);
    intros [He|He]; rewrite He in Hn; simpl in Hn; simplify_eq; ring.
Qed.

Lemma refresh_sets_expiry_with_slack_witness :
  exists st',
    _get_access_token completed_env (client JNull 0 50) = (Ok (JStr "T1"), st') /\
    (_token_expires_at (self st') == 50 + 540)%Q.
Proof.
  pose proof (refresh_sets_expiry_with_slack completed_env (client JNull 0 50)
                (JStr "T1") (_get_access_token completed_env (client JNull 0 50)).2
                eq_refl eq_refl) as (token_data & n & Hbody & _ & _ & _ & Hclock & _ & H540).
  eexists. split; [reflexivity|].
  injection Hbody as <-.
  rewrite (H540 (or_intror eq_refl)). rewrite Hclock. reflexivity.
Defined.

(** ** The polling loop *)

Section Polling.

Variable env : Env.
Variables statement_handle access_token : json.
Variable timeout : Z.
Variable start_time : Q.

(** One unrolling of the loop, with the states it goes through. *)
Lemma poll_loop_unfold (fuel : nat) (st : St) :
  poll_loop env fuel statement_handle access_token timeout start_time st =
  if Qlt_bool (clock (world st) - start_time) (inject_Z timeout) then
    match fuel with
    | O => (Raise FuelExhausted, st)
    | S fuel' =>
        let req := poll_request statement_handle access_token (clock (world st)) in
        let response := server env (log (world st)) req in
        let st1 := sent env st req in
        if negb (status_code response =? 200) then
          (Raise (StatusFailed (status_code response) (text response)), st1)
        else
          match response_json response with
          | Raise e => (Raise e, st1)
          | Ok result =>
              match Py.get result "statementStatusUrl" JNull with
              | Raise e => (Raise e, st1)
              | Ok _ =>
                  match is_complete result with
                  | Raise e => (Raise e, st1)
                  | Ok true => (Ok result, st1)
                  | Ok false =>
                      poll_loop env fuel' statement_handle access_token
                        timeout start_time (slept env st1)
                  end
              end
          end
    end
  else (Raise (TimedOut timeout), st).
Proof.
  destruct fuel; simpl; run_exec.
  - destruct (Qlt_bool _ _); reflexivity.
  - destruct (Qlt_bool _ _); [|reflexivity].
    unfold poll_request, sent. simpl.
    destruct (negb _); [reflexivity|].
    destruct (response_json _); [|reflexivity].
    destruct (Py.get _ _ _); [|reflexivity].
    destruct (is_complete _) as [[|]|]; reflexivity.
Qed.

Lemma is_complete_error (result : json) (e : exn) :
  is_complete result = Raise e -> builtin_error e.
Proof.
  unfold is_complete.
  destruct (Py.contains "resultSetMetaData" result) as [[|]|e'] eqn:E; simpl.
  - discriminate.
  - eauto with py_errors.
  - intros [= <-]. eauto with py_errors.
Qed.

Lemma builtin_is_poll_error (e : exn) : builtin_error e -> poll_error e.
Proof. destruct e; simpl; auto. Qed.

(** Every fetch of the loop goes to the status URL of the handle, carries
    the token the loop was entered with, and is issued while less than
    [timeout] seconds have passed since [start_time]; the loop touches
    neither the instance nor the lookup count. *)
Lemma poll_loop_frame (fuel : nat) :
  forall (st : St) (r : Result json) (st' : St),
    poll_loop env fuel statement_handle access_token timeout start_time st
      = (r, st') ->
    self st' = self st /\
    token_lookups (world st') = token_lookups (world st) /\
    (clock (world st) <= clock (world st'))%Q /\
    (forall e, r = Raise e -> poll_error e) /\
    exists polls,
      log (world st') = polls ++ log (world st) /\
      (length polls <= fuel)%nat /\
      Forall (fun req =>
                req = poll_request statement_handle access_token (issued_at req) /\
                (clock (world st) <= issued_at req)%Q /\
                (issued_at req - start_time < inject_Z timeout)%Q) polls.
Proof.
  induction fuel as [|fuel IH]; intros st r st'; rewrite poll_loop_unfold.
  - destruct (Qlt_bool _ _); intros [= <- <-];
      (repeat split; auto; try lra; [intros e [= <-]; exact I|]);
      exists []; simpl; auto.
  - destruct (Qlt_bool _ _) eqn:Hcond.
    2:{ intros [= <- <-].
        repeat split; auto; try lra; [intros e [= <-]; exact I|].
        exists []; simpl; split; [auto|split; [lia|constructor]]. }
    apply Qlt_bool_iff in Hcond.
    set (req := poll_request statement_handle access_token (clock (world st))).
    pose proof (seconds_nonneg (elapsed (server env (log (world st)) req))) as Hd.
    assert (Hone :
      forall r0 : Result json, (forall e, r0 = Raise e -> poll_error e) ->
        self (sent env st req) = self st /\
        token_lookups (world (sent env st req)) = token_lookups (world st) /\
        (clock (world st) <= clock (world (sent env st req)))%Q /\
        (forall e, r0 = Raise e -> poll_error e) /\
        exists polls,
          log (world (sent env st req)) = polls ++ log (world st) /\
          (length polls <= S fuel)%nat /\
          Forall (fun req =>
                req = poll_request statement_handle access_token (issued_at req) /\
                (clock (world st) <= issued_at req)%Q /\
                (issued_at req - start_time < inject_Z timeout)%Q) polls).
    { intros r0 Hr0. simpl. repeat split; auto; try lra.
      exists [req]. simpl. split; [reflexivity|]. split; [lia|].
      constructor; [|constructor]. simpl. repeat split; auto; lra. }
    cbv zeta.
    destruct (negb _).
    { intros [= <- <-]. apply Hone. intros e [= <-]. exact I. }
    destruct (response_json _) as [result|e] eqn:Hjson.
    2:{ intros [= <- <-]. apply Hone. intros e' [= <-].
        apply builtin_is_poll_error. eauto with py_errors. }
    destruct (Py.get _ _ _) as [status|e] eqn:Hget.
    2:{ intros [= <- <-]. apply Hone. intros e' [= <-].
        apply builtin_is_poll_error. eauto with py_errors. }
    destruct (is_complete result) as [[|]|e] eqn:Hcomplete.
    + intros [= <- <-]. apply Hone. discriminate.
    + intros Hrec. apply IH in Hrec as (Hself & Hcount & Hclock & Herr & polls & Hlog & Hlen & Hall).
      pose proof (seconds_nonneg (oversleep env (clock (world (sent env st req))))) as Hs.
      simpl in *. repeat split; auto; try lra.
      exists (polls ++ [req]). rewrite <- app_assoc. simpl.
      split; [exact Hlog|]. split; [rewrite length_app; simpl; lia|].
      apply Forall_app. split.
      * eapply Forall_impl; [exact Hall|]. simpl. intros q (Hq & Ht & Hw).
        repeat split; auto. lra.
      * constructor; [|constructor]. simpl. repeat split; auto; lra.
    + intros [= <- <-]. apply Hone. intros e' [= <-].
      apply builtin_is_poll_error. eapply is_complete_error. exact Hcomplete.
Qed.

Lemma inject_Z_succ (n : nat) :
  (inject_Z (Z.of_nat (S n)) == inject_Z (Z.of_nat n) + 1)%Q.
Proof. rewrite Nat2Z.inj_succ. unfold Z.succ. rewrite inject_Z_plus. reflexivity. Qed.

Lemma builtin_not_fuel (e : exn) : builtin_error e -> e <> FuelExhausted.
Proof. destruct e; simpl; intros H; try discriminate; contradiction. Qed.

(** The loop ends by itself: every pass that goes round again sleeps
    for a second or more, so as many unrollings as there are seconds
    left before the deadline are never used up. *)
Lemma poll_loop_fuel (fuel : nat) :
  forall (st : St) (r : Result json) (st' : St),
    (inject_Z timeout - (clock (world st) - start_time)
       <= inject_Z (Z.of_nat fuel))%Q ->
    poll_loop env fuel statement_handle access_token timeout start_time st
      = (r, st') ->
    r <> Raise FuelExhausted.
Proof.
  induction fuel as [|fuel IH]; intros st r st' Hfuel; rewrite poll_loop_unfold.
  - destruct (Qlt_bool _ _) eqn:Hcond.
    + apply Qlt_bool_iff in Hcond. exfalso.
      change (inject_Z (Z.of_nat 0)) with 0%Q in Hfuel. lra.
    + intros [= <- <-]. discriminate.
  - destruct (Qlt_bool _ _) eqn:Hcond; [|intros [= <- <-]; discriminate].
    cbv zeta.
    set (req := poll_request statement_handle access_token (clock (world st))).
    destruct (negb _); [intros [= <- <-]; discriminate|].
    destruct (response_json _) as [result|e] eqn:Hjson.
    2:{ intros [= <- <-] [= He]. revert He. apply builtin_not_fuel.
        eauto with py_errors. }
    destruct (Py.get _ _ _) as [status|e] eqn:Hget.
    2:{ intros [= <- <-] [= He]. revert He. apply builtin_not_fuel.
        eauto with py_errors. }
    destruct (is_complete result) as [[|]|e] eqn:Hcomplete.
    + intros [= <- <-]. discriminate.
    + apply IH.
      pose proof (seconds_nonneg (elapsed (server env (log (world st)) req))) as Hd.
      pose proof (seconds_nonneg (oversleep env (clock (world (sent env st req))))) as Hs.
      pose proof (inject_Z_succ fuel) as Hsucc.
      simpl in *. lra.
    + intros [= <- <-] [= He]. revert He. apply builtin_not_fuel.
      eapply is_complete_error. exact Hcomplete.
Qed.

Lemma pending_is_incomplete (r : Response) :
  pending r = true ->
  (status_code r =? 200) = true /\
  exists m, response_json r = Ok (JObject m) /\ is_complete (JObject m) = Ok false.
Proof.
  unfold pending, response_json. intros [Hs Hb]%andb_prop. split; [exact Hs|].
  destruct (json_body r) as [[| | | | | |m]|]; try discriminate.
  apply andb_prop in Hb as [Hmd Hmsg].
  exists m. split; [reflexivity|].
  unfold is_complete. simpl.
  apply negb_true_iff in Hmd, Hmsg. rewrite Hmd. simpl. rewrite Hmsg. reflexivity.
Qed.

(** While every status answer is pending, the loop ends in the timeout
    error. *)
Lemma poll_loop_times_out (fuel : nat) :
  (forall history t,
      pending (server env history
                 (poll_request statement_handle access_token t)) = true) ->
  forall st : St,
    (inject_Z timeout - (clock (world st) - start_time)
       <= inject_Z (Z.of_nat fuel))%Q ->
    exists st',
      poll_loop env fuel statement_handle access_token timeout start_time st
        = (Raise (TimedOut timeout), st').
Proof.
  intros Hpending.
  induction fuel as [|fuel IH]; intros st Hfuel; rewrite poll_loop_unfold.
  - destruct (Qlt_bool _ _) eqn:Hcond; [|eauto].
    apply Qlt_bool_iff in Hcond. exfalso.
    change (inject_Z (Z.of_nat 0)) with 0%Q in Hfuel. lra.
  - destruct (Qlt_bool _ _) eqn:Hcond; [|eauto].
    cbv zeta.
    set (req := poll_request statement_handle access_token (clock (world st))).
    destruct (pending_is_incomplete _ (Hpending (log (world st)) (clock (world st))))
      as (Hs & m & Hjson & Hcomplete).
    fold req in Hs, Hjson. rewrite Hs, Hjson. simpl negb. cbv iota.
    simpl Py.get. cbv iota. rewrite Hcomplete.
    apply IH.
    pose proof (seconds_nonneg (elapsed (server env (log (world st)) req))) as Hd.
    pose proof (seconds_nonneg (oversleep env (clock (world (sent env st req))))) as Hsl.
    pose proof (inject_Z_succ fuel) as Hsucc.
    apply Qlt_bool_iff in Hcond.
    simpl in *. lra.
Qed.

Lemma timeout_is_enough_fuel :
  (inject_Z timeout <= inject_Z (Z.of_nat (Z.to_nat timeout)))%Q.
Proof. rewrite <- Zle_Qle. lia. Qed.

(** A loop entered with time left sends its first fetch at once, at the
    clock it was entered with. *)
Lemma poll_loop_first_fetch (fuel : nat) (st : St) (r : Result json) (st' : St) :
  Qlt_bool (clock (world st) - start_time) (inject_Z timeout) = true ->
  poll_loop env (S fuel) statement_handle access_token timeout start_time st
    = (r, st') ->
  exists later,
    log (world st')
      = later ++ poll_request statement_handle access_token (clock (world st))
              :: log (world st).
Proof.
  intros Hcond. rewrite poll_loop_unfold, Hcond. cbv zeta.
  set (req := poll_request statement_handle access_token (clock (world st))).
  destruct (negb _); [intros [= <- <-]; exists []; reflexivity|].
  destruct (response_json _) as [result|e]; [|intros [= <- <-]; exists []; reflexivity].
  destruct (Py.get _ _ _) as [status|e]; [|intros [= <- <-]; exists []; reflexivity].
  destruct (is_complete result) as [[|]|e];
    [intros [= <- <-]; exists []; reflexivity|
    |intros [= <- <-]; exists []; reflexivity].
  intros (_ & _ & _ & _ & polls & Hlog & _)%poll_loop_frame.
  exists polls. exact Hlog.
Qed.

Lemma positive_timeout_has_fuel :
  0 < timeout -> exists fuel, Z.to_nat timeout = S fuel.
Proof. intros Ht. exists (Nat.pred (Z.to_nat timeout)). lia. Qed.

End Polling.

Lemma poll_statement_unfold (env : Env) (statement_handle : json) (timeout : Z)
    (st : St) :
  _poll_statement env statement_handle timeout st =
  match _get_access_token env st with
  | (Ok access_token, st1) =>
      poll_loop env (Z.to_nat timeout) statement_handle access_token timeout
        (clock (world st1)) st1
  | (Raise e, st1) => (Raise e, st1)
  end.
Proof.
  unfold _poll_statement, bindE at 1.
  destruct (_get_access_token env st) as [[tok|e] st1]; reflexivity.
Qed.

(** C2, as stated, fails: the token is looked up once, before the loop.
    Here it expires at 0.9 s; the second fetch, at 1 s, still carries it,
    no refresh was sent in between, and one lookup was counted for two
    fetches. *)
Lemma poll_statement_reuses_expired_token :
  let st' := (_poll_statement short_token_env (JStr "h") 10 (client JNull 0 0)).2 in
  map (fun req => (method req, url req, bearer req)) (log (world st')) =
    [(GET, status_url (JStr "h"), Some (JStr "T1"));
     (GET, status_url (JStr "h"), Some (JStr "T1"));
     (POST, token_url, None)] /\
  token_lookups (world st') = 1%nat /\
  exists fetch,
    log (world st') !! 0%nat = Some fetch /\
    (_token_expires_at (self st') < issued_at fetch)%Q.
Proof.
  cbv zeta. split; [vm_compute; reflexivity|].
  split; [vm_compute; reflexivity|].
  eexists. split; [vm_compute; reflexivity|].
  vm_compute. reflexivity.
Qed.

(** C2, amended: every execution of the polling loop performs exactly one
    token lookup, before the first status fetch, and every status fetch
    carries the token that lookup returned, however many passes the loop
    makes; nothing else is sent between the fetches. *)
Theorem poll_statement_single_token_lookup (env : Env) (statement_handle : json)
    (timeout : Z) (st : St) :
  token_lookups (world (_poll_statement env statement_handle timeout st).2)
    = S (token_lookups (world st)) /\
  match _get_access_token env st with
  | (Raise e, st1) =>
      _poll_statement env statement_handle timeout st = (Raise e, st1)
  | (Ok access_token, st1) =>
      exists polls,
        log (world (_poll_statement env statement_handle timeout st).2)
          = polls ++ log (world st1) /\
        Forall (fun req =>
                  method req = GET /\
                  url req = status_url statement_handle /\
                  bearer req = Some access_token) polls
  end.
Proof.
  rewrite poll_statement_unfold.
  destruct (_get_access_token env st) as [[tok|e] st1] eqn:Htok;
    pose proof (get_access_token_frame _ _ _ _ Htok) as (Hcount & _).
  - destruct (poll_loop env (Z.to_nat timeout) statement_handle tok timeout
                (clock (world st1)) st1) as [r st'] eqn:Hloop.
    apply poll_loop_frame in Hloop as (_ & Hsame & _ & _ & polls & Hlog & _ & Hall).
    simpl. split; [congruence|].
    exists polls. split; [exact Hlog|].
    eapply Forall_impl; [exact Hall|]. simpl.
    intros req (-> & _). simpl. auto.
  - simpl. auto.
Qed.

(** ** The statement executor *)

Lemma column_error (c : json) (e : exn) : column c = Raise e -> builtin_error e.
Proof.
  unfold column.
  destruct (Py.subscript c "name") eqn:E1; simpl; [|intros [= <-]; eauto with py_errors].
  destruct (Py.subscript c "type") eqn:E2; simpl; [|intros [= <-]; eauto with py_errors].
  destruct (Py.get c "nullable" (JBool true)) eqn:E3; simpl;
    [discriminate|intros [= <-]; eauto with py_errors].
Qed.

Lemma comprehension_error (cols : list json) (e : exn) :
  Py.comprehension column cols = Raise e -> builtin_error e.
Proof.
  induction cols as [|c cols IH]; simpl; [discriminate|].
  destruct (column c) eqn:Ec; simpl; [|intros [= <-]; eauto using column_error].
  destruct (Py.comprehension column cols); simpl; [discriminate|].
  intros [= <-]. auto.
Qed.

Lemma bind_error {A B} (m : Result A) (k : A -> Result B) (e : exn) :
  (m = Raise e -> builtin_error e) ->
  (forall a, k a = Raise e -> builtin_error e) ->
  bind m k = Raise e -> builtin_error e.
Proof.
  destruct m; simpl; intros Hm Hk; [apply Hk|].
  intros [= <-]. apply Hm. reflexivity.
Qed.

Ltac raises_builtin :=
  lazymatch goal with
  | |- bind _ _ = Raise _ -> _ =>
      apply bind_error; [raises_builtin | intros ?; raises_builtin]
  | |- (if ?b then _ else _) = Raise _ -> _ => destruct b; raises_builtin
  | |- Ok _ = Raise _ -> _ => discriminate
  | |- _ => solve [eauto using comprehension_error with py_errors]
  end.

(** The normaliser raises nothing but the errors of its subscripts,
    attribute lookups and iterations. *)
Lemma format_result_error (result : json) (e : exn) :
  _format_result result = Raise e -> builtin_error e.
Proof. unfold _format_result. cbv zeta. raises_builtin. Qed.

Lemma execute_unfold (env : Env) (sql : string) (timeout : Z) (o : Overrides)
    (st : St) :
  execute env sql timeout o st =
  match _get_access_token env st with
  | (Raise e, st1) => (Raise e, st1)
  | (Ok access_token, st1) =>
      let req := submit_request access_token
                   (execute_payload (self st1) sql timeout o)
                   (clock (world st1)) in
      let response := server env (log (world st1)) req in
      let st2 := sent env st1 req in
      if negb ((status_code response =? 200) || (status_code response =? 202)) then
        (Raise (ExecutionFailed (status_code response) (text response)), st2)
      else
        match response_json response with
        | Raise e => (Raise e, st2)
        | Ok result =>
            if status_code response =? 202 then
              match Py.subscript result "statementHandle" with
              | Raise e => (Raise e, st2)
              | Ok statement_handle =>
                  match _poll_statement env statement_handle timeout st2 with
                  | (Ok result', st3) => (_format_result result', st3)
                  | (Raise e, st3) => (Raise e, st3)
                  end
              end
            else (_format_result result, st2)
        end
  end.
Proof.
  unfold execute, bindE at 1.
  destruct (_get_access_token env st) as [[tok|e] st1]; [|reflexivity].
  run_exec. unfold submit_request, sent. simpl.
  destruct (negb _); [reflexivity|].
  destruct (response_json _) as [result|e]; [|reflexivity].
  destruct (status_code _ =? 202); [|reflexivity].
  destruct (Py.subscript _ _); [|reflexivity].
  destruct (_poll_statement _ _ _ _) as [[?|?] ?]; reflexivity.
Qed.

Lemma get_access_token_log (env : Env) (st : St) (r : Result json) (st' : St) :
  _get_access_token env st = (r, st') ->
  (clock (world st) <= clock (world st'))%Q /\
  exists pre,
    log (world st') = pre ++ log (world st) /\
    Forall (fun req => method req = POST /\ url req = token_url /\
                       issued_at req = clock (world st)) pre.
Proof.
  intros (_ & _ & _ & Hclock & [Hlog|Hlog] & _)%get_access_token_frame.
  - split; [exact Hclock|]. exists []. split; [exact Hlog|constructor].
  - split; [exact Hclock|]. exists [refresh_request st]. split; [exact Hlog|].
    constructor; [|constructor]. simpl. auto.
Qed.

Lemma get_access_token_returns (env : Env) (st : St) :
  (forall history req, url req = token_url -> grants (server env history req) = true) ->
  exists access_token st1, _get_access_token env st = (Ok access_token, st1).
Proof.
  intros Hgrants.
  destruct (token_is_cached st) eqn:Hc.
  - rewrite get_access_token_cached by exact Hc. eauto.
  - specialize (Hgrants (log (world st)) (refresh_request st) eq_refl).
    unfold grants in Hgrants. apply andb_prop in Hgrants as [Hs Hb].
    unfold token_is_cached in Hc.
    unfold _get_access_token. run_exec. unfold refresh_request in *.
    assert (Hnc :
      (if Py.truthy (_access_token (self st))
       then Qlt_bool (clock (world st)) (_token_expires_at (self st))
       else false) = false).
    { destruct (Py.truthy _); simpl in *; auto. }
    destruct (Py.truthy (_access_token (self st))); simpl; rewrite ?Hnc; simpl;
      rewrite Hs; simpl; unfold response_json;
      (destruct (json_body _) as [[| | | | | |m]|]; try discriminate);
      apply andb_prop in Hb as [[tok Hat]%bool_decide_eq_true Hn]; simpl;
      rewrite Hat; simpl;
      (destruct (Py.as_number _); [|discriminate]); simpl; eauto.
Qed.

Lemma token_error_not_fuel (e : exn) : token_error e -> e <> FuelExhausted.
Proof. destruct e; simpl; intros H; try discriminate; contradiction. Qed.

(** What a run of [_poll_statement] sends: at most one refresh request,
    then status fetches only, all issued in the [timeout] seconds that
    follow the reading of [start_time]; and the loop model never runs out
    of unrollings. *)
Lemma poll_statement_frame (env : Env) (statement_handle : json) (timeout : Z)
    (st : St) (r : Result json) (st' : St) :
  _poll_statement env statement_handle timeout st = (r, st') ->
  r <> Raise FuelExhausted /\
  (forall e, r = Raise e -> poll_error e \/ token_error e) /\
  exists start pre polls,
    log (world st') = polls ++ pre ++ log (world st) /\
    (clock (world st) <= start)%Q /\
    Forall (fun req => method req = POST /\ url req = token_url /\
                       (issued_at req <= start)%Q) pre /\
    (length polls <= Z.to_nat timeout)%nat /\
    Forall (fun req =>
              method req = GET /\
              url req = status_url statement_handle /\
              (start <= issued_at req)%Q /\
              (issued_at req < start + inject_Z timeout)%Q) polls.
Proof.
  rewrite poll_statement_unfold.
  destruct (_get_access_token env st) as [[tok|e] st1] eqn:Htok.
  - pose proof (get_access_token_log _ _ _ _ Htok) as (Hclock & pre & Hpre & Hall).
    intros Hloop.
    pose proof (poll_loop_fuel env statement_handle tok timeout (clock (world st1))
                  (Z.to_nat timeout) st1 r st') as Hfuel.
    pose proof (timeout_is_enough_fuel timeout) as Hle.
    split; [apply Hfuel; [lra|exact Hloop]|].
    apply poll_loop_frame in Hloop as (_ & _ & _ & Herr & polls & Hlog & Hlen & Hpolls).
    split; [intros e He; left; eauto|].
    exists (clock (world st1)), pre, polls.
    split; [rewrite Hlog, Hpre; reflexivity|].
    split; [exact Hclock|].
    split; [eapply Forall_impl; [exact Hall|]; simpl; intros q (? & ? & ->); auto|].
    split; [exact Hlen|].
    eapply Forall_impl; [exact Hpolls|]. simpl.
    intros q (-> & Hq1 & Hq2). simpl in *. repeat split; auto. lra.
  - intros [= <- <-].
    pose proof (get_access_token_frame _ _ _ _ Htok) as (_ & _ & _ & _ & _ & Herr).
    pose proof (get_access_token_log _ _ _ _ Htok) as (Hclock & pre & Hpre & Hall).
    split; [intros [= ->]; eapply token_error_not_fuel; eauto|].
    split; [intros e' [= <-]; right; eauto|].
    exists (clock (world st1)), pre, []. simpl.
    split; [exact Hpre|]. split; [exact Hclock|].
    split; [eapply Forall_impl; [exact Hall|]; simpl; intros q (? & ? & ->); auto|].
    split; [lia|constructor].
Qed.

(** C3, as stated, fails: the deadline is not counted from the start of
    the submission.  With a timeout of 2 s and a submission answered after
    5 s, the statement is fetched at 5 s and at 6 s, both later than 2 s
    after the submission was sent, before the timeout error is raised. *)
Lemma execute_polls_after_submission_deadline :
  let run := execute slow_submit_env "SELECT 1" 2 no_overrides (client JNull 0 0) in
  run.1 = Raise (TimedOut 2) /\
  map (fun req => (method req, url req)) (log (world run.2)) =
    [(GET, status_url (JStr "h")); (GET, status_url (JStr "h"));
     (POST, sql_url); (POST, token_url)] /\
  exists submit fetch,
    log (world run.2) !! 2%nat = Some submit /\
    log (world run.2) !! 1%nat = Some fetch /\
    (issued_at submit + inject_Z 2 < issued_at fetch)%Q.
Proof.
  cbv zeta. split; [vm_compute; reflexivity|].
  split; [vm_compute; reflexivity|].
  eexists _, _. split; [vm_compute; reflexivity|].
  split; [vm_compute; reflexivity|].
  vm_compute. reflexivity.
Qed.

(** C3, amended: when the token endpoint grants, the submission is
    answered 202 with a handle and every status answer is pending,
    [execute] raises the timeout error.  The deadline is [timeout] seconds
    after [start_time], the clock [_poll_statement] reads once its own
    token lookup is done, which is after the answer to the submission has
    arrived and not when the submission started; it is the same for every
    pass, the first fetch is issued at [start_time] itself, and every
    fetch is issued before the deadline. *)
Theorem execute_times_out (env : Env) (sql : string) (timeout : Z)
    (o : Overrides) (statement_handle : json) (st : St) :
  (forall history req, url req = token_url -> grants (server env history req) = true) ->
  (forall history req, url req = sql_url -> accepts statement_handle (server env history req)) ->
  (forall history req, url req = status_url statement_handle ->
                       pending (server env history req) = true) ->
  exists access_token st1 poll_token st3 st' polls,
    _get_access_token env st = (Ok access_token, st1) /\
    let req := submit_request access_token
                 (execute_payload (self st1) sql timeout o) (clock (world st1)) in
    _get_access_token env (sent env st1 req) = (Ok poll_token, st3) /\
    let start_time := clock (world st3) in
    execute env sql timeout o st = (Raise (TimedOut timeout), st') /\
    (clock (world st) <= issued_at req)%Q /\
    (issued_at req + seconds (elapsed (server env (log (world st1)) req))
       <= start_time)%Q /\
    log (world st') = polls ++ log (world st3) /\
    (length polls <= Z.to_nat timeout)%nat /\
    Forall (fun fetch =>
              fetch = poll_request statement_handle poll_token (issued_at fetch) /\
              (start_time <= issued_at fetch)%Q /\
              (issued_at fetch < start_time + inject_Z timeout)%Q) polls /\
    (0 < timeout ->
     exists later,
       polls = later ++ [poll_request statement_handle poll_token start_time]).
Proof.
  intros Hgrants Haccepts Hpending.
  rewrite execute_unfold.
  destruct (get_access_token_returns env st Hgrants) as (tok & st1 & Htok).
  rewrite Htok. cbv zeta.
  pose proof (get_access_token_log _ _ _ _ Htok) as (Hclock1 & _).
  set (req := submit_request tok (execute_payload (self st1) sql timeout o)
                (clock (world st1))).
  destruct (Haccepts (log (world st1)) req eq_refl) as (Hstatus & m & Hbody & Hhandle).
  rewrite Hstatus. simpl negb. cbv iota.
  unfold response_json. rewrite Hbody. simpl Z.eqb. cbv iota.
  simpl Py.subscript. rewrite Hhandle.
  set (st2 := sent env st1 req).
  rewrite poll_statement_unfold.
  destruct (get_access_token_returns env st2 Hgrants) as (tok2 & st3 & Htok2).
  rewrite Htok2.
  pose proof (get_access_token_log _ _ _ _ Htok2) as (Hclock2 & _).
  pose proof (timeout_is_enough_fuel timeout) as Hle.
  destruct (poll_loop_times_out env statement_handle tok2 timeout (clock (world st3))
              (Z.to_nat timeout)
              (fun history t =>
                 Hpending history (poll_request statement_handle tok2 t) eq_refl) st3)
    as (st' & Hloop); [lra|].
  rewrite Hloop.
  pose proof (poll_loop_frame _ _ _ _ _ _ _ _ _ Hloop)
    as (_ & _ & _ & _ & polls & Hlog & Hlen & Hpolls).
  pose proof (seconds_nonneg (elapsed (server env (log (world st1)) req))) as Hd.
  exists tok, st1, tok2, st3, st', polls.
  split; [reflexivity|]. split; [exact Htok2|].
  split; [reflexivity|].
  split; [exact Hclock1|].
  split.
  { change (issued_at req) with (clock (world st1)).
    change (clock (world st2))
      with (clock (world st1) + seconds (elapsed (server env (log (world st1)) req)))%Q
      in Hclock2.
    exact Hclock2. }
  split; [exact Hlog|]. split; [exact Hlen|].
  split.
  { eapply Forall_impl; [exact Hpolls|]. cbv beta.
    intros q (Hq & Hq1 & Hq2). split; [exact Hq|]. split; [exact Hq1|]. lra. }
  intros Hpos.
  destruct (positive_timeout_has_fuel timeout Hpos) as (fuel & Hfuel).
  rewrite Hfuel in Hloop.
  apply poll_loop_first_fetch in Hloop as (later & Hlater).
  - exists later. rewrite Hlog in Hlater.
    change (later ++ poll_request statement_handle tok2 (clock (world st3))
                  :: log (world st3))
      with (later ++ [poll_request statement_handle tok2 (clock (world st3))]
                  ++ log (world st3)) in Hlater.
    rewrite app_assoc in Hlater. apply app_inv_tail in Hlater. exact Hlater.
  - apply Qlt_bool_iff.
    assert (inject_Z 0 < inject_Z timeout)%Q by (rewrite <- Zlt_Qlt; exact Hpos).
    change (inject_Z 0) with 0%Q in H. lra.
Qed.

Lemma execute_times_out_witness :
  exists st3 st' polls,
    execute slow_submit_env "SELECT 1" 2 no_overrides (client JNull 0 0)
      = (Raise (TimedOut 2), st') /\
    (5 <= clock (world st3))%Q /\
    log (world st') = polls ++ log (world st3) /\
    Forall (fun fetch => (clock (world st3) <= issued_at fetch)%Q) polls.
Proof.
  destruct (execute_times_out slow_submit_env "SELECT 1" 2 no_overrides (JStr "h")
              (client JNull 0 0))
    as (tok & st1 & tok2 & st3 & st' & polls & Htok & Htok2 & Hrun & _ & Hstart
        & Hlog & _ & Hpolls & _).
  - intros history req Hurl. simpl. rewrite Hurl. reflexivity.
  - intros history req Hurl. simpl. rewrite Hurl. split; [reflexivity|].
    eexists. split; reflexivity.
  - intros history req Hurl. simpl. rewrite Hurl. reflexivity.
  - exists st3, st', polls. split; [exact Hrun|].
    split; [|split; [exact Hlog|]].
    + assert (Hst1 : st1 = (_get_access_token slow_submit_env (client JNull 0 0)).2)
        by (rewrite Htok; reflexivity).
      rewrite Hst1 in Hstart.
      eapply Qle_trans; [|exact Hstart]. vm_compute. discriminate.
    + eapply Forall_impl; [exact Hpolls|]. cbv beta. intros q (_ & Hq & _). exact Hq.
Defined.

(** What [execute] sends once it holds a token: the submission, and
    after it status fetches only when the answer was 202, all to the
    status URL of the handle in its body. *)
Lemma execute_sends (env : Env) (sql : string) (timeout : Z)
    (o : Overrides) (st : St) (access_token : json) (st1 : St) :
  _get_access_token env st = (Ok access_token, st1) ->
  let req := submit_request access_token
               (execute_payload (self st1) sql timeout o) (clock (world st1)) in
  let response := server env (log (world st1)) req in
  exists sent_after,
    log (world (execute env sql timeout o st).2)
      = sent_after ++ req :: log (world st1) /\
    Forall (fun fetch =>
              method fetch = GET ->
              status_code response = 202 /\
              exists body statement_handle,
                response_json response = Ok body /\
                Py.subscript body "statementHandle" = Ok statement_handle /\
                url fetch = status_url statement_handle) sent_after.
Proof.
  intros Htok. cbv zeta. rewrite execute_unfold, Htok. cbv zeta.
  set (req := submit_request access_token
                (execute_payload (self st1) sql timeout o) (clock (world st1))).
  set (response := server env (log (world st1)) req).
  destruct (negb _); [exists []; simpl; auto|].
  destruct (response_json response) as [body|e]; [|exists []; simpl; auto].
  destruct (status_code response =? 202) eqn:H202; [|exists []; simpl; auto].
  apply Z.eqb_eq in H202.
  destruct (Py.subscript body "statementHandle") as [h|e] eqn:Hh;
    [|exists []; simpl; auto].
  destruct (_poll_statement env h timeout (sent env st1 req)) as [r st3] eqn:Hpoll.
  apply poll_statement_frame in Hpoll
    as (_ & _ & start & pre & polls & Hlog & _ & Hpre & _ & Hpolls).
  exists (polls ++ pre). split.
  - destruct r; simpl; rewrite Hlog, <- app_assoc; reflexivity.
  - apply Forall_app. split.
    + eapply Forall_impl; [exact Hpolls|]. cbv beta.
      intros q (_ & Hurl & _) _. split; [exact H202|]. eauto.
    + eapply Forall_impl; [exact Hpre|]. cbv beta.
      intros q (Hm & _) Hget. congruence.
Qed.

(** C6: a submission answered 200 is normalised and returned at once,
    with nothing sent after it.  A submission answered 202 hands the
    [statementHandle] of its body to [_poll_statement], whose outcome is
    the outcome of [execute]; with a positive timeout the first status
    fetch goes out as soon as the poll's token lookup is done, to the
    status URL of that handle.  Any status fetch that [execute] sends
    follows a 202 answer and goes to the status URL of its handle. *)
Theorem execute_200_short_circuit (env : Env) (sql : string) (timeout : Z)
    (o : Overrides) (st : St) (access_token : json) (st1 : St) :
  _get_access_token env st = (Ok access_token, st1) ->
  let req := submit_request access_token
               (execute_payload (self st1) sql timeout o) (clock (world st1)) in
  let response := server env (log (world st1)) req in
  (status_code response = 200 ->
   execute env sql timeout o st
     = (bind (response_json response) _format_result, sent env st1 req) /\
   log (world (sent env st1 req)) = req :: log (world st1) /\
   token_lookups (world (sent env st1 req)) = token_lookups (world st1)) /\
  (status_code response = 202 ->
   forall body statement_handle,
     response_json response = Ok body ->
     Py.subscript body "statementHandle" = Ok statement_handle ->
     execute env sql timeout o st =
       match _poll_statement env statement_handle timeout (sent env st1 req) with
       | (Ok result, st3) => (_format_result result, st3)
       | (Raise e, st3) => (Raise e, st3)
       end /\
     forall poll_token st2,
       _get_access_token env (sent env st1 req) = (Ok poll_token, st2) ->
       0 < timeout ->
       exists later,
         log (world (execute env sql timeout o st).2)
           = later ++ poll_request statement_handle poll_token (clock (world st2))
                   :: log (world st2)) /\
  exists sent_after,
    log (world (execute env sql timeout o st).2)
      = sent_after ++ req :: log (world st1) /\
    Forall (fun fetch =>
              method fetch = GET ->
              status_code response = 202 /\
              exists body statement_handle,
                response_json response = Ok body /\
                Py.subscript body "statementHandle" = Ok statement_handle /\
                url fetch = status_url statement_handle) sent_after.
Proof.
  intros Htok. cbv zeta. split; [|split].
  - rewrite execute_unfold, Htok. cbv zeta.
    intros ->. simpl. split; [|auto].
    destruct (response_json _); reflexivity.
  - intros H202 body h Hbody Hh.
    rewrite execute_unfold, Htok. cbv zeta.
    rewrite H202. simpl negb. cbv iota. rewrite Hbody. simpl Z.eqb. cbv iota.
    rewrite Hh. split; [reflexivity|].
    intros tok2 st2 Htok2 Hpos.
    rewrite poll_statement_unfold, Htok2.
    destruct (positive_timeout_has_fuel timeout Hpos) as (fuel & ->).
    destruct (poll_loop env (S fuel) h tok2 timeout (clock (world st2)) st2)
      as [r st3] eqn:Hloop.
    apply poll_loop_first_fetch in Hloop as (later & Hlater).
    + exists later. destruct r; exact Hlater.
    + apply Qlt_bool_iff.
      assert (inject_Z 0 < inject_Z timeout)%Q by (rewrite <- Zlt_Qlt; exact Hpos).
      change (inject_Z 0) with 0%Q in H. lra.
  - exact (execute_sends env sql timeout o st access_token st1 Htok).
Qed.

Lemma execute_200_short_circuit_witness :
  execute completed_env "SELECT 1" 60 no_overrides (client (JStr "T0") 100 0)
    = (Ok formatted7,
       sent completed_env
         (count_lookup (client (JStr "T0") 100 0)).2
         (submit_request (JStr "T0")
            (execute_payload (self (client (JStr "T0") 100 0)) "SELECT 1" 60
               no_overrides) 0)) /\
  exists later st2,
    log (world (execute slow_submit_env "SELECT 1" 2 no_overrides
                  (client (JStr "T0") 100 0)).2)
      = later ++ poll_request (JStr "h") (JStr "T0") (clock (world st2))
              :: log (world st2) /\
    (5 <= clock (world st2))%Q.
Proof.
  split.
  - pose proof (execute_200_short_circuit completed_env "SELECT 1" 60 no_overrides
                  (client (JStr "T0") 100 0) (JStr "T0")
                  (count_lookup (client (JStr "T0") 100 0)).2 eq_refl) as [H _].
    destruct (H eq_refl) as [Hrun _]. exact Hrun.
  - pose proof (execute_200_short_circuit slow_submit_env "SELECT 1" 2 no_overrides
                  (client (JStr "T0") 100 0) (JStr "T0")
                  (count_lookup (client (JStr "T0") 100 0)).2 eq_refl)
      as (_ & H & _).
    destruct (H eq_refl _ (JStr "h") eq_refl eq_refl) as [_ Hfetch].
    destruct (Hfetch (JStr "T0") _ eq_refl ltac:(lia)) as (later & Hlater).
    eexists later, _. split; [exact Hlater|].
    vm_compute. discriminate.
Defined.

Lemma poll_error_not_execution (e : exn) (c : Z) (t : string) :
  poll_error e \/ token_error e \/ builtin_error e -> e <> ExecutionFailed c t.
Proof. destruct e; simpl; intros [H|[H|H]]; try discriminate; contradiction. Qed.

(** C9: [execute] raises the execution error exactly when the answer to
    its submission is neither 200 nor 202, and then stops: the one
    submission is the last thing sent.  When the token lookup before the
    submission raises, that error is passed on and nothing is submitted. *)
Theorem execute_error_iff_bad_status (env : Env) (sql : string) (timeout : Z)
    (o : Overrides) (st : St) :
  match _get_access_token env st with
  | (Raise e, st1) =>
      execute env sql timeout o st = (Raise e, st1) /\
      forall c t, e <> ExecutionFailed c t
  | (Ok access_token, st1) =>
      let req := submit_request access_token
                   (execute_payload (self st1) sql timeout o) (clock (world st1)) in
      let response := server env (log (world st1)) req in
      (forall c t,
          (execute env sql timeout o st).1 = Raise (ExecutionFailed c t) <->
          c = status_code response /\ t = text response /\ c <> 200 /\ c <> 202) /\
      (status_code response <> 200 -> status_code response <> 202 ->
       execute env sql timeout o st
         = (Raise (ExecutionFailed (status_code response) (text response)),
            sent env st1 req) /\
       log (world (sent env st1 req)) = req :: log (world st1))
  end.
Proof.
  rewrite execute_unfold.
  destruct (_get_access_token env st) as [[tok|e] st1] eqn:Htok.
  2:{ split; [reflexivity|]. intros c t.
      apply get_access_token_frame in Htok as (_ & _ & _ & _ & _ & Herr).
      apply poll_error_not_execution. right; left. eauto. }
  cbv zeta.
  set (req := submit_request tok (execute_payload (self st1) sql timeout o)
                (clock (world st1))).
  set (response := server env (log (world st1)) req).
  destruct (status_code response =? 200) eqn:H200;
    [apply Z.eqb_eq in H200|apply Z.eqb_neq in H200];
    (destruct (status_code response =? 202) eqn:H202;
      [apply Z.eqb_eq in H202|apply Z.eqb_neq in H202]); simpl negb; cbv iota.
  - lia.
  - split; [|intros; contradiction].
    intros c t. split; [|intros (-> & _ & ? & _); contradiction].
    destruct (response_json response) as [body|e] eqn:Hb; simpl.
    + destruct (_format_result body) eqn:Hf; [discriminate|].
      intros [= ->]. exfalso.
      eapply (poll_error_not_execution _ c t); [|reflexivity].
      right; right. eapply format_result_error. exact Hf.
    + intros [= ->]. exfalso.
      eapply (poll_error_not_execution _ c t); [|reflexivity].
      right; right. eapply response_json_error. exact Hb.
  - split; [|intros; contradiction].
    intros c t. split; [|intros (-> & _ & _ & ?); contradiction].
    destruct (response_json response) as [body|e] eqn:Hb; simpl.
    2:{ intros [= ->]. exfalso.
        eapply (poll_error_not_execution _ c t); [|reflexivity].
        right; right. eapply response_json_error. exact Hb. }
    destruct (Py.subscript body "statementHandle") as [h|e] eqn:Hh; simpl.
    2:{ intros [= ->]. exfalso.
        eapply (poll_error_not_execution _ c t); [|reflexivity].
        right; right. eapply subscript_error. exact Hh. }
    destruct (_poll_statement env h timeout (sent env st1 req)) as [[result|e] st3] eqn:Hpoll;
      simpl.
    + destruct (_format_result result) eqn:Hf; [discriminate|].
      intros [= ->]. exfalso.
      eapply (poll_error_not_execution _ c t); [|reflexivity].
      right; right. eapply format_result_error. exact Hf.
    + intros [= ->]. exfalso.
      apply poll_statement_frame in Hpoll as (_ & Herr & _).
      eapply (poll_error_not_execution _ c t); [|reflexivity].
      destruct (Herr _ eq_refl); auto.
  - split.
    + intros c t. simpl. split.
      * intros [= <- <-]. auto.
      * intros (-> & -> & _). reflexivity.
    + intros _ _. split; reflexivity.
Qed.

Lemma execute_error_iff_bad_status_witness :
  (execute failing_env "SELECT 1" 60 no_overrides (client (JStr "T0") 100 0)).1
    = Raise (ExecutionFailed 500 "").
Proof.
  pose proof (execute_error_iff_bad_status failing_env "SELECT 1" 60 no_overrides
                (client (JStr "T0") 100 0)) as H.
  rewrite get_access_token_cached in H by reflexivity.
  destruct H as [_ H]. destruct H as [-> _]; [discriminate|discriminate|reflexivity].
Defined.

(** ** The asynchronous submission *)

Lemma truthy_kwargs_get (kwargs : gmap string json) (k : string) :
  Py.truthy (kwargs_get kwargs k) = true ->
  Py.subscript (JObject kwargs) k = Ok (kwargs_get kwargs k).
Proof.
  unfold kwargs_get. simpl. destruct (kwargs !! k); simpl; [reflexivity|discriminate].
Qed.

Lemma set_if_lookup_ne (c : bool) (k k' : string) (v : json)
    (p : gmap string json) :
  k <> k' -> set_if c k v p !! k' = p !! k'.
Proof. intros Hne. unfold set_if. destruct c; [apply lookup_insert_ne; exact Hne|reflexivity]. Qed.

(** The payload of [execute_async] is always built, with timeout 0, the
    async flag and no bindings, whatever the keyword arguments. *)
Lemma execute_async_payload_shape (s : SnowflakeAPI) (sql : string)
    (kwargs : gmap string json) :
  exists p,
    execute_async_payload s sql kwargs = Ok p /\
    p !! "statement" = Some (JStr sql) /\
    p !! "timeout" = Some (JInt 0) /\
    p !! "async" = Some (JBool true) /\
    p !! "bindings" = None.
Proof.
  unfold execute_async_payload. cbv zeta.
  set (kw := <["timeout" := JInt 0]> kwargs).
  set (p2 := set_if _ "schema" _ _).
  assert (H2 : p2 !! "statement" = Some (JStr sql) /\
               p2 !! "timeout" = Some (JInt 0) /\
               p2 !! "async" = Some (JBool true) /\
               p2 !! "bindings" = None).
  { subst p2. rewrite !set_if_lookup_ne by discriminate. repeat split; reflexivity. }
  clearbody p2. destruct H2 as (Hs & Ht & Ha & Hb).
  destruct (Py.truthy (kwargs_get kw "warehouse")) eqn:Hw;
    destruct (Py.truthy (kwargs_get kw "role")) eqn:Hr;
    try rewrite (truthy_kwargs_get _ _ Hw);
    try rewrite (truthy_kwargs_get _ _ Hr);
    unfold bind;
    eexists; (split; [reflexivity|]);
    rewrite ?lookup_insert_ne by discriminate; auto.
Qed.

Lemma execute_async_unfold (env : Env) (sql : string)
    (kwargs : gmap string json) (st : St) :
  execute_async env sql kwargs st =
  match _get_access_token env st with
  | (Raise e, st1) => (Raise e, st1)
  | (Ok access_token, st1) =>
      match execute_async_payload (self st1) sql kwargs with
      | Raise e => (Raise e, st1)
      | Ok p =>
          let req := async_request access_token p (clock (world st1)) in
          let response := server env (log (world st1)) req in
          let st2 := sent env st1 req in
          if negb ((status_code response =? 200) || (status_code response =? 202)) then
            (Raise (AsyncSubmissionFailed (status_code response) (text response)), st2)
          else
            match response_json response with
            | Raise e => (Raise e, st2)
            | Ok result => (Py.get result "statementHandle" JNull, st2)
            end
      end
  end.
Proof.
  unfold execute_async, bindE at 1.
  destruct (_get_access_token env st) as [[tok|e] st1]; [|reflexivity].
  run_exec.
  destruct (execute_async_payload _ _ _); [|reflexivity].
  unfold async_request, sent. simpl.
  destruct (negb _); [reflexivity|].
  destruct (response_json _); reflexivity.
Qed.

Lemma execute_payload_bindings (s : SnowflakeAPI) (sql : string) (timeout : Z)
    (o : Overrides) :
  execute_payload s sql timeout o !! "timeout" = Some (JInt timeout) /\
  execute_payload s sql timeout o !! "bindings" =
    if Py.truthy (o_bindings o) then Some (o_bindings o) else None.
Proof.
  unfold execute_payload. cbv zeta. split.
  - rewrite !set_if_lookup_ne by discriminate. reflexivity.
  - unfold set_if at 1. destruct (Py.truthy (o_bindings o)).
    + apply lookup_insert_eq.
    + rewrite !set_if_lookup_ne by discriminate. reflexivity.
Qed.

(** C10: whatever keyword arguments [execute_async] is called with, the
    payload it submits has timeout 0 and async true and no bindings field,
    so bindings passed by the caller are dropped; [execute] puts the
    bindings it is given into its payload. *)
Theorem execute_async_drops_bindings (env : Env) (sql : string)
    (kwargs : gmap string json) (timeout : Z) (o : Overrides) (st : St)
    (access_token : json) (st1 : St) :
  _get_access_token env st = (Ok access_token, st1) ->
  (exists p,
     log (world (execute_async env sql kwargs st).2)
       = async_request access_token p (clock (world st1)) :: log (world st1) /\
     p !! "statement" = Some (JStr sql) /\
     p !! "timeout" = Some (JInt 0) /\
     p !! "async" = Some (JBool true) /\
     p !! "bindings" = None) /\
  (Py.truthy (o_bindings o) = true ->
   exists p sent_after,
     log (world (execute env sql timeout o st).2)
       = sent_after ++ submit_request access_token p (clock (world st1))
                    :: log (world st1) /\
     p !! "timeout" = Some (JInt timeout) /\
     p !! "bindings" = Some (o_bindings o)).
Proof.
  intros Htok. split.
  - rewrite execute_async_unfold, Htok.
    destruct (execute_async_payload_shape (self st1) sql kwargs)
      as (p & -> & Hshape).
    exists p. split; [|exact Hshape]. cbv zeta.
    destruct (negb _); [reflexivity|].
    destruct (response_json _); reflexivity.
  - intros Hb.
    destruct (execute_sends env sql timeout o st access_token st1 Htok)
      as (sent_after & Hlog & _).
    exists (execute_payload (self st1) sql timeout o), sent_after.
    split; [exact Hlog|].
    destruct (execute_payload_bindings (self st1) sql timeout o) as [Ht Hbind].
    rewrite Hb in Hbind. auto.
Qed.

Lemma execute_async_drops_bindings_witness :
  (exists p,
     log (world (execute_async completed_env "SELECT ?" bound_kwargs
                   (client (JStr "T0") 100 0)).2)
       = [async_request (JStr "T0") p 0] /\
     p !! "bindings" = None) /\
  (exists p sent_after,
     log (world (execute completed_env "SELECT ?" 60 bound_overrides
                   (client (JStr "T0") 100 0)).2)
       = sent_after ++ [submit_request (JStr "T0") p 0] /\
     p !! "bindings" = Some some_bindings).
Proof.
  destruct (execute_async_drops_bindings completed_env "SELECT ?" bound_kwargs 60
              bound_overrides (client (JStr "T0") 100 0) (JStr "T0")
              (count_lookup (client (JStr "T0") 100 0)).2 eq_refl)
    as [(p & Hlog & _ & _ & _ & Hnone) Hexec].
  split.
  - exists p. split; [exact Hlog | exact Hnone].
  - destruct Hexec as (p' & sent_after & Hlog' & _ & Hsome); [reflexivity|].
    exists p', sent_after. split; [exact Hlog' | exact Hsome].
Defined.

(** ** The model's loop bound is never the reason a call ends *)

Lemma execute_never_exhausts (env : Env) (sql : string) (timeout : Z)
    (o : Overrides) (st : St) :
  (execute env sql timeout o st).1 <> Raise FuelExhausted.
Proof.
  rewrite execute_unfold.
  destruct (_get_access_token env st) as [[tok|e] st1] eqn:Htok.
  2:{ simpl. intros [= ->].
      apply get_access_token_frame in Htok as (_ & _ & _ & _ & _ & Herr).
      exact (Herr _ eq_refl). }
  cbv zeta.
  destruct (negb _); [discriminate|].
  destruct (response_json _) as [body|e] eqn:Hb.
  2:{ simpl. intros [= ->]. apply response_json_error in Hb. exact Hb. }
  assert (Hfmt : forall result, _format_result result <> Raise FuelExhausted).
  { intros result H. apply format_result_error in H. exact H. }
  destruct (status_code _ =? 202); [|apply Hfmt].
  destruct (Py.subscript body "statementHandle") as [h|e] eqn:Hh.
  2:{ simpl. intros [= ->]. apply subscript_error in Hh. exact Hh. }
  destruct (_poll_statement env h timeout _) as [[result|e] st3] eqn:Hpoll;
    [apply Hfmt|].
  apply poll_statement_frame in Hpoll as (Hfuel & _).
  simpl. intros [= ->]. apply Hfuel. reflexivity.
Qed.

(** A token Python takes for false, such as the empty string, is never
    reused: the getter refreshes even before [expires_at]. *)
Lemma falsy_token_is_refreshed (env : Env) (st : St) :
  Py.truthy (_access_token (self st)) = false ->
  exists r st',
    _get_access_token env st = (r, st') /\
    log (world st') = refresh_request st :: log (world st).
Proof.
  intros Hf. apply get_access_token_refreshes.
  unfold token_is_cached. rewrite Hf. reflexivity.
Qed.

(** * Further properties *)

(** ** Failures and reuse in the token manager *)

Lemma not_cached_test (st : St) :
  token_is_cached st = false ->
  (if Py.truthy (_access_token (self st))
   then Qlt_bool (clock (world st)) (_token_expires_at (self st))
   else false) = false.
Proof.
  unfold token_is_cached. destruct (Py.truthy _); simpl; auto.
Qed.

Ltac start_refresh Hc :=
  unfold _get_access_token; run_exec; unfold refresh_request in *;
  pose proof (not_cached_test _ Hc) as Hnc;
  destruct (Py.truthy (_access_token (self _))); simpl; rewrite ?Hnc; simpl.

(** X1: a refresh answered with a status other than 200 raises the
    refresh error with that status and text, after the one request, and
    leaves the cached token and its expiry as they were. *)
Theorem rejected_refresh_keeps_cache (env : Env) (st : St) :
  token_is_cached st = false ->
  let response := server env (log (world st)) (refresh_request st) in
  status_code response <> 200 ->
  exists st',
    _get_access_token env st
      = (Raise (RefreshFailed (status_code response) (text response)), st') /\
    self st' = self st /\
    log (world st') = refresh_request st :: log (world st).
Proof.
  intros Hc response Hs. subst response.
  apply Z.eqb_neq in Hs.
  start_refresh Hc; rewrite Hs; simpl; eexists; (split; [reflexivity|]);
    simpl; auto.
Qed.

(** X2: a 200 refresh response that cannot be read as an object with an
    [access_token] raises the error of the failing step (not JSON, not an
    object, key missing) and leaves the cached token and its expiry as
    they were. *)
Theorem unreadable_refresh_keeps_cache (env : Env) (st : St) :
  token_is_cached st = false ->
  let response := server env (log (world st)) (refresh_request st) in
  status_code response = 200 ->
  (forall m, json_body response = Some (JObject m) -> m !! "access_token" = None) ->
  exists e st',
    _get_access_token env st = (Raise e, st') /\
    e = match json_body response with
        | None => JSONDecodeError
        | Some (JObject _) => KeyError "access_token"
        | Some _ => TypeError
        end /\
    self st' = self st /\
    log (world st') = refresh_request st :: log (world st).
Proof.
  intros Hc response Hs Hmissing. subst response.
  apply Z.eqb_eq in Hs. unfold refresh_request in Hmissing.
  start_refresh Hc; rewrite Hs; simpl; unfold response_json;
    (destruct (json_body _) as [[| | | | | |m]|] eqn:Hb; simpl;
     try (eexists _, _; (split; [reflexivity|]); simpl; auto; fail));
    rewrite (Hmissing m eq_refl); simpl;
    eexists _, _; (split; [reflexivity|]); simpl; auto.
Qed.

(** X3: when the response carries a token but an [expires_in] that is not
    a number, the getter raises [TypeError] after it has stored the new
    token: the cache then holds the new token with the old expiry. *)
Theorem bad_expires_in_stores_token (env : Env) (st : St)
    (token_data : gmap string json) (tok expires_in : json) :
  token_is_cached st = false ->
  let response := server env (log (world st)) (refresh_request st) in
  status_code response = 200 ->
  json_body response = Some (JObject token_data) ->
  token_data !! "access_token" = Some tok ->
  token_data !! "expires_in" = Some expires_in ->
  Py.as_number expires_in = Raise TypeError ->
  exists st',
    _get_access_token env st = (Raise TypeError, st') /\
    self st' = with_token (self st) tok /\
    log (world st') = refresh_request st :: log (world st).
Proof.
  intros Hc response Hs Hb Ht He Hn. subst response.
  apply Z.eqb_eq in Hs. unfold refresh_request in Hb.
  start_refresh Hc; rewrite Hs; simpl; unfold response_json; rewrite Hb; simpl;
    rewrite Ht; simpl; rewrite He; simpl; rewrite Hn; simpl;
    eexists; (split; [reflexivity|]); simpl; auto.
Qed.

Lemma rejected_refresh_keeps_cache_witness :
  exists st',
    _get_access_token rejecting_env (client (JStr "T0") 10 50)
      = (Raise (RefreshFailed 401 ""), st') /\
    self st' = self (client (JStr "T0") 10 50).
Proof.
  destruct (rejected_refresh_keeps_cache rejecting_env (client (JStr "T0") 10 50))
    as (st' & Hrun & Hself & _); [reflexivity|discriminate|].
  exists st'. split; [exact Hrun | exact Hself].
Defined.

Lemma unreadable_refresh_keeps_cache_witness :
  exists st',
    _get_access_token tokenless_env (client (JStr "T0") 10 50)
      = (Raise (KeyError "access_token"), st') /\
    self st' = self (client (JStr "T0") 10 50).
Proof.
  destruct (unreadable_refresh_keeps_cache tokenless_env (client (JStr "T0") 10 50))
    as (e & st' & Hrun & -> & Hself & _); [reflexivity|reflexivity| |].
  - intros m [= <-]. reflexivity.
  - exists st'. split; [exact Hrun | exact Hself].
Defined.

Lemma bad_expires_in_stores_token_witness :
  exists st',
    _get_access_token bad_expiry_env (client (JStr "T0") 10 50)
      = (Raise TypeError, st') /\
    _access_token (self st') = JStr "T1" /\
    (_token_expires_at (self st') == 10)%Q.
Proof.
  destruct (bad_expires_in_stores_token bad_expiry_env (client (JStr "T0") 10 50)
              (<["access_token" := JStr "T1"]> {["expires_in" := JStr "soon"]})
              (JStr "T1") (JStr "soon"))
    as (st' & Hrun & Hself & _); try reflexivity.
  exists st'. split; [exact Hrun|]. rewrite Hself. split; reflexivity.
Defined.

(** The state a successful refresh leaves behind. *)
Lemma refresh_success_state (env : Env) (st : St) (tok : json) (st' : St) :
  token_is_cached st = false ->
  _get_access_token env st = (Ok tok, st') ->
  let response := server env (log (world st)) (refresh_request st) in
  exists token_data n,
    status_code response = 200 /\
    json_body response = Some (JObject token_data) /\
    token_data !! "access_token" = Some tok /\
    Py.as_number (from_option id (JInt 600) (token_data !! "expires_in")) = Ok n /\
    _access_token (self st') = tok /\
    clock (world st') = (clock (world st) + seconds (elapsed response))%Q /\
    _token_expires_at (self st') = (clock (world st') + n * (9 # 10))%Q /\
    log (world st') = refresh_request st :: log (world st).
Proof.
  intros Hc. cbv zeta.
  start_refresh Hc;
    (destruct (status_code _ =? 200) eqn:Hs; simpl; [|discriminate]);
    apply Z.eqb_eq in Hs;
    unfold response_json;
    (destruct (json_body _) as [[| | | | | |token_data]|] eqn:Hbody; simpl;
       try discriminate);
    (destruct (token_data !! "access_token") as [access_token|] eqn:Hat; simpl;
       try discriminate);
    (destruct (Py.as_number _) as [n|] eqn:Hn; simpl; try discriminate);
    intros [= <- <-]; simpl;
    exists token_data, n; repeat split; auto.
Qed.

(** X4: the token a refresh returned, when Python takes it for true, is
    served from the cache by every later lookup on that instance made
    while the clock reads less than the expiry the refresh stored, however
    much time has passed and whatever was sent in between; such a lookup
    sends nothing and leaves the instance as it is. *)
Theorem refreshed_token_is_reused (env : Env) (st : St) (tok : json) (st1 : St)
    (later : World) :
  token_is_cached st = false ->
  _get_access_token env st = (Ok tok, st1) ->
  Py.truthy tok = true ->
  (clock later < _token_expires_at (self st1))%Q ->
  exists st2,
    _get_access_token env {| self := self st1; world := later |} = (Ok tok, st2) /\
    log (world st2) = log later /\
    clock (world st2) = clock later /\
    self st2 = self st1.
Proof.
  intros Hc Hrun Htruthy Hlt.
  pose proof (refresh_success_state env st tok st1 Hc Hrun)
    as (token_data & n & _ & _ & _ & _ & Htok & _).
  assert (Hcached : token_is_cached {| self := self st1; world := later |} = true).
  { unfold token_is_cached. simpl. rewrite Htok, Htruthy. simpl.
    apply Qlt_bool_iff. exact Hlt. }
  rewrite (get_access_token_cached env _ Hcached). simpl. rewrite Htok.
  eexists. split; [reflexivity|]. simpl. auto.
Qed.

Lemma refreshed_token_is_reused_witness :
  exists st2,
    _get_access_token completed_env
      {| self := self (_get_access_token completed_env (client JNull 0 50)).2;
         world := {| clock := 500;
                     log := [refresh_request (client JNull 0 50)];
                     token_lookups := 7 |} |}
      = (Ok (JStr "T1"), st2) /\
    log (world st2) = [refresh_request (client JNull 0 50)].
Proof.
  destruct (refreshed_token_is_reused completed_env (client JNull 0 50) (JStr "T1")
              (_get_access_token completed_env (client JNull 0 50)).2
              {| clock := 500;
                 log := [refresh_request (client JNull 0 50)];
                 token_lookups := 7 |}
              eq_refl eq_refl eq_refl)
    as (st2 & Hrun & Hlog & _).
  - vm_compute. reflexivity.
  - exists st2. split; [exact Hrun | exact Hlog].
Defined.

(** ** How the polling loop ends *)

Lemma is_complete_terminal (result status : json) :
  Py.get result "statementStatusUrl" JNull = Ok status ->
  is_complete result = Ok true -> terminal result.
Proof.
  intros [m ->]%get_returns_dict. unfold is_complete, terminal. simpl.
  intros H. exists m. split; [reflexivity|].
  destruct (bool_decide (is_Some (m !! "resultSetMetaData"))) eqn:E1.
  - left. apply bool_decide_eq_true in E1. exact E1.
  - right. injection H as H. apply bool_decide_eq_true in H. exact H.
Qed.

Section PollingEnds.

Variable env : Env.
Variables statement_handle access_token : json.
Variable timeout : Z.
Variable start_time : Q.

(** When the loop returns, what it returns is the body of the fetch it
    sent last, a 200 answer carrying a terminal marker, and it has not
    slept since. *)
Lemma poll_loop_returns_terminal (fuel : nat) :
  forall (st : St) (result : json) (st' : St),
    poll_loop env fuel statement_handle access_token timeout start_time st
      = (Ok result, st') ->
    terminal result /\
    exists t rest,
      log (world st') = poll_request statement_handle access_token t :: rest /\
      let response := server env rest (poll_request statement_handle access_token t) in
      status_code response = 200 /\
      response_json response = Ok result /\
      clock (world st') = (t + seconds (elapsed response))%Q.
Proof.
  induction fuel as [|fuel IH]; intros st result st'; rewrite poll_loop_unfold.
  - destruct (Qlt_bool _ _); discriminate.
  - destruct (Qlt_bool _ _); [|discriminate].
    cbv zeta.
    set (req := poll_request statement_handle access_token (clock (world st))).
    destruct (negb _) eqn:Hs; [discriminate|].
    apply negb_false_iff, Z.eqb_eq in Hs.
    destruct (response_json _) as [body|e] eqn:Hjson; [|discriminate].
    destruct (Py.get _ _ _) as [status|e] eqn:Hget; [|discriminate].
    destruct (is_complete body) as [[|]|e] eqn:Hcomplete; [| |discriminate].
    + intros [= <- <-]. split; [eapply is_complete_terminal; eauto|].
      exists (clock (world st)), (log (world st)). simpl. auto.
    + apply IH.
Qed.

(** When the loop raises the status error, the fetch that was answered
    with that status, other than 200, is the last thing it sent. *)
Lemma poll_loop_status_failure (fuel : nat) :
  forall (st : St) (c : Z) (txt : string) (st' : St),
    poll_loop env fuel statement_handle access_token timeout start_time st
      = (Raise (StatusFailed c txt), st') ->
    exists t rest,
      log (world st') = poll_request statement_handle access_token t :: rest /\
      let response := server env rest (poll_request statement_handle access_token t) in
      status_code response = c /\ text response = txt /\ c <> 200.
Proof.
  induction fuel as [|fuel IH]; intros st c txt st'; rewrite poll_loop_unfold.
  - destruct (Qlt_bool _ _); discriminate.
  - destruct (Qlt_bool _ _); [|discriminate].
    cbv zeta.
    set (req := poll_request statement_handle access_token (clock (world st))).
    destruct (negb _) eqn:Hs.
    { apply negb_true_iff, Z.eqb_neq in Hs. intros [= <- <- <-].
      exists (clock (world st)), (log (world st)). simpl. auto. }
    destruct (response_json _) as [body|e] eqn:Hjson.
    2:{ intros [= -> <-]. apply response_json_error in Hjson. contradiction. }
    destruct (Py.get _ _ _) as [status|e] eqn:Hget.
    2:{ intros [= -> <-]. apply get_error in Hget. contradiction. }
    destruct (is_complete body) as [[|]|e] eqn:Hcomplete.
    + discriminate.
    + apply IH.
    + intros [= -> <-]. apply is_complete_error in Hcomplete. contradiction.
Qed.

(** The fetches of the loop are at least a second apart. *)
Lemma poll_loop_spaced (fuel : nat) :
  forall (st : St) (r : Result json) (st' : St),
    poll_loop env fuel statement_handle access_token timeout start_time st
      = (r, st') ->
    exists polls,
      log (world st') = polls ++ log (world st) /\
      spaced polls /\
      Forall (fun req => (clock (world st) <= issued_at req)%Q) polls.
Proof.
  induction fuel as [|fuel IH]; intros st r st'; rewrite poll_loop_unfold.
  - destruct (Qlt_bool _ _); intros [= <- <-]; exists []; simpl; auto.
  - destruct (Qlt_bool _ _); [|intros [= <- <-]; exists []; simpl; auto].
    cbv zeta.
    set (req := poll_request statement_handle access_token (clock (world st))).
    assert (Hone : exists polls,
               log (world (sent env st req)) = polls ++ log (world st) /\
               spaced polls /\
               Forall (fun q => (clock (world st) <= issued_at q)%Q) polls).
    { exists [req]. simpl. repeat split; auto.
      constructor; [simpl; lra|constructor]. }
    destruct (negb _); [intros [= <- <-]; exact Hone|].
    destruct (response_json _) as [body|e]; [|intros [= <- <-]; exact Hone].
    destruct (Py.get _ _ _) as [status|e]; [|intros [= <- <-]; exact Hone].
    destruct (is_complete body) as [[|]|e]; [intros [= <- <-]; exact Hone|
                                            |intros [= <- <-]; exact Hone].
    intros Hrec. apply IH in Hrec as (polls & Hlog & Hsp & Hall).
    pose proof (seconds_nonneg (elapsed (server env (log (world st)) req))) as Hd.
    pose proof (seconds_nonneg (oversleep env (clock (world (sent env st req))))) as Hs.
    exists (polls ++ [req]). rewrite <- app_assoc. split; [exact Hlog|].
    simpl in Hall, Hs. split.
    + clear Hlog. induction polls as [|a [|b polls'] IHp]; simpl; auto.
      * apply Forall_cons in Hall as [Ha _]. split; [|exact I].
        change (issued_at req) with (clock (world st)). lra.
      * simpl in Hsp. destruct Hsp as [Hab Hsp]. split; [exact Hab|].
        apply IHp; [exact Hsp|]. apply Forall_cons in Hall as [_ Hall]. exact Hall.
    + apply Forall_app. split.
      * eapply Forall_impl; [exact Hall|]. cbv beta. intros q Hq. lra.
      * constructor; [|constructor]. change (issued_at req) with (clock (world st)). lra.
Qed.

End PollingEnds.

(** X5: whatever [_poll_statement] returns is the body of the status
    fetch it sent last, answered 200, and that body is an object with a
    [resultSetMetaData] or a [message] field. *)
Theorem poll_statement_returns_terminal (env : Env) (statement_handle : json)
    (timeout : Z) (st : St) (result : json) (st' : St) :
  _poll_statement env statement_handle timeout st = (Ok result, st') ->
  terminal result /\
  exists fetch rest,
    log (world st') = fetch :: rest /\
    method fetch = GET /\
    url fetch = status_url statement_handle /\
    status_code (server env rest fetch) = 200 /\
    response_json (server env rest fetch) = Ok result.
Proof.
  rewrite poll_statement_unfold.
  destruct (_get_access_token env st) as [[tok|e] st1]; [|discriminate].
  intros (Hterm & t & rest & Hlog & Hs & Hjson & _)%poll_loop_returns_terminal.
  split; [exact Hterm|].
  exists (poll_request statement_handle tok t), rest. auto.
Qed.

Lemma poll_statement_returns_terminal_witness :
  exists result st',
    _poll_statement two_poll_env (JStr "h") 10 (client (JStr "T0") 100 0)
      = (Ok result, st') /\
    terminal result /\
    length (log (world st')) = 2%nat.
Proof.
  eexists _, _. split; [reflexivity|].
  split; [|reflexivity].
  exact (proj1 (poll_statement_returns_terminal two_poll_env (JStr "h") 10
                  (client (JStr "T0") 100 0) _ _ eq_refl)).
Defined.

(** X6: when [_poll_statement] raises the status error, the fetch answered
    with that status, which is not 200, is the last request sent: a failed
    fetch is not tried again. *)
Theorem poll_statement_status_failure (env : Env) (statement_handle : json)
    (timeout : Z) (st : St) (c : Z) (txt : string) (st' : St) :
  _poll_statement env statement_handle timeout st
    = (Raise (StatusFailed c txt), st') ->
  exists fetch rest,
    log (world st') = fetch :: rest /\
    method fetch = GET /\
    url fetch = status_url statement_handle /\
    status_code (server env rest fetch) = c /\
    text (server env rest fetch) = txt /\
    c <> 200.
Proof.
  rewrite poll_statement_unfold.
  destruct (_get_access_token env st) as [[tok|e] st1] eqn:Htok.
  - intros (t & rest & Hlog & Hs & Ht & Hc)%poll_loop_status_failure.
    exists (poll_request statement_handle tok t), rest. auto 7.
  - intros [= -> <-].
    apply get_access_token_frame in Htok as (_ & _ & _ & _ & _ & Herr).
    destruct (Herr _ eq_refl).
Qed.

Lemma poll_statement_status_failure_witness :
  exists st',
    _poll_statement status_down_env (JStr "h") 10 (client (JStr "T0") 100 0)
      = (Raise (StatusFailed 503 ""), st') /\
    length (log (world st')) = 1%nat.
Proof.
  eexists. split; [reflexivity|].
  destruct (poll_statement_status_failure status_down_env (JStr "h") 10
              (client (JStr "T0") 100 0) 503 "" _ eq_refl)
    as (fetch & rest & Hlog & _).
  reflexivity.
Defined.

(** X7: with a timeout of zero or less, [_poll_statement] fetches nothing:
    once it has its token it raises the timeout error at once. *)
Theorem poll_statement_without_budget (env : Env) (statement_handle : json)
    (timeout : Z) (st : St) :
  timeout <= 0 ->
  _poll_statement env statement_handle timeout st =
  match _get_access_token env st with
  | (Ok _, st1) => (Raise (TimedOut timeout), st1)
  | (Raise e, st1) => (Raise e, st1)
  end.
Proof.
  intros Ht. rewrite poll_statement_unfold.
  destruct (_get_access_token env st) as [[tok|e] st1]; [|reflexivity].
  rewrite poll_loop_unfold.
  destruct (Qlt_bool _ _) eqn:Hcond; [|reflexivity].
  apply Qlt_bool_iff in Hcond. exfalso.
  assert (inject_Z timeout <= inject_Z 0)%Q by (rewrite <- Zle_Qle; exact Ht).
  change (inject_Z 0) with 0%Q in H. lra.
Qed.

Lemma poll_statement_without_budget_witness :
  exists st',
    _poll_statement two_poll_env (JStr "h") 0 (client (JStr "T0") 100 0)
      = (Raise (TimedOut 0), st') /\
    log (world st') = [].
Proof.
  rewrite (poll_statement_without_budget two_poll_env (JStr "h") 0
             (client (JStr "T0") 100 0)) by lia.
  eexists. split; reflexivity.
Defined.

(** X8: [_poll_statement] sends at most [timeout] status fetches, and any
    two consecutive ones are issued at least one second apart. *)
Theorem poll_statement_paces_fetches (env : Env) (statement_handle : json)
    (timeout : Z) (st : St) :
  exists pre polls,
    log (world (_poll_statement env statement_handle timeout st).2)
      = polls ++ pre ++ log (world st) /\
    Forall (fun req => url req = token_url) pre /\
    Forall (fun req => url req = status_url statement_handle) polls /\
    (length polls <= Z.to_nat timeout)%nat /\
    spaced polls.
Proof.
  rewrite poll_statement_unfold.
  destruct (_get_access_token env st) as [[tok|e] st1] eqn:Htok;
    pose proof (get_access_token_log _ _ _ _ Htok) as (_ & pre & Hpre & Hall);
    assert (Hurls : Forall (fun req => url req = token_url) pre)
      by (eapply Forall_impl; [exact Hall|]; cbv beta; intros q (_ & Hq & _); exact Hq).
  - destruct (poll_loop env (Z.to_nat timeout) statement_handle tok timeout
                (clock (world st1)) st1) as [r st'] eqn:Hloop.
    pose proof (poll_loop_frame _ _ _ _ _ _ _ _ _ Hloop)
      as (_ & _ & _ & _ & polls & Hlog & Hlen & Hpolls).
    pose proof (poll_loop_spaced _ _ _ _ _ _ _ _ _ Hloop)
      as (polls' & Hlog' & Hsp & _).
    assert (polls' = polls) as ->
      by (rewrite Hlog in Hlog'; apply app_inv_tail in Hlog'; congruence).
    exists pre, polls. simpl. rewrite Hlog, Hpre.
    split; [reflexivity|]. split; [exact Hurls|].
    split; [|auto].
    eapply Forall_impl; [exact Hpolls|]. cbv beta. intros q (-> & _). reflexivity.
  - exists pre, []. simpl. split; [exact Hpre|]. split; [exact Hurls|].
    split; [constructor|]. split; [lia|exact I].
Qed.

(** ** The shape of a normalised result *)

Ltac key_cases Hk :=
  repeat (apply lookup_insert_Some in Hk as [[<- _]|[_ Hk]];
          [unfold result_keys; simpl; tauto|]);
  apply lookup_singleton_Some in Hk as [<- _];
  unfold result_keys; simpl; tauto.

(** X9: whenever the normaliser returns, its input was an object and the
    result has the five fixed keys, [success] being the boolean presence
    of [resultSetMetaData], together with [message] and [code] exactly
    when the input has them, and no other key. *)
Theorem format_result_shape (result : json) (formatted : gmap string json) :
  _format_result result = Ok formatted ->
  exists m,
    result = JObject m /\
    formatted !! "statement_handle"
      = Some (from_option id JNull (m !! "statementHandle")) /\
    formatted !! "success"
      = Some (JBool (bool_decide (is_Some (m !! "resultSetMetaData")))) /\
    is_Some (formatted !! "row_count") /\
    is_Some (formatted !! "columns") /\
    is_Some (formatted !! "data") /\
    formatted !! "message" = m !! "message" /\
    formatted !! "code" = m !! "code" /\
    forall k, is_Some (formatted !! k) -> In k result_keys.
Proof.
  destruct result as [| | | | | |m]; try discriminate.
  unfold _format_result. simpl.
  intros H. exists m. split; [reflexivity|]. revert H.
  destruct (m !! "resultSetMetaData") as [metadata|] eqn:Hmd; simpl.
  - destruct metadata as [| | | | | |md]; simpl; try discriminate.
    destruct (md !! "rowType") as [row_type|] eqn:Hrt; simpl.
    + destruct (Py.iter row_type) as [cols|]; simpl; [|discriminate].
      destruct (Py.comprehension column cols) as [ds|]; simpl; [|discriminate].
      destruct (m !! "data") as [data|] eqn:Hdata;
        destruct (m !! "message") as [message|] eqn:Hmsg;
        destruct (m !! "code") as [code|] eqn:Hcode; simpl;
        intros [= <-]; (repeat split; try done; try (eexists; reflexivity));
        intros k [v Hk]; key_cases Hk.
    + destruct (m !! "data") as [data|] eqn:Hdata;
        destruct (m !! "message") as [message|] eqn:Hmsg;
        destruct (m !! "code") as [code|] eqn:Hcode; simpl;
        intros [= <-]; (repeat split; try done; try (eexists; reflexivity));
        intros k [v Hk]; key_cases Hk.
  - destruct (m !! "message") as [message|] eqn:Hmsg;
      destruct (m !! "code") as [code|] eqn:Hcode; simpl;
      intros [= <-]; (repeat split; try done; try (eexists; reflexivity));
      intros k [v Hk]; key_cases Hk.
Qed.

Lemma format_result_shape_witness :
  formatted7 !! "message" = None /\
  (forall k, is_Some (formatted7 !! k) -> In k result_keys).
Proof.
  destruct (format_result_shape envelope7 formatted7)
    as (m & Hm & _ & _ & _ & _ & _ & Hmsg & _ & Hkeys).
  - vm_compute. reflexivity.
  - injection Hm as <-. split; [exact Hmsg | exact Hkeys].
Defined.

Lemma column_described (c : json) :
  is_column_descriptor c = true -> column c = Ok (described c).
Proof.
  destruct c as [| | | | | |m]; simpl; try discriminate.
  intros [Hn Ht]%andb_prop.
  apply bool_decide_eq_true in Hn as [name Hn].
  apply bool_decide_eq_true in Ht as [type Ht].
  unfold column; simpl. rewrite Hn; simpl. rewrite Ht; simpl. reflexivity.
Qed.

Lemma column_descriptor_error (c : json) :
  is_column_descriptor c = false -> column c = Raise (descriptor_error c).
Proof.
  destruct c as [| | | | | |m]; simpl; try reflexivity.
  unfold column. simpl.
  destruct (m !! "name") as [name|] eqn:Hn;
    destruct (m !! "type") as [type|] eqn:Ht; simpl;
    try discriminate; reflexivity.
Qed.

Lemma comprehension_described (cols : list json) :
  forallb is_column_descriptor cols = true ->
  Py.comprehension column cols = Ok (map described cols).
Proof.
  induction cols as [|c cols IH]; simpl; [reflexivity|].
  intros [Hc Hcols]%andb_prop.
  rewrite (column_described c Hc). simpl. rewrite (IH Hcols). reflexivity.
Qed.

Lemma comprehension_first_error (good : list json) (bad : json) (rest : list json) :
  forallb is_column_descriptor good = true ->
  is_column_descriptor bad = false ->
  Py.comprehension column (good ++ bad :: rest) = Raise (descriptor_error bad).
Proof.
  intros Hgood Hbad. induction good as [|c good IH]; simpl.
  - rewrite (column_descriptor_error bad Hbad). reflexivity.
  - simpl in Hgood. apply andb_prop in Hgood as [Hc Hgood].
    rewrite (column_described c Hc). simpl. rewrite (IH Hgood). reflexivity.
Qed.

(** C1, amended: on an envelope that is an object whose metadata, when
    present, is an object whose rowType, when present, is a list of objects
    that each carry a name and a type, the normaliser returns; an absent
    statementHandle, numRows, rowType or data degrades to None, 0, [] or
    [], each column is its descriptor's name and type with nullable, true
    when the descriptor has none, and message and code are copied when
    present.  A descriptor without a name or a type is not defaulted: the
    first one raises [KeyError] for the missing key, name before type. *)
Theorem format_result_returns_on_well_formed (m : gmap string json) :
  (well_formed_envelope (JObject m) = true ->
   exists formatted,
     _format_result (JObject m) = Ok formatted /\
     formatted !! "statement_handle"
       = Some (from_option id JNull (m !! "statementHandle")) /\
     formatted !! "success"
       = Some (JBool (bool_decide (is_Some (m !! "resultSetMetaData")))) /\
     formatted !! "message" = m !! "message" /\
     formatted !! "code" = m !! "code" /\
     (m !! "resultSetMetaData" = None ->
        formatted !! "row_count" = Some (JInt 0) /\
        formatted !! "columns" = Some (JList []) /\
        formatted !! "data" = Some (JList [])) /\
     (forall md, m !! "resultSetMetaData" = Some (JObject md) ->
        formatted !! "row_count" = Some (from_option id (JInt 0) (md !! "numRows")) /\
        (md !! "rowType" = None -> formatted !! "columns" = Some (JList [])) /\
        (forall cols, md !! "rowType" = Some (JList cols) ->
           formatted !! "columns" = Some (JList (map described cols)) /\
           forall i c, cols !! i = Some (JObject c) ->
             exists name type,
               c !! "name" = Some name /\ c !! "type" = Some type /\
               map described cols !! i =
                 Some (JObject
                         (<["name" := name]>
                          (<["type" := type]>
                           {["nullable" :=
                               from_option id (JBool true) (c !! "nullable")]})))) /\
        formatted !! "data" = Some (from_option id (JList []) (m !! "data")))) /\
  (forall md good bad rest,
      m !! "resultSetMetaData" = Some (JObject md) ->
      md !! "rowType" = Some (JList (good ++ JObject bad :: rest)) ->
      forallb is_column_descriptor good = true ->
      (bad !! "name" = None ->
       _format_result (JObject m) = Raise (KeyError "name")) /\
      (is_Some (bad !! "name") -> bad !! "type" = None ->
       _format_result (JObject m) = Raise (KeyError "type"))).
Proof.
  split.
  - unfold well_formed_envelope, _format_result. simpl.
    destruct (m !! "resultSetMetaData") as [metadata|] eqn:Hmd; simpl.
    + destruct metadata as [| | | | | |md]; simpl; try discriminate.
      destruct (md !! "rowType") as [row_type|] eqn:Hrt; simpl.
      * destruct row_type as [| | | | |cols|]; try discriminate.
        intros Hcols. simpl. rewrite (comprehension_described cols Hcols). simpl.
        assert (Heach : forall i c, cols !! i = Some (JObject c) ->
                  exists name type,
                    c !! "name" = Some name /\ c !! "type" = Some type /\
                    map described cols !! i =
                      Some (JObject
                              (<["name" := name]>
                               (<["type" := type]>
                                {["nullable" :=
                                    from_option id (JBool true) (c !! "nullable")]})))).
        { intros i c Hi.
          assert (Hc : is_column_descriptor (JObject c) = true).
          { rewrite forallb_forall in Hcols. apply Hcols.
            apply list_elem_of_In. eapply list_elem_of_lookup_2. exact Hi. }
          simpl in Hc. apply andb_prop in Hc as [Hn Ht].
          apply bool_decide_eq_true in Hn as [name Hn].
          apply bool_decide_eq_true in Ht as [type Ht].
          exists name, type. split; [exact Hn|]. split; [exact Ht|].
          change (map described cols) with (described <$> cols).
          rewrite list_lookup_fmap, Hi. simpl. rewrite Hn, Ht. reflexivity. }
        destruct (m !! "data") as [data|] eqn:Hdata;
          destruct (m !! "message") as [message|] eqn:Hmsg;
          destruct (m !! "code") as [code|] eqn:Hcode; simpl;
          (eexists; split; [reflexivity|]);
          (repeat split; try done; try (intros md' [= <-]); try (intros; simplify_eq);
           repeat split; try done; try (intros; simplify_eq); eauto).
      * intros _.
        destruct (m !! "data") as [data|] eqn:Hdata;
          destruct (m !! "message") as [message|] eqn:Hmsg;
          destruct (m !! "code") as [code|] eqn:Hcode; simpl;
          (eexists; split; [reflexivity|]);
          (repeat split; try done; try (intros md' [= <-]); try (intros; simplify_eq);
           repeat split; try done; try (intros; simplify_eq); eauto).
    + intros _.
      destruct (m !! "message") as [message|] eqn:Hmsg;
        destruct (m !! "code") as [code|] eqn:Hcode; simpl;
        (eexists; split; [reflexivity|]);
        repeat split; try done.
  - intros md good bad rest Hmd Hrt Hgood.
    assert (Hrun : is_column_descriptor (JObject bad) = false ->
                   _format_result (JObject m)
                     = Raise (descriptor_error (JObject bad))).
    { intros Hbad. unfold _format_result. simpl.
      rewrite Hmd. simpl. rewrite Hrt. simpl.
      rewrite (comprehension_first_error good (JObject bad) rest Hgood Hbad).
      reflexivity. }
    split.
    + intros Hn. rewrite Hrun; simpl; rewrite Hn; reflexivity.
    + intros [name Hn] Ht. rewrite Hrun.
      * simpl. rewrite Hn. reflexivity.
      * simpl. rewrite Hn, Ht. reflexivity.
Qed.

Lemma format_result_returns_on_well_formed_witness :
  (exists formatted, _format_result envelope7 = Ok formatted /\
     formatted !! "success" = Some (JBool true) /\
     formatted !! "columns"
       = Some (JList [JObject (<["name" := JStr "A"]>
                               (<["type" := JStr "TEXT"]>
                                {["nullable" := JBool true]}))])) /\
  _format_result nameless_column_envelope = Raise (KeyError "name").
Proof.
  split.
  - destruct (format_result_returns_on_well_formed
                (<["resultSetMetaData" :=
                     JObject
                       (<["rowType" :=
                            JList [JObject (<["name" := JStr "A"]> {["type" := JStr "TEXT"]})]]>
                        {["numRows" := JInt 2]})]>
                 {["data" := JList [JList [JStr "x"]; JList [JNull]]]}))
      as [Hok _].
    destruct Hok as (formatted & H & _ & Hs & _ & _ & _ & Hmd); [reflexivity|].
    destruct (Hmd _ eq_refl) as (_ & _ & Hcols & _).
    destruct (Hcols _ eq_refl) as [Hc _].
    exists formatted. split; [exact H|]. split; [exact Hs | exact Hc].
  - destruct (format_result_returns_on_well_formed
                {["resultSetMetaData" :=
                    JObject {["rowType" := JList [JObject {["type" := JStr "TEXT"]}]]}]})
      as [_ Hbad].
    destruct (Hbad {["rowType" := JList [JObject {["type" := JStr "TEXT"]}]]}
                [] {["type" := JStr "TEXT"]} [] eq_refl eq_refl eq_refl) as [Hname _].
    exact (Hname eq_refl).
Defined.

Lemma format_result_with_columns (m md : gmap string json)
    (cols : list json) :
  m !! "resultSetMetaData" = Some (JObject md) ->
  md !! "rowType" = Some (JList cols) ->
  forallb is_column_descriptor cols = true ->
  exists formatted,
    _format_result (JObject m) = Ok formatted /\
    formatted !! "columns" = Some (JList (map described cols)) /\
    formatted !! "row_count" = Some (from_option id (JInt 0) (md !! "numRows")) /\
    formatted !! "data" = Some (from_option id (JList []) (m !! "data")).
Proof.
  intros Hmd Hrt Hcols. unfold _format_result. simpl.
  rewrite Hmd. simpl. rewrite Hrt. simpl.
  rewrite (comprehension_described cols Hcols). simpl.
  destruct (m !! "data") as [data|] eqn:Hdata;
    destruct (m !! "message") as [message|] eqn:Hmsg;
    destruct (m !! "code") as [code|] eqn:Hcode; simpl;
    (eexists; split; [reflexivity|]); repeat split; done.
Qed.

(** X10: with a [rowType] list of descriptors that each have a name and a
    type, the columns of the result are the descriptors in their order,
    each cut down to name, type and nullable, nullable being true where
    the descriptor has none; row_count is numRows or 0 and data is the
    envelope's data or []. *)
Theorem format_result_columns_in_order (m md : gmap string json)
    (cols : list json) :
  m !! "resultSetMetaData" = Some (JObject md) ->
  md !! "rowType" = Some (JList cols) ->
  forallb is_column_descriptor cols = true ->
  exists formatted,
    _format_result (JObject m) = Ok formatted /\
    formatted !! "columns" = Some (JList (map described cols)) /\
    formatted !! "row_count" = Some (from_option id (JInt 0) (md !! "numRows")) /\
    formatted !! "data" = Some (from_option id (JList []) (m !! "data")).
Proof. exact (format_result_with_columns m md cols). Qed.

Lemma format_result_columns_in_order_witness :
  exists formatted,
    _format_result envelope7 = Ok formatted /\
    formatted !! "columns"
      = Some (JList [JObject (<["name" := JStr "A"]>
                              (<["type" := JStr "TEXT"]>
                               {["nullable" := JBool true]}))]).
Proof.
  destruct (format_result_columns_in_order
              (<["resultSetMetaData" :=
                   JObject
                     (<["rowType" :=
                          JList [JObject (<["name" := JStr "A"]> {["type" := JStr "TEXT"]})]]>
                      {["numRows" := JInt 2]})]>
               {["data" := JList [JList [JStr "x"]; JList [JNull]]]})
              (<["rowType" :=
                   JList [JObject (<["name" := JStr "A"]> {["type" := JStr "TEXT"]})]]>
               {["numRows" := JInt 2]})
              [JObject (<["name" := JStr "A"]> {["type" := JStr "TEXT"]})])
    as (formatted & Hrun & Hcols & _); try reflexivity.
  exists formatted. split; [exact Hrun | exact Hcols].
Defined.

(** X11: the first descriptor of [rowType] without a name or a type
    decides the error: [KeyError] for the missing key, name before type,
    or [TypeError] when the descriptor is not an object. *)
Theorem format_result_first_bad_descriptor (m md : gmap string json)
    (good : list json) (bad : json) (rest : list json) :
  m !! "resultSetMetaData" = Some (JObject md) ->
  md !! "rowType" = Some (JList (good ++ bad :: rest)) ->
  forallb is_column_descriptor good = true ->
  is_column_descriptor bad = false ->
  _format_result (JObject m) = Raise (descriptor_error bad).
Proof.
  intros Hmd Hrt Hgood Hbad. unfold _format_result. simpl.
  rewrite Hmd. simpl. rewrite Hrt. simpl.
  rewrite (comprehension_first_error good bad rest Hgood Hbad). reflexivity.
Qed.

Lemma format_result_first_bad_descriptor_witness :
  _format_result
    (JObject
       {["resultSetMetaData" :=
           JObject
             {["rowType" :=
                 JList [JObject (<["name" := JStr "A"]> {["type" := JStr "TEXT"]});
                        JObject {["name" := JStr "B"]};
                        JNull]]}]})
  = Raise (KeyError "type").
Proof.
  exact (format_result_first_bad_descriptor
           {["resultSetMetaData" :=
               JObject
                 {["rowType" :=
                     JList [JObject (<["name" := JStr "A"]> {["type" := JStr "TEXT"]});
                            JObject {["name" := JStr "B"]};
                            JNull]]}]}
           {["rowType" :=
               JList [JObject (<["name" := JStr "A"]> {["type" := JStr "TEXT"]});
                      JObject {["name" := JStr "B"]};
                      JNull]]}
           [JObject (<["name" := JStr "A"]> {["type" := JStr "TEXT"]})]
           (JObject {["name" := JStr "B"]}) [JNull]
           eq_refl eq_refl eq_refl eq_refl).
Defined.

(** X12: an envelope that is not an object, or whose [resultSetMetaData]
    is not an object, makes the normaliser raise [AttributeError]. *)
Theorem format_result_needs_objects (result : json) :
  match result with
  | JObject m =>
      match m !! "resultSetMetaData" with
      | Some (JObject _) | None => True
      | Some _ => _format_result result = Raise AttributeError
      end
  | _ => _format_result result = Raise AttributeError
  end.
Proof.
  destruct result as [| | | | | |m]; try reflexivity.
  destruct (m !! "resultSetMetaData") as [[| | | | | |md]|] eqn:Hmd; try exact I;
    unfold _format_result; simpl; rewrite Hmd; reflexivity.
Qed.

(** ** Payloads *)

Lemma or_truthy (a : json) (s : string) :
  (if Py.truthy (Py.or a (JStr s)) then Some (Py.or a (JStr s)) else None)
  = merged a s.
Proof.
  unfold Py.or, merged. destruct (Py.truthy a) eqn:Ha.
  - rewrite Ha. reflexivity.
  - simpl. destruct (String.eqb s ""); reflexivity.
Qed.

Lemma set_if_lookup (c : bool) (k : string) (v : json) (p : gmap string json) :
  p !! k = None ->
  set_if c k v p !! k = if c then Some v else None.
Proof.
  intros Hp. unfold set_if. destruct c; [apply lookup_insert_eq|exact Hp].
Qed.

Lemma execute_payload_fields (s : SnowflakeAPI) (sql : string)
    (timeout : Z) (o : Overrides) :
  let p := execute_payload s sql timeout o in
  p !! "statement" = Some (JStr sql) /\
  p !! "timeout" = Some (JInt timeout) /\
  p !! "database" = merged (o_database o) (database s) /\
  p !! "schema" = merged (o_schema o) (schema s) /\
  p !! "warehouse" = given (o_warehouse o) /\
  p !! "role" = given (o_role o) /\
  p !! "bindings" = given (o_bindings o).
Proof.
  cbv zeta. unfold execute_payload. cbv zeta.
  repeat split.
  - rewrite !set_if_lookup_ne by discriminate. reflexivity.
  - rewrite !set_if_lookup_ne by discriminate. reflexivity.
  - rewrite !set_if_lookup_ne by discriminate.
    rewrite set_if_lookup by reflexivity. apply or_truthy.
  - rewrite !set_if_lookup_ne by discriminate.
    rewrite set_if_lookup; [apply or_truthy|].
    rewrite !set_if_lookup_ne by discriminate. reflexivity.
  - rewrite !set_if_lookup_ne by discriminate.
    rewrite set_if_lookup; [reflexivity|].
    rewrite !set_if_lookup_ne by discriminate. reflexivity.
  - rewrite !set_if_lookup_ne by discriminate.
    rewrite set_if_lookup; [reflexivity|].
    rewrite !set_if_lookup_ne by discriminate. reflexivity.
  - rewrite set_if_lookup; [reflexivity|].
    rewrite !set_if_lookup_ne by discriminate. reflexivity.
Qed.

(** X13: in the payload of [execute], [statement] and [timeout] are always
    there; [database] and [schema] are the call's value when it is given,
    else the instance default when that is not empty, else absent;
    [warehouse], [role] and [bindings] are there only when given. *)
Theorem execute_payload_overrides (s : SnowflakeAPI) (sql : string)
    (timeout : Z) (o : Overrides) :
  let p := execute_payload s sql timeout o in
  p !! "statement" = Some (JStr sql) /\
  p !! "timeout" = Some (JInt timeout) /\
  p !! "database" = merged (o_database o) (database s) /\
  p !! "schema" = merged (o_schema o) (schema s) /\
  p !! "warehouse" = given (o_warehouse o) /\
  p !! "role" = given (o_role o) /\
  p !! "bindings" = given (o_bindings o).
Proof. exact (execute_payload_fields s sql timeout o). Qed.

Lemma kwargs_get_after_timeout (kwargs : gmap string json) (k : string) :
  k <> "timeout" ->
  kwargs_get (<["timeout" := JInt 0]> kwargs) k = kwargs_get kwargs k.
Proof.
  intros Hk. unfold kwargs_get. rewrite lookup_insert_ne by congruence. reflexivity.
Qed.

(** The payload of [execute_async], written with the same conditional
    insertions as that of [execute]. *)
Lemma execute_async_payload_eq (s : SnowflakeAPI) (sql : string)
    (kwargs : gmap string json) :
  execute_async_payload s sql kwargs =
  Ok (set_if (Py.truthy (kwargs_get kwargs "role")) "role" (kwargs_get kwargs "role")
     (set_if (Py.truthy (kwargs_get kwargs "warehouse")) "warehouse"
        (kwargs_get kwargs "warehouse")
     (set_if (Py.truthy (Py.or (kwargs_get kwargs "schema") (JStr (schema s))))
        "schema" (Py.or (kwargs_get kwargs "schema") (JStr (schema s)))
     (set_if (Py.truthy (Py.or (kwargs_get kwargs "database") (JStr (database s))))
        "database" (Py.or (kwargs_get kwargs "database") (JStr (database s)))
        (<["statement" := JStr sql]>
         (<["timeout" := JInt 0]> {["async" := JBool true]})))))).
Proof.
  unfold execute_async_payload. cbv zeta.
  rewrite !kwargs_get_after_timeout by discriminate.
  destruct (Py.truthy (kwargs_get kwargs "warehouse")) eqn:Hw;
    destruct (Py.truthy (kwargs_get kwargs "role")) eqn:Hr;
    try (rewrite truthy_kwargs_get
           by (rewrite kwargs_get_after_timeout by discriminate; exact Hw));
    try (rewrite truthy_kwargs_get
           by (rewrite kwargs_get_after_timeout by discriminate; exact Hr));
    rewrite ?kwargs_get_after_timeout by discriminate;
    reflexivity.
Qed.

Lemma execute_async_payload_fields (s : SnowflakeAPI) (sql : string)
    (kwargs : gmap string json) :
  exists p,
    execute_async_payload s sql kwargs = Ok p /\
    p !! "statement" = Some (JStr sql) /\
    p !! "timeout" = Some (JInt 0) /\
    p !! "database" = merged (kwargs_get kwargs "database") (database s) /\
    p !! "schema" = merged (kwargs_get kwargs "schema") (schema s) /\
    p !! "warehouse" = given (kwargs_get kwargs "warehouse") /\
    p !! "role" = given (kwargs_get kwargs "role").
Proof.
  eexists. split; [apply execute_async_payload_eq|].
  repeat split.
  - rewrite !set_if_lookup_ne by discriminate. reflexivity.
  - rewrite !set_if_lookup_ne by discriminate. reflexivity.
  - rewrite !set_if_lookup_ne by discriminate.
    rewrite set_if_lookup by reflexivity. apply or_truthy.
  - rewrite !set_if_lookup_ne by discriminate.
    rewrite set_if_lookup; [apply or_truthy|].
    rewrite !set_if_lookup_ne by discriminate. reflexivity.
  - rewrite !set_if_lookup_ne by discriminate.
    rewrite set_if_lookup; [reflexivity|].
    rewrite !set_if_lookup_ne by discriminate. reflexivity.
  - rewrite set_if_lookup; [reflexivity|].
    rewrite !set_if_lookup_ne by discriminate. reflexivity.
Qed.

(** X14: [execute_async] merges database, schema, warehouse and role into
    its payload exactly as [execute] does for the same arguments; the two
    payloads carry the same statement and differ in timeout, which
    [execute_async] fixes at 0 whatever the caller passes. *)
Theorem async_payload_merges_like_execute (s : SnowflakeAPI) (sql : string)
    (timeout : Z) (kwargs : gmap string json) :
  exists p,
    execute_async_payload s sql kwargs = Ok p /\
    let q := execute_payload s sql timeout (overrides_of kwargs) in
    p !! "statement" = q !! "statement" /\
    p !! "database" = q !! "database" /\
    p !! "schema" = q !! "schema" /\
    p !! "warehouse" = q !! "warehouse" /\
    p !! "role" = q !! "role" /\
    p !! "timeout" = Some (JInt 0) /\
    q !! "timeout" = Some (JInt timeout).
Proof.
  destruct (execute_async_payload_fields s sql kwargs)
    as (p & Hp & Hs & Ht & Hd & Hsc & Hw & Hr).
  destruct (execute_payload_fields s sql timeout (overrides_of kwargs))
    as (Hs' & Ht' & Hd' & Hsc' & Hw' & Hr' & _).
  exists p. split; [exact Hp|]. cbv zeta.
  rewrite Hs, Hd, Hsc, Hw, Hr, Hs', Hd', Hsc', Hw', Hr'.
  repeat split; try reflexivity; assumption.
Qed.

(** ** Submission edge cases *)

(** X15: a submission answered 202 with an object that has no
    [statementHandle] makes [execute] raise [KeyError] for that key; the
    submission is the last request sent and no polling starts. *)
Theorem execute_accepted_without_handle (env : Env) (sql : string) (timeout : Z)
    (o : Overrides) (st : St) (access_token : json) (st1 : St)
    (m : gmap string json) :
  _get_access_token env st = (Ok access_token, st1) ->
  let req := submit_request access_token
               (execute_payload (self st1) sql timeout o) (clock (world st1)) in
  let response := server env (log (world st1)) req in
  status_code response = 202 ->
  json_body response = Some (JObject m) ->
  m !! "statementHandle" = None ->
  execute env sql timeout o st
    = (Raise (KeyError "statementHandle"), sent env st1 req) /\
  log (world (sent env st1 req)) = req :: log (world st1) /\
  token_lookups (world (sent env st1 req)) = token_lookups (world st1).
Proof.
  intros Htok req response Hs Hb Hm. subst req response.
  rewrite execute_unfold, Htok. cbv zeta.
  rewrite Hs. simpl negb. cbv iota.
  unfold response_json. rewrite Hb. simpl Z.eqb. cbv iota.
  simpl Py.subscript. rewrite Hm. auto.
Qed.

Lemma execute_accepted_without_handle_witness :
  (execute nameless_accept_env "SELECT 1" 60 no_overrides
     (client (JStr "T0") 100 0)).1
  = Raise (KeyError "statementHandle").
Proof.
  destruct (execute_accepted_without_handle nameless_accept_env "SELECT 1" 60
              no_overrides (client (JStr "T0") 100 0) (JStr "T0")
              (count_lookup (client (JStr "T0") 100 0)).2 ∅
              eq_refl eq_refl eq_refl eq_refl) as [-> _].
  reflexivity.
Defined.

(** X16: a call of [execute] performs one token lookup, or two when the
    submission is answered 202 with a readable handle: the second is the
    one [_poll_statement] makes, whatever the number of fetches. *)
Theorem execute_token_lookups (env : Env) (sql : string) (timeout : Z)
    (o : Overrides) (st : St) (access_token : json) (st1 : St) :
  _get_access_token env st = (Ok access_token, st1) ->
  let req := submit_request access_token
               (execute_payload (self st1) sql timeout o) (clock (world st1)) in
  let response := server env (log (world st1)) req in
  let polls :=
    (status_code response =? 202) &&
    returns (bind (response_json response)
               (fun body => Py.subscript body "statementHandle")) in
  token_lookups (world (execute env sql timeout o st).2)
    = if polls then S (S (token_lookups (world st)))
      else S (token_lookups (world st)).
Proof.
  intros Htok. cbv zeta.
  pose proof (get_access_token_frame _ _ _ _ Htok) as (Hcount & _).
  rewrite execute_unfold, Htok. cbv zeta.
  set (req := submit_request access_token
                (execute_payload (self st1) sql timeout o) (clock (world st1))).
  set (response := server env (log (world st1)) req).
  destruct (status_code response =? 202) eqn:H202.
  - apply Z.eqb_eq in H202. rewrite H202. simpl negb. cbv iota. simpl andb.
    destruct (response_json response) as [body|e]; simpl; [|exact Hcount].
    destruct (Py.subscript body "statementHandle") as [h|e]; simpl; [|exact Hcount].
    destruct (_poll_statement env h timeout (sent env st1 req)) as [r st3] eqn:Hpoll.
    pose proof (poll_statement_unfold env h timeout (sent env st1 req)) as Hu.
    rewrite Hpoll in Hu.
    destruct (_get_access_token env (sent env st1 req)) as [[tok2|e] st2] eqn:Htok2;
      pose proof (get_access_token_frame _ _ _ _ Htok2) as (Hcount2 & _).
    + symmetry in Hu. apply poll_loop_frame in Hu as (_ & Hsame & _).
      destruct r; simpl; rewrite Hsame, Hcount2; simpl; congruence.
    + injection Hu as -> ->. simpl. rewrite Hcount2. simpl. congruence.
  - simpl andb. cbv iota.
    destruct (negb _); [exact Hcount|].
    destruct (response_json response); exact Hcount.
Qed.

Lemma execute_token_lookups_witness :
  token_lookups
    (world (execute two_poll_env "SELECT 1" 60 no_overrides
              (client (JStr "T0") 100 0)).2) = 2%nat /\
  token_lookups
    (world (execute completed_env "SELECT 1" 60 no_overrides
              (client (JStr "T0") 100 0)).2) = 1%nat.
Proof.
  split.
  - exact (execute_token_lookups two_poll_env "SELECT 1" 60 no_overrides
             (client (JStr "T0") 100 0) (JStr "T0")
             (count_lookup (client (JStr "T0") 100 0)).2 eq_refl).
  - exact (execute_token_lookups completed_env "SELECT 1" 60 no_overrides
             (client (JStr "T0") 100 0) (JStr "T0")
             (count_lookup (client (JStr "T0") 100 0)).2 eq_refl).
Defined.

(** ** The methods that never poll *)

(** X17: [execute_async] sends one request after its token lookup and
    nothing else.  Answered 200 or 202 with an object, it returns the
    object's [statementHandle], or None when there is none; answered with
    another status it raises the submission error. *)
Theorem execute_async_single_submission (env : Env) (sql : string)
    (kwargs : gmap string json) (st : St) (access_token : json) (st1 : St) :
  _get_access_token env st = (Ok access_token, st1) ->
  exists p,
    execute_async_payload (self st1) sql kwargs = Ok p /\
    let req := async_request access_token p (clock (world st1)) in
    let response := server env (log (world st1)) req in
    (execute_async env sql kwargs st).2 = sent env st1 req /\
    (status_code response = 200 \/ status_code response = 202 ->
     forall m, json_body response = Some (JObject m) ->
     (execute_async env sql kwargs st).1
       = Ok (from_option id JNull (m !! "statementHandle"))) /\
    (status_code response <> 200 -> status_code response <> 202 ->
     (execute_async env sql kwargs st).1
       = Raise (AsyncSubmissionFailed (status_code response) (text response))).
Proof.
  intros Htok.
  destruct (execute_async_payload_shape (self st1) sql kwargs) as (p & Hp & _).
  exists p. split; [exact Hp|]. cbv zeta.
  rewrite execute_async_unfold, Htok, Hp. cbv zeta.
  set (req := async_request access_token p (clock (world st1))).
  set (response := server env (log (world st1)) req).
  split; [|split].
  - destruct (negb _); [reflexivity|]. destruct (response_json response); reflexivity.
  - intros Hs m Hb.
    assert (Hok : negb ((status_code response =? 200) || (status_code response =? 202))
                  = false).
    { destruct Hs as [-> | ->]; reflexivity. }
    rewrite Hok. unfold response_json. rewrite Hb. reflexivity.
  - intros H200 H202.
    apply Z.eqb_neq in H200, H202. rewrite H200, H202. reflexivity.
Qed.

Lemma execute_async_single_submission_witness :
  (execute_async refusing_cancel_env "SELECT 1" ∅ (client (JStr "T0") 100 0)).1
  = Ok JNull.
Proof.
  destruct (execute_async_single_submission refusing_cancel_env "SELECT 1" ∅
              (client (JStr "T0") 100 0) (JStr "T0")
              (count_lookup (client (JStr "T0") 100 0)).2 eq_refl)
    as (p & Hp & _ & Hok & _).
  injection Hp as <-.
  rewrite (Hok (or_introl eq_refl) _ eq_refl). reflexivity.
Defined.

Lemma pending_is_unsuccessful (m : gmap string json) :
  m !! "resultSetMetaData" = None ->
  exists formatted,
    _format_result (JObject m) = Ok formatted /\
    formatted !! "success" = Some (JBool false) /\
    formatted !! "data" = Some (JList []).
Proof.
  intros Hmd. unfold _format_result. simpl. rewrite Hmd. simpl.
  destruct (m !! "message") as [message|] eqn:Hmsg;
    destruct (m !! "code") as [code|] eqn:Hcode; simpl;
    (eexists; split; [reflexivity|]); split; reflexivity.
Qed.

Lemma get_statement_status_unfold (env : Env) (statement_handle : json) (st : St) :
  get_statement_status env statement_handle st =
  match _get_access_token env st with
  | (Raise e, st1) => (Raise e, st1)
  | (Ok access_token, st1) =>
      let req := poll_request statement_handle access_token (clock (world st1)) in
      let response := server env (log (world st1)) req in
      if negb (status_code response =? 200) then
        (Raise (StatusFailed (status_code response) (text response)),
         sent env st1 req)
      else (bind (response_json response) _format_result, sent env st1 req)
  end.
Proof.
  unfold get_statement_status, bindE at 1.
  destruct (_get_access_token env st) as [[tok|e] st1]; [|reflexivity].
  run_exec. unfold poll_request, sent. simpl.
  destruct (negb _); [reflexivity|].
  destruct (response_json _); reflexivity.
Qed.

(** X18: [get_statement_status] sends exactly one status fetch, whatever
    the answer.  A statement that is still running comes back as a result
    with [success] false and no data, not as an error and without waiting;
    an answer other than 200 raises the status error. *)
Theorem get_statement_status_is_a_snapshot (env : Env) (statement_handle : json)
    (st : St) (access_token : json) (st1 : St) :
  _get_access_token env st = (Ok access_token, st1) ->
  let req := poll_request statement_handle access_token (clock (world st1)) in
  let response := server env (log (world st1)) req in
  (get_statement_status env statement_handle st).2 = sent env st1 req /\
  (pending response = true ->
   exists formatted,
     (get_statement_status env statement_handle st).1 = Ok formatted /\
     formatted !! "success" = Some (JBool false) /\
     formatted !! "data" = Some (JList [])) /\
  (status_code response <> 200 ->
   (get_statement_status env statement_handle st).1
     = Raise (StatusFailed (status_code response) (text response))).
Proof.
  intros Htok req response.
  rewrite get_statement_status_unfold, Htok. cbv zeta. fold req. fold response.
  split; [|split].
  - destruct (negb _); reflexivity.
  - intros Hp. unfold pending in Hp. apply andb_prop in Hp as [Hs Hb].
    rewrite Hs. simpl. unfold response_json.
    destruct (json_body response) as [[| | | | | |m]|]; try discriminate.
    apply andb_prop in Hb as [Hmd _].
    apply negb_true_iff, bool_decide_eq_false in Hmd.
    destruct (pending_is_unsuccessful m) as (formatted & Hf & Hrest).
    { destruct (m !! "resultSetMetaData"); [exfalso; apply Hmd; eauto|reflexivity]. }
    simpl. rewrite Hf. eauto.
  - intros Hs. apply Z.eqb_neq in Hs. rewrite Hs. reflexivity.
Qed.

Lemma get_statement_status_is_a_snapshot_witness :
  exists formatted,
    (get_statement_status two_poll_env (JStr "h") (client (JStr "T0") 100 0)).1
      = Ok formatted /\
    formatted !! "success" = Some (JBool false).
Proof.
  destruct (get_statement_status_is_a_snapshot two_poll_env (JStr "h")
              (client (JStr "T0") 100 0) (JStr "T0")
              (count_lookup (client (JStr "T0") 100 0)).2 eq_refl)
    as (_ & Hp & _).
  destruct (Hp eq_refl) as (formatted & Hrun & Hs & _).
  exists formatted. split; [exact Hrun | exact Hs].
Defined.

(** X19: [cancel_statement] sends one POST to the cancel URL of the handle
    and returns whether the answer was 200; once it has its token it never
    raises, and it does not read the body. *)
Theorem cancel_statement_reports_status (env : Env) (statement_handle : json)
    (st : St) (access_token : json) (st1 : St) :
  _get_access_token env st = (Ok access_token, st1) ->
  let req := cancel_request statement_handle access_token (clock (world st1)) in
  let response := server env (log (world st1)) req in
  cancel_statement env statement_handle st
    = (Ok (status_code response =? 200), sent env st1 req) /\
  log (world (sent env st1 req)) = req :: log (world st1).
Proof.
  intros Htok. cbv zeta.
  unfold cancel_statement, bindE at 1. rewrite Htok.
  run_exec. split; reflexivity.
Qed.

Lemma cancel_statement_reports_status_witness :
  (cancel_statement refusing_cancel_env (JStr "h") (client (JStr "T0") 100 0)).1
  = Ok false.
Proof.
  destruct (cancel_statement_reports_status refusing_cancel_env (JStr "h")
              (client (JStr "T0") 100 0) (JStr "T0")
              (count_lookup (client (JStr "T0") 100 0)).2 eq_refl) as [-> _].
  reflexivity.
Defined.

(** ** The table renderer *)

Lemma append_length (a b : string) :
  String.length (String.append a b) = (String.length a + String.length b)%nat.
Proof. induction a as [|c a IH]; simpl; [reflexivity|]. rewrite IH. reflexivity. Qed.

Lemma spaces_length (n : nat) : String.length (spaces n) = n.
Proof. induction n as [|n IH]; simpl; [reflexivity|]. rewrite IH. reflexivity. Qed.

Lemma dashes_length (n : nat) : String.length (dashes n) = n.
Proof. induction n as [|n IH]; simpl; [reflexivity|]. rewrite IH. reflexivity. Qed.

Lemma ljust_length (s : string) (w : nat) :
  String.length (ljust s w) = Nat.max (String.length s) w.
Proof. unfold ljust. rewrite append_length, spaces_length. lia. Qed.

Section TableProperties.

Variable py_str : json -> string.
Variable json_dumps : gmap string json -> string.

(** X20: a result whose [success] is false, or whose [data] is empty, is
    rendered as its JSON dump; its columns and row count are not read. *)
Theorem format_table_falls_back (result : gmap string json) (success : json) :
  result !! "success" = Some success ->
  Py.truthy success = false \/
  (exists data, result !! "data" = Some data /\ Py.truthy data = false) ->
  format_table py_str json_dumps result = Done (json_dumps result).
Proof.
  intros Hs Hempty. unfold format_table. simpl. rewrite Hs. simpl.
  destruct (Py.truthy success) eqn:Ht; simpl; [|reflexivity].
  destruct Hempty as [|(data & Hd & Hf)]; [discriminate|].
  rewrite Hd. simpl. rewrite Hf. reflexivity.
Qed.

(** The width pass over one row keeps the number of widths, lowers none,
    and leaves each cell's width at least as long as the cell's text. *)
Lemma widen_row_spec (cells : list json) :
  forall (i : nat) (widths widths' : list nat),
    widen_row py_str i cells widths = Done widths' ->
    Forall2 le widths widths' /\
    forall j val, cells !! j = Some val ->
      exists w, widths' !! (i + j)%nat = Some w /\
                (String.length (cell_text py_str val) <= w)%nat.
Proof.
  induction cells as [|val cells IH]; intros i widths widths'; simpl.
  - intros [= <-]. split; [apply Forall2_same_length_lookup_2; [reflexivity|]|].
    + intros k a b Ha Hb. rewrite Ha in Hb. injection Hb as <-. lia.
    + intros j v Hj. destruct j; discriminate.
  - unfold width_at. destruct (widths !! i) as [w|] eqn:Hw; simpl; [|discriminate].
    intros Hrec. apply IH in Hrec as [Hle Hcells].
    assert (Hstep : Forall2 le widths
                      (<[i := Nat.max w (String.length (cell_text py_str val))]> widths)).
    { apply Forall2_same_length_lookup_2; [rewrite length_insert; reflexivity|].
      intros k a b Ha Hb. destruct (decide (i = k)) as [<-|Hne].
      - rewrite list_lookup_insert_eq in Hb by (eapply lookup_lt_Some; eauto).
        injection Hb as <-. rewrite Hw in Ha. injection Ha as <-. lia.
      - rewrite list_lookup_insert_ne in Hb by exact Hne.
        rewrite Ha in Hb. injection Hb as <-. lia. }
    split.
    + eapply Forall2_trans; [|exact Hstep|exact Hle]. intros; lia.
    + intros [|j] v Hj; simpl in Hj.
      * injection Hj as <-. rewrite Nat.add_0_r.
        assert (Hi : <[i := Nat.max w (String.length (cell_text py_str val))]> widths !! i
                     = Some (Nat.max w (String.length (cell_text py_str val)))).
        { apply list_lookup_insert_eq. eapply lookup_lt_Some; eauto. }
        destruct (Forall2_lookup_l _ _ _ _ _ Hle Hi) as (b & Hb & Hab).
        exists b. split; [exact Hb|lia].
      * destruct (Hcells j v Hj) as (b & Hb & Hlen).
        exists b. split; [|exact Hlen].
        replace (i + S j)%nat with (S i + j)%nat by lia. exact Hb.
Qed.

(** The width pass raises [IndexError] on a row with more cells than
    there are widths, and on no shorter row. *)
Lemma widen_row_outcome (cells : list json) :
  forall (i : nat) (widths : list nat),
    (i <= length widths)%nat ->
    if decide (i + length cells <= length widths)%nat
    then exists widths', widen_row py_str i cells widths = Done widths'
    else widen_row py_str i cells widths = Failed IndexError.
Proof.
  induction cells as [|val cells IH]; intros i widths Hi; simpl.
  - rewrite Nat.add_0_r. rewrite decide_True by exact Hi. eauto.
  - unfold width_at. destruct (widths !! i) as [w|] eqn:Hw; simpl.
    + apply lookup_lt_Some in Hw.
      specialize (IH (S i)
        (<[i := Nat.max w (String.length (cell_text py_str val))]> widths)).
      rewrite length_insert in IH. specialize (IH ltac:(lia)).
      destruct (decide (S i + length cells <= length widths)%nat);
        [rewrite decide_True by lia|rewrite decide_False by lia]; exact IH.
    + apply lookup_ge_None in Hw. rewrite decide_False by lia. reflexivity.
Qed.

Lemma widen_row_length (cells : list json) (i : nat) (widths widths' : list nat) :
  widen_row py_str i cells widths = Done widths' -> length widths' = length widths.
Proof.
  intros [Hle _]%widen_row_spec. symmetry. eapply Forall2_length. exact Hle.
Qed.

Lemma iter_row (n : nat) (row : json) :
  is_row n row = true ->
  exists cells, row = JList cells /\ (length cells <= n)%nat.
Proof.
  destruct row as [| | | | |cells|]; simpl; try discriminate.
  intros H%Nat.leb_le. eauto.
Qed.

(** The width pass over rows that are lists no longer than the widths. *)
Lemma widen_spec (rows : list json) :
  forall widths : list nat,
    forallb (is_row (length widths)) rows = true ->
    exists widths',
      widen py_str rows widths = Done widths' /\
      Forall2 le widths widths' /\
      forall k cells j val,
        rows !! k = Some (JList cells) -> cells !! j = Some val ->
        exists w, widths' !! j = Some w /\
                  (String.length (cell_text py_str val) <= w)%nat.
Proof.
  induction rows as [|row rows IH]; intros widths; simpl.
  - intros _. exists widths. split; [reflexivity|]. split.
    + apply Forall2_same_length_lookup_2; [reflexivity|].
      intros k a b Ha Hb. rewrite Ha in Hb. injection Hb as <-. lia.
    + intros k cells j val Hk. destruct k; discriminate.
  - intros [Hrow Hrows]%andb_prop.
    destruct (iter_row _ _ Hrow) as (cells & -> & Hlen). simpl.
    pose proof (widen_row_outcome cells 0 widths ltac:(lia)) as Hout.
    rewrite decide_True in Hout by (simpl; lia).
    destruct Hout as (w1 & Hw1). rewrite Hw1. simpl.
    pose proof (widen_row_spec _ _ _ _ Hw1) as (Hle1 & Hcells1).
    destruct (IH w1) as (w2 & Hw2 & Hle2 & Hcells2).
    { rewrite (widen_row_length _ _ _ _ Hw1). exact Hrows. }
    exists w2. split; [exact Hw2|]. split.
    + eapply Forall2_trans; [|exact Hle1|exact Hle2]. intros; lia.
    + intros [|k] cs j val Hk Hj; simpl in Hk.
      * injection Hk as <-. destruct (Hcells1 j val Hj) as (a & Ha & Hlen1).
        simpl in Ha.
        destruct (Forall2_lookup_l _ _ _ _ _ Hle2 Ha) as (b & Hb & Hab).
        exists b. split; [exact Hb|lia].
      * eapply Hcells2; eauto.
Qed.

(** The width pass stops with [IndexError] at the first row that has more
    cells than there are columns. *)
Lemma widen_long_row (good : list json) (cells : list json) (rest : list json) :
  forall widths : list nat,
    forallb (is_row (length widths)) good = true ->
    (length widths < length cells)%nat ->
    widen py_str (good ++ JList cells :: rest) widths = Failed IndexError.
Proof.
  induction good as [|row good IH]; intros widths; simpl.
  - intros _ Hlong.
    pose proof (widen_row_outcome cells 0 widths ltac:(lia)) as Hout.
    rewrite decide_False in Hout by (simpl; lia). rewrite Hout. reflexivity.
  - intros [Hrow Hgood]%andb_prop Hlong.
    destruct (iter_row _ _ Hrow) as (cs & -> & Hlen). simpl.
    pose proof (widen_row_outcome cs 0 widths ltac:(lia)) as Hout.
    rewrite decide_True in Hout by (simpl; lia).
    destruct Hout as (w1 & Hw1). rewrite Hw1. simpl.
    apply IH; rewrite (widen_row_length _ _ _ _ Hw1); assumption.
Qed.

Lemma names_of_columns (cols : list json) :
  forallb named_column cols = true ->
  exists names : list string,
    Py.comprehension (fun col => Py.subscript col "name") cols
      = Ok (map JStr names) /\
    length names = length cols.
Proof.
  induction cols as [|col cols IH]; simpl.
  - intros _. exists []. auto.
  - intros [Hcol Hcols]%andb_prop.
    destruct col as [| | | | | |c]; simpl in Hcol; try discriminate.
    destruct (c !! "name") as [[| | | |s| |]|] eqn:Hn; try discriminate.
    destruct (IH Hcols) as (names & Hnames & Hlen).
    exists (s :: names). simpl. rewrite Hn. simpl. rewrite Hnames. simpl.
    split; [reflexivity|]. rewrite Hlen. reflexivity.
Qed.

Lemma lengths_of_names (names : list string) :
  Py.comprehension py_len (map JStr names) = Ok (map String.length names).
Proof.
  induction names as [|s names IH]; simpl; [reflexivity|].
  rewrite IH. reflexivity.
Qed.

(** X21: a table with a data row that has more cells than there are
    columns cannot be rendered: [format_table] raises [IndexError] at the
    first such row. *)
Theorem format_table_long_row (result : gmap string json) (success : json)
    (cols good : list json) (cells rest : list json) :
  result !! "success" = Some success ->
  Py.truthy success = true ->
  result !! "columns" = Some (JList cols) ->
  forallb named_column cols = true ->
  result !! "data" = Some (JList (good ++ JList cells :: rest)) ->
  forallb (is_row (length cols)) good = true ->
  (length cols < length cells)%nat ->
  format_table py_str json_dumps result = Failed IndexError.
Proof.
  intros Hs Ht Hc Hnamed Hd Hgood Hlong.
  unfold format_table. simpl. rewrite Hs. simpl. rewrite Ht, Hd. simpl.
  assert (Htruthy : (match good ++ JList cells :: rest with
                     | [] => false | _ => true end) = true)
    by (destruct good; reflexivity).
  rewrite Htruthy. simpl.
  unfold table_lines. cbn [Py.subscript]. rewrite Hc, Hd.
  cbn [of_result bindO Py.iter].
  destruct (names_of_columns cols Hnamed) as (names & -> & Hlen).
  cbn [of_result bindO]. rewrite lengths_of_names. cbn [of_result bindO].
  rewrite widen_long_row; [reflexivity| |].
  - rewrite length_map, Hlen. exact Hgood.
  - rewrite length_map, Hlen. exact Hlong.
Qed.

End TableProperties.

Lemma format_table_falls_back_witness :
  format_table show (fun _ => "{}") (<["data" := JList []]> formatted7)
  = Done "{}".
Proof.
  apply (format_table_falls_back show (fun _ => "{}")
           (<["data" := JList []]> formatted7) (JBool true)).
  - reflexivity.
  - right. exists (JList []). split; reflexivity.
Defined.

Lemma format_table_long_row_witness :
  format_table show (fun _ => "{}") ragged_result = Failed IndexError.
Proof.
  apply (format_table_long_row show (fun _ => "{}") ragged_result (JBool true)
           [JObject (<["name" := JStr "A"]>
                     (<["type" := JStr "TEXT"]> {["nullable" := JBool true]}))]
           [JList [JStr "x"]] [JStr "y"; JStr "z"] []);
    try reflexivity.
  simpl. lia.
Defined.

Section TableLayout.

Variable py_str : json -> string.
Variable json_dumps : gmap string json -> string.

Lemma concat_length (strs : list string) (widths : list nat) :
  Forall2 (fun s w => String.length s = w) strs widths ->
  String.length (String.concat " | " strs) = joined widths.
Proof.
  induction 1 as [|s w strs widths Hs Hrest IH]; [reflexivity|].
  destruct Hrest as [|s' w' strs' widths' Hs' Hrest'].
  - simpl. exact Hs.
  - change (String.concat " | " (s :: s' :: strs'))
      with (String.append s (String.append " | " (String.concat " | " (s' :: strs')))).
    rewrite !append_length, IH, Hs. simpl. lia.
Qed.

Lemma header_cells_spec (names : list string) :
  forall (i : nat) (widths : list nat),
    Forall2 (fun s w => (String.length s <= w)%nat) names (drop i widths) ->
    exists cells,
      header_cells i (map JStr names) widths = Done cells /\
      Forall2 (fun s w => String.length s = w) cells (drop i widths).
Proof.
  induction names as [|s names IH]; intros i widths Hle; simpl.
  - inversion Hle. exists []. split; [reflexivity|constructor].
  - inversion Hle as [|? w ? tl Hs Hrest Heq1 Heq2]. subst.
    assert (Hw : widths !! i = Some w).
    { rewrite <- (Nat.add_0_r i), <- lookup_drop, <- Heq2. reflexivity. }
    assert (Htl : drop (S i) widths = tl).
    { rewrite (drop_S _ _ _ Hw) in Heq2. congruence. }
    unfold width_at. rewrite Hw. simpl.
    destruct (IH (S i) widths) as (cells & Hcells & Hall);
      [rewrite Htl; exact Hrest|].
    rewrite Hcells. simpl. eexists. split; [reflexivity|].
    constructor; [rewrite ljust_length; lia|]. rewrite <- Htl. exact Hall.
Qed.

Lemma row_cells_spec (cells : list json) :
  forall (i : nat) (widths : list nat),
    (forall j val, cells !! j = Some val ->
       exists w, widths !! (i + j)%nat = Some w /\
                 (String.length (cell_text py_str val) <= w)%nat) ->
    exists strs,
      row_cells py_str i cells widths = Done strs /\
      Forall2 (fun s w => String.length s = w) strs
        (take (length cells) (drop i widths)).
Proof.
  induction cells as [|val cells IH]; intros i widths Hfit; simpl.
  - exists []. split; [reflexivity|constructor].
  - destruct (Hfit 0%nat val eq_refl) as (w & Hw & Hlen).
    rewrite Nat.add_0_r in Hw.
    unfold width_at. rewrite Hw. simpl.
    destruct (IH (S i) widths) as (strs & Hstrs & Hall).
    { intros j v Hj. destruct (Hfit (S j) v Hj) as (b & Hb & Hvb).
      exists b. split; [|exact Hvb].
      replace (S i + j)%nat with (i + S j)%nat by lia. exact Hb. }
    rewrite Hstrs. simpl. eexists. split; [reflexivity|].
    rewrite (drop_S _ _ _ Hw). simpl.
    constructor; [rewrite ljust_length; lia|exact Hall].
Qed.

Lemma body_lines_spec (widths : list nat) (rows : list json) :
  forallb (is_row (length widths)) rows = true ->
  (forall k cells j val,
      rows !! k = Some (JList cells) -> cells !! j = Some val ->
      exists w, widths !! j = Some w /\
                (String.length (cell_text py_str val) <= w)%nat) ->
  exists body,
    body_lines py_str rows widths = Done body /\
    length body = length rows /\
    forall k cells line,
      rows !! k = Some (JList cells) ->
      length cells = length widths ->
      body !! k = Some line ->
      String.length line = joined widths.
Proof.
  induction rows as [|row rows IH]; simpl.
  - intros _ _. exists []. split; [reflexivity|]. split; [reflexivity|].
    intros k cells line Hk. destruct k; discriminate.
  - intros [Hrow Hrows]%andb_prop Hfit.
    destruct (iter_row _ _ Hrow) as (cells & -> & Hlen). simpl.
    destruct (row_cells_spec cells 0 widths) as (strs & Hstrs & Hall).
    { intros j val Hj. simpl. exact (Hfit 0%nat cells j val eq_refl Hj). }
    rewrite Hstrs. simpl.
    destruct (IH Hrows) as (body & Hbody & Hblen & Hlines).
    { intros k cs j val Hk Hj. exact (Hfit (S k) cs j val Hk Hj). }
    rewrite Hbody. simpl. eexists. split; [reflexivity|].
    split; [simpl; rewrite Hblen; reflexivity|].
    intros [|k] cs line Hk Hfull Hline; simpl in Hk, Hline.
    + injection Hk as <-. injection Hline as <-.
      apply concat_length.
      rewrite Hfull, drop_0, take_ge in Hall by lia. exact Hall.
    + eapply Hlines; eauto.
Qed.

Lemma table_layout (result : gmap string json) (success : json)
    (cols rows : list json) (row_count : json) :
  result !! "success" = Some success ->
  Py.truthy success = true ->
  result !! "columns" = Some (JList cols) ->
  forallb named_column cols = true ->
  result !! "data" = Some (JList rows) ->
  rows <> [] ->
  forallb (is_row (length cols)) rows = true ->
  result !! "row_count" = Some row_count ->
  exists header body,
    format_table py_str json_dumps result
      = Done (String.concat newline
                (header :: dashes (String.length header) :: body
                 ++ [EmptyString;
                     String.append "(" (String.append (py_str row_count) " rows)")])) /\
    length body = length rows /\
    forall k cells line,
      rows !! k = Some (JList cells) ->
      length cells = length cols ->
      body !! k = Some line ->
      String.length line = String.length header.
Proof.
  intros Hs Ht Hc Hnamed Hd Hne Hrows Hrc.
  unfold format_table. cbn [Py.subscript]. rewrite Hs, Hd.
  cbn [of_result bindO]. rewrite Ht.
  assert (Htruthy : Py.truthy (JList rows) = true)
    by (destruct rows; [contradiction|reflexivity]).
  rewrite Htruthy. cbn [negb of_result bindO].
  unfold table_lines. cbn [Py.subscript]. rewrite Hc, Hd, Hrc.
  cbn [of_result bindO Py.iter].
  destruct (names_of_columns cols Hnamed) as (names & -> & Hlen).
  cbn [of_result bindO]. rewrite lengths_of_names. cbn [of_result bindO].
  destruct (widen_spec py_str rows (map String.length names))
    as (widths & -> & Hle & Hfit).
  { rewrite length_map, Hlen. exact Hrows. }
  cbn [bindO].
  assert (Hwlen : length widths = length cols).
  { rewrite <- (Forall2_length _ _ _ Hle), length_map. exact Hlen. }
  destruct (header_cells_spec names 0 widths) as (hcells & -> & Hh).
  { rewrite drop_0. clear -Hle. revert widths Hle.
    induction names as [|s names IH]; intros widths Hle; simpl in Hle;
      inversion Hle; subst; constructor; auto. }
  rewrite drop_0 in Hh. cbn [bindO].
  destruct (body_lines_spec widths rows) as (body & -> & Hblen & Hlines).
  { rewrite Hwlen. exact Hrows. }
  { exact Hfit. }
  cbn [bindO].
  exists (String.concat " | " hcells), body.
  split; [reflexivity|]. split; [exact Hblen|].
  intros k cells line Hk Hfull Hline.
  rewrite (concat_length _ _ Hh).
  eapply Hlines; eauto. congruence.
Qed.

(** X22: for a successful result whose columns have str names and whose
    data is a non-empty list of rows, each a list of at most as many cells
    as there are columns, [format_table] returns the header, a rule of
    dashes as long as the header, one line per row, an empty line and the
    row count; every row that has a cell for each column is padded to
    exactly the length of the header. *)
Theorem format_table_layout (result : gmap string json) (success : json)
    (cols rows : list json) (row_count : json) :
  result !! "success" = Some success ->
  Py.truthy success = true ->
  result !! "columns" = Some (JList cols) ->
  forallb named_column cols = true ->
  result !! "data" = Some (JList rows) ->
  rows <> [] ->
  forallb (is_row (length cols)) rows = true ->
  result !! "row_count" = Some row_count ->
  exists header body,
    format_table py_str json_dumps result
      = Done (String.concat newline
                (header :: dashes (String.length header) :: body
                 ++ [EmptyString;
                     String.append "(" (String.append (py_str row_count) " rows)")])) /\
    length body = length rows /\
    forall k cells line,
      rows !! k = Some (JList cells) ->
      length cells = length cols ->
      body !! k = Some line ->
      String.length line = String.length header.
Proof. exact (table_layout result success cols rows row_count). Qed.

End TableLayout.

Lemma format_table_layout_witness :
  exists header body,
    format_table show (fun _ => "{}") formatted7
      = Done (String.concat newline
                (header :: dashes (String.length header) :: body
                 ++ [EmptyString; "(2 rows)"])) /\
    length body = 2%nat.
Proof.
  destruct (format_table_layout show (fun _ => "{}") formatted7 (JBool true)
              [JObject (<["name" := JStr "A"]>
                        (<["type" := JStr "TEXT"]> {["nullable" := JBool true]}))]
              [JList [JStr "x"]; JList [JNull]] (JInt 2))
    as (header & body & Hrun & Hlen & _); try reflexivity.
  - discriminate.
  - exists header, body. split; [exact Hrun | exact Hlen].
Defined.

(** ** The constructor *)

Lemma configured_lookup (environ : gmap string string) (k : string) :
  configured environ k = true ->
  exists v, environ !! k = Some v /\ v <> EmptyString.
Proof.
  unfold configured. destruct (environ !! k) as [v|]; [|discriminate].
  intros H%negb_true_iff. exists v. split; [reflexivity|].
  intros ->. discriminate.
Qed.

(** X23: the constructor succeeds exactly when the account identifier,
    the client id, the client secret and the refresh token are all set
    and not empty, and raises [ValueError] otherwise; the instance it
    returns holds these credentials, the database and schema of the
    environment or the empty string, and no token. *)
Theorem init_requires_credentials (environ : gmap string string) :
  if fully_configured environ then
    exists s,
      __init__ environ = Done s /\
      environ !! "OAUTH_CLIENT_ID" = Some (oauth_client_id s) /\
      environ !! "OAUTH_CLIENT_SECRET" = Some (oauth_client_secret s) /\
      environ !! "OAUTH_REFRESH_TOKEN" = Some (refresh_token s) /\
      database s = from_option id EmptyString (environ !! "MCP_DATABASE") /\
      schema s = from_option id EmptyString (environ !! "MCP_SCHEMA") /\
      _access_token s = JNull /\
      _token_expires_at s = 0%Q
  else __init__ environ = Failed ValueError.
Proof.
  unfold __init__, fully_configured.
  destruct (configured environ "SNOWFLAKE_ACCOUNT_IDENTIFIER" &&
            configured environ "OAUTH_CLIENT_ID" &&
            configured environ "OAUTH_CLIENT_SECRET" &&
            configured environ "OAUTH_REFRESH_TOKEN") eqn:Hall; simpl;
    [|reflexivity].
  apply andb_prop in Hall as [[[_ Hid]%andb_prop Hsecret]%andb_prop Hrefresh].
  destruct (configured_lookup _ _ Hid) as (id & Hid' & _).
  destruct (configured_lookup _ _ Hsecret) as (secret & Hsecret' & _).
  destruct (configured_lookup _ _ Hrefresh) as (refresh & Hrefresh' & _).
  eexists. split; [reflexivity|]. simpl.
  rewrite Hid', Hsecret', Hrefresh'. simpl. auto 10.
Qed.

Lemma init_fields (environ : gmap string string) (s : SnowflakeAPI) :
  __init__ environ = Done s ->
  environ !! "OAUTH_CLIENT_ID" = Some (oauth_client_id s) /\
  environ !! "OAUTH_CLIENT_SECRET" = Some (oauth_client_secret s) /\
  environ !! "OAUTH_REFRESH_TOKEN" = Some (refresh_token s) /\
  _access_token s = JNull.
Proof.
  unfold __init__.
  destruct (configured environ "SNOWFLAKE_ACCOUNT_IDENTIFIER" &&
            configured environ "OAUTH_CLIENT_ID" &&
            configured environ "OAUTH_CLIENT_SECRET" &&
            configured environ "OAUTH_REFRESH_TOKEN") eqn:Hall; simpl;
    [|discriminate].
  apply andb_prop in Hall as [[[_ Hid]%andb_prop Hsecret]%andb_prop Hrefresh].
  destruct (configured_lookup _ _ Hid) as (id & Hid' & _).
  destruct (configured_lookup _ _ Hsecret) as (secret & Hsecret' & _).
  destruct (configured_lookup _ _ Hrefresh) as (refresh & Hrefresh' & _).
  intros [= <-]. simpl. rewrite Hid', Hsecret', Hrefresh'. auto.
Qed.

(** X24: the first token lookup of a newly constructed client always goes
    to the token endpoint, whatever the clock reads, and sends the
    configured refresh token, client id and client secret. *)
Theorem new_client_refreshes_first (environ : gmap string string)
    (s : SnowflakeAPI) (env : Env) (w : World) :
  __init__ environ = Done s ->
  let st := {| self := s; world := w |} in
  exists r st',
    _get_access_token env st = (r, st') /\
    log (world st') = refresh_request st :: log w /\
    data (refresh_request st) !! "grant_type" = Some "refresh_token" /\
    data (refresh_request st) !! "refresh_token" = environ !! "OAUTH_REFRESH_TOKEN" /\
    data (refresh_request st) !! "client_id" = environ !! "OAUTH_CLIENT_ID" /\
    data (refresh_request st) !! "client_secret" = environ !! "OAUTH_CLIENT_SECRET".
Proof.
  intros Hinit. cbv zeta.
  pose proof (init_fields environ s Hinit) as (Hid & Hsecret & Hrefresh & Htok).
  destruct (get_access_token_refreshes env {| self := s; world := w |})
    as (r & st' & Hrun & Hlog).
  { unfold token_is_cached. simpl. rewrite Htok. reflexivity. }
  exists r, st'. split; [exact Hrun|]. split; [exact Hlog|].
  unfold refresh_request, refresh_form. simpl.
  rewrite Hid, Hsecret, Hrefresh. repeat split.
Qed.

Lemma new_client_refreshes_first_witness :
  exists s r st',
    __init__ full_environ = Done s /\
    _get_access_token completed_env
      {| self := s; world := {| clock := 0; log := []; token_lookups := 0 |} |}
      = (r, st') /\
    length (log (world st')) = 1%nat.
Proof.
  eexists. 
  destruct (new_client_refreshes_first full_environ _ completed_env
              {| clock := 0; log := []; token_lookups := 0 |} eq_refl)
    as (r & st' & Hrun & Hlog & _).
  exists r, st'. split; [reflexivity|]. split; [exact Hrun|].
  rewrite Hlog. reflexivity.
Defined.

(** ** From the raw envelope to the table *)

Section Rendering.

Variable py_str : json -> string.
Variable json_dumps : gmap string json -> string.

(** X25: an envelope without [resultSetMetaData], such as an error
    payload, is normalised to a result that [format_table] renders as its
    JSON dump: the renderer raises nothing on it. *)
Theorem error_envelope_is_dumped (m : gmap string json) :
  m !! "resultSetMetaData" = None ->
  exists formatted,
    _format_result (JObject m) = Ok formatted /\
    format_table py_str json_dumps formatted = Done (json_dumps formatted).
Proof.
  intros Hmd.
  destruct (pending_is_unsuccessful m Hmd) as (formatted & Hf & Hs & _).
  exists formatted. split; [exact Hf|].
  unfold format_table. cbn [Py.subscript]. rewrite Hs. reflexivity.
Qed.

Lemma described_is_named (cols : list json) :
  forallb str_named_descriptor cols = true ->
  forallb is_column_descriptor cols = true /\
  forallb named_column (map described cols) = true.
Proof.
  induction cols as [|col cols IH]; simpl; [auto|].
  intros [[Hd Hn]%andb_prop Hcols]%andb_prop.
  destruct (IH Hcols) as [IH1 IH2]. rewrite Hd, IH1, IH2.
  split; [reflexivity|]. rewrite andb_true_r.
  destruct col as [| | | | | |c]; simpl in *; try discriminate.
  rewrite lookup_insert_eq.
  destruct (c !! "name") as [[| | | |s| |]|]; simpl in *; try discriminate.
  reflexivity.
Qed.

(** X26: an envelope whose [rowType] descriptors have str names and
    types, and whose data is a non-empty list of rows, each a list with at
    most one cell per column, goes through the normaliser and the
    renderer without an exception, and the table has one line per row
    between the two header lines and the two footer lines. *)
Theorem result_envelope_renders (m md : gmap string json) (cols rows : list json) :
  m !! "resultSetMetaData" = Some (JObject md) ->
  md !! "rowType" = Some (JList cols) ->
  forallb str_named_descriptor cols = true ->
  m !! "data" = Some (JList rows) ->
  rows <> [] ->
  forallb (is_row (length cols)) rows = true ->
  exists formatted header body,
    _format_result (JObject m) = Ok formatted /\
    format_table py_str json_dumps formatted
      = Done (String.concat newline
                (header :: dashes (String.length header) :: body
                 ++ [EmptyString;
                     String.append "("
                       (String.append
                          (py_str (from_option id (JInt 0) (md !! "numRows")))
                          " rows)")])) /\
    length body = length rows.
Proof.
  intros Hmd Hrt Hcols Hd Hne Hrows.
  destruct (described_is_named cols Hcols) as [Hdesc Hnamed].
  destruct (format_result_with_columns m md cols Hmd Hrt Hdesc)
    as (formatted & Hf & Hc & Hrc & Hdata).
  rewrite Hd in Hdata. simpl in Hdata.
  assert (Hs : formatted !! "success" = Some (JBool true)).
  { revert Hf. unfold _format_result. simpl. rewrite Hmd. simpl. rewrite Hrt. simpl.
    rewrite (comprehension_described cols Hdesc). simpl. rewrite Hd. simpl.
    destruct (m !! "message"); destruct (m !! "code"); simpl;
      intros [= <-]; reflexivity. }
  destruct (table_layout py_str json_dumps formatted (JBool true)
              (map described cols) rows
              (from_option id (JInt 0) (md !! "numRows")))
    as (header & body & Hrun & Hlen & _); auto.
  { rewrite length_map. exact Hrows. }
  exists formatted, header, body. auto.
Qed.

End Rendering.

Lemma error_envelope_is_dumped_witness :
  exists formatted,
    _format_result
      (JObject (<["message" := JStr "table not found"]> {["code" := JStr "002003"]}))
      = Ok formatted /\
    format_table show (fun _ => "{}") formatted = Done "{}".
Proof.
  exact (error_envelope_is_dumped show (fun _ => "{}")
           (<["message" := JStr "table not found"]> {["code" := JStr "002003"]})
           eq_refl).
Defined.

Lemma result_envelope_renders_witness :
  exists formatted header body,
    _format_result envelope7 = Ok formatted /\
    format_table show (fun _ => "{}") formatted
      = Done (String.concat newline
                (header :: dashes (String.length header) :: body
                 ++ [EmptyString; "(2 rows)"])) /\
    length body = 2%nat.
Proof.
  destruct (result_envelope_renders show (fun _ => "{}")
              (<["resultSetMetaData" :=
                   JObject
                     (<["rowType" :=
                          JList [JObject (<["name" := JStr "A"]> {["type" := JStr "TEXT"]})]]>
                      {["numRows" := JInt 2]})]>
               {["data" := JList [JList [JStr "x"]; JList [JNull]]]})
              (<["rowType" :=
                   JList [JObject (<["name" := JStr "A"]> {["type" := JStr "TEXT"]})]]>
               {["numRows" := JInt 2]})
              [JObject (<["name" := JStr "A"]> {["type" := JStr "TEXT"]})]
              [JList [JStr "x"]; JList [JNull]])
    as (formatted & header & body & Hf & Hrun & Hlen); try reflexivity.
  - discriminate.
  - exists formatted, header, body. auto.
Defined.

(** ** More on the token cache *)

(** X27: a token lookup never changes the configuration of the instance
    (credentials, database, schema), whether it returns or raises; it
    sends nothing or the one refresh request, and never a status fetch. *)
Theorem token_lookup_keeps_configuration (env : Env) (st : St) :
  configuration (self (_get_access_token env st).2) = configuration (self st) /\
  (log (world (_get_access_token env st).2) = log (world st) \/
   log (world (_get_access_token env st).2) = refresh_request st :: log (world st)).
Proof.
  unfold _get_access_token. run_exec. unfold refresh_request.
  destruct (Py.truthy (_access_token (self st))); simpl;
    repeat break_match; simpl; auto.
Qed.

(** X28: a refresh that reports a lifetime of zero or less leaves a token
    that is already expired: the next lookup refreshes again. *)
Theorem lifeless_token_is_not_reused (env : Env) (st : St) (tok : json) (st1 : St)
    (token_data : gmap string json) (n : Q) :
  token_is_cached st = false ->
  _get_access_token env st = (Ok tok, st1) ->
  json_body (server env (log (world st)) (refresh_request st))
    = Some (JObject token_data) ->
  Py.as_number (from_option id (JInt 600) (token_data !! "expires_in")) = Ok n ->
  (n <= 0)%Q ->
  exists r st2,
    _get_access_token env st1 = (r, st2) /\
    log (world st2) = refresh_request st1 :: refresh_request st :: log (world st).
Proof.
  intros Hc Hrun Hb Hn Hle.
  pose proof (refresh_success_state env st tok st1 Hc Hrun)
    as (token_data' & n' & _ & Hb' & _ & Hn' & _ & _ & Hexp & Hlog).
  rewrite Hb in Hb'. injection Hb' as <-. rewrite Hn in Hn'. injection Hn' as <-.
  destruct (get_access_token_refreshes env st1) as (r & st2 & Hrun2 & Hlog2).
  { unfold token_is_cached. apply andb_false_iff. right.
    apply Qlt_bool_false_iff. rewrite Hexp.
    assert (n * (9 # 10) <= 0)%Q by nra. lra. }
  exists r, st2. split; [exact Hrun2|]. rewrite Hlog2, Hlog. reflexivity.
Qed.

Lemma lifeless_token_is_not_reused_witness :
  exists r st2,
    _get_access_token expired_grant_env
      (_get_access_token expired_grant_env (client JNull 0 50)).2 = (r, st2) /\
    length (log (world st2)) = 2%nat.
Proof.
  destruct (lifeless_token_is_not_reused expired_grant_env (client JNull 0 50)
              (JStr "T1") (_get_access_token expired_grant_env (client JNull 0 50)).2
              (<["access_token" := JStr "T1"]> {["expires_in" := JInt 0]}) 0
              eq_refl eq_refl eq_refl eq_refl)
    as (r & st2 & Hrun & Hlog).
  - unfold Qle. simpl. lia.
  - exists r, st2. split; [exact Hrun|]. rewrite Hlog. reflexivity.
Defined.

(** ** What a successful [execute] returns *)

(** X29: when [execute] returns a result, it is the normalisation of a
    body: that of the submission when it was answered 200, and otherwise
    (202) that of the last status fetch, which carries a terminal
    marker. *)
Theorem execute_returns_normalised_body (env : Env) (sql : string) (timeout : Z)
    (o : Overrides) (st : St) (access_token : json) (st1 : St)
    (formatted : gmap string json) :
  _get_access_token env st = (Ok access_token, st1) ->
  (execute env sql timeout o st).1 = Ok formatted ->
  let req := submit_request access_token
               (execute_payload (self st1) sql timeout o) (clock (world st1)) in
  let response := server env (log (world st1)) req in
  exists body,
    _format_result body = Ok formatted /\
    (status_code response = 200 /\ response_json response = Ok body \/
     status_code response = 202 /\ terminal body /\
     exists fetch rest,
       log (world (execute env sql timeout o st).2) = fetch :: rest /\
       method fetch = GET /\
       response_json (server env rest fetch) = Ok body).
Proof.
  intros Htok. rewrite execute_unfold, Htok. cbv zeta.
  set (req := submit_request access_token
                (execute_payload (self st1) sql timeout o) (clock (world st1))).
  set (response := server env (log (world st1)) req).
  destruct (status_code response =? 200) eqn:H200;
    [apply Z.eqb_eq in H200|apply Z.eqb_neq in H200];
    (destruct (status_code response =? 202) eqn:H202;
      [apply Z.eqb_eq in H202|apply Z.eqb_neq in H202]); simpl negb; cbv iota.
  - lia.
  - destruct (response_json response) as [body|e]; simpl; [|discriminate].
    intros Hf. exists body. auto.
  - destruct (response_json response) as [body|e]; simpl; [|discriminate].
    destruct (Py.subscript body "statementHandle") as [h|e]; simpl; [|discriminate].
    destruct (_poll_statement env h timeout (sent env st1 req))
      as [[result|e] st3] eqn:Hpoll; simpl; [|discriminate].
    intros Hf. exists result. split; [exact Hf|]. right. split; [exact H202|].
    pose proof (poll_statement_unfold env h timeout (sent env st1 req)) as Hu.
    rewrite Hpoll in Hu.
    destruct (_get_access_token env (sent env st1 req)) as [[tok2|e] st2];
      [|discriminate].
    symmetry in Hu.
    apply poll_loop_returns_terminal in Hu
      as (Hterm & t & rest & Hlog & _ & Hjson & _).
    split; [exact Hterm|].
    exists (poll_request h tok2 t), rest. auto.
  - simpl. discriminate.
Qed.

Lemma execute_returns_normalised_body_witness :
  exists body,
    _format_result body = Ok formatted7 /\
    response_json (respond 200 envelope7 instant) = Ok body.
Proof.
  destruct (execute_returns_normalised_body completed_env "SELECT 1" 60 no_overrides
              (client (JStr "T0") 100 0) (JStr "T0")
              (count_lookup (client (JStr "T0") 100 0)).2 formatted7
              eq_refl eq_refl) as (body & Hf & [[_ Hb]|[H202 _]]).
  - exists body. split; [exact Hf | exact Hb].
  - discriminate H202.
Defined.
